(** * Covid-19 Dashboard: the data wrangling cells and the refresh button

    A shallow embedding of the code cells of [Dashboard.ipynb] that build
    the two date-indexed tables ([parse_date], [initialize_dataframe],
    [set_dataframe_value], [wrangle_data]) and of the refresh button
    ([api_button_callback], [refresh_graph]), followed by the properties
    the specification states about them.

    Python objects that the notebook mutates (lists, data frames, the
    button, the global variables) live in an explicit store; every
    function of the notebook is a computation in a state-and-exception
    monad over that store. *)

From Stdlib Require Import ZArith Lia List String Ascii SpecFloat Sorted.
From stdpp Require Import base option list gmap strings.

Local Open Scope Z_scope.

(** ** Exceptions and results *)

(** The Python exception classes the modelled code can raise. *)
Inductive exn :=
  | IndexError      (* list index out of range *)
  | KeyError        (* missing dict key or missing row/column label *)
  | ValueError      (* unparsable date, unconvertible number, ambiguous truth value *)
  | TypeError       (* operation applied to an object of the wrong type *)
  | OverflowError   (* int too large to convert to float *)
  | ConnectionError (* any failure of the data acquisition step *).

Inductive result (A : Type) :=
  | Ok (a : A)
  | Err (e : exn).
Arguments Ok {A} a.
Arguments Err {A} e.

#[global] Instance exn_eq_dec : EqDecision exn.
Proof. solve_decision. Defined.

Definition is_Ok {A} (r : result A) : Prop :=
  match r with Ok _ => True | Err _ => False end.

(** ** Floating point numbers

    Python floats are IEEE 754 binary64 numbers; [spec_float] is the
    Standard Library's inductive description of them. *)

Abbreviation float := spec_float.
Definition prec : Z := 53.
Definition emax : Z := 1024.

Definition nan : float := S754_nan.
Definition zero : float := S754_zero false.   (* the literal 0.0 *)

(** [pd.isna] on a scalar cell. *)
Definition isna (f : float) : bool :=
  match f with S754_nan => true | _ => false end.

Definition is_finite (f : float) : bool :=
  match f with S754_zero _ | S754_finite _ _ _ => true | _ => false end.

(** [float(z)] for a Python int: rounded to the nearest binary64 number,
    ties to even; an int beyond the range of floats raises OverflowError. *)
Definition float_of_int (z : Z) : result float :=
  match binary_normalize prec emax z 0 false with
  | S754_infinity _ => Err OverflowError
  | f => Ok f
  end.

(** ** Raw records

    A raw record is a JSON object with a string under ['Date'] and, under
    other names, numbers or the JSON null: what the cached file and the
    API deliver.  A number is a Python int or a Python float, which can
    be infinite or NaN ([json] reads 1e999 as inf and accepts the literal
    NaN). *)

Inductive number :=
  | NoData                 (* None *)
  | Int (z : Z)            (* a Python int *)
  | Float (f : float).     (* a Python float *)

Record entry := { Date : string; fields : gmap string number }.

(** What [entry[key]] evaluates to. *)
Inductive pyval :=
  | PStr (s : string)
  | PNum (n : number).

Definition getitem (e : entry) (key : string) : result pyval :=
  if decide (key = "Date") then Ok (PStr (Date e))
  else match fields e !! key with
       | Some n => Ok (PNum n)
       | None => Err KeyError
       end.

(** [v != None]. *)
Definition is_not_None (v : pyval) : bool :=
  match v with PNum NoData => false | _ => true end.

(** ** Dates

    A [Timestamp] at midnight is represented by its day number in the
    proleptic Gregorian calendar (day 1 is 0001-01-01), the number
    [datetime.date.toordinal] returns. *)

Abbreviation Timestamp := Z (only parsing).

Definition is_leap (y : Z) : bool :=
  (y mod 4 =? 0) && (negb (y mod 100 =? 0) || (y mod 400 =? 0)).

Definition days_before_year (y : Z) : Z :=
  let y1 := y - 1 in y1 * 365 + y1 / 4 - y1 / 100 + y1 / 400.

Definition days_in_month (y m : Z) : Z :=
  if m =? 2 then (if is_leap y then 29 else 28)
  else if (m =? 4) || (m =? 6) || (m =? 9) || (m =? 11) then 30
  else 31.

Definition days_before_month (y m : Z) : Z :=
  nth (Z.to_nat (m - 1)) [0; 31; 59; 90; 120; 151; 181; 212; 243; 273; 304; 334] 0
  + (if (2 <? m) && is_leap y then 1 else 0).

Definition ymd2ord (y m d : Z) : Z :=
  days_before_year y + days_before_month y m + d.

(** A month and a day of that month. *)
Definition valid_ymd (y m d : Z) : Prop :=
  1 <= m <= 12 ∧ 1 <= d <= days_in_month y m.

(** Timestamps are 64-bit nanosecond counts: the first and last midnights
    that fit are 1677-09-22 and 2262-04-11. *)
Definition Timestamp_min : Z := ymd2ord 1677 9 22.
Definition Timestamp_max : Z := ymd2ord 2262 4 11.

Definition digit (c : ascii) : option Z :=
  let n := Z.of_N (N_of_ascii c) in
  if (48 <=? n) && (n <=? 57) then Some (n - 48) else None.

Definition is_dash (c : ascii) : bool := (N_of_ascii c =? 45)%N.

(** The fields of a string of the shape dddd-dd-dd. *)
Definition split_ymd (s : string) : option (Z * Z * Z) :=
  match list_ascii_of_string s with
  | [y1; y2; y3; y4; s1; m1; m2; s2; d1; d2] =>
      if is_dash s1 && is_dash s2 then
        y1 ← digit y1; y2 ← digit y2; y3 ← digit y3; y4 ← digit y4;
        m1 ← digit m1; m2 ← digit m2; d1 ← digit d1; d2 ← digit d2;
        Some (1000 * y1 + 100 * y2 + 10 * y3 + y4, 10 * m1 + m2, 10 * d1 + d2)
      else None
  | _ => None
  end.

(** The fields of the shapes dddd-d-d, dddd-d-dd and dddd-dd-d. *)
Definition split_ymd_short (s : string) : option (Z * Z * Z) :=
  match list_ascii_of_string s with
  | [y1; y2; y3; y4; s1; m1; s2; d1] =>
      if is_dash s1 && is_dash s2 then
        y1 ← digit y1; y2 ← digit y2; y3 ← digit y3; y4 ← digit y4;
        m1 ← digit m1; d1 ← digit d1;
        Some (1000 * y1 + 100 * y2 + 10 * y3 + y4, m1, d1)
      else None
  | [y1; y2; y3; y4; s1; a; b; c; d] =>
      if is_dash s1 && is_dash b then
        y1 ← digit y1; y2 ← digit y2; y3 ← digit y3; y4 ← digit y4;
        m1 ← digit a; d1 ← digit c; d2 ← digit d;
        Some (1000 * y1 + 100 * y2 + 10 * y3 + y4, m1, 10 * d1 + d2)
      else if is_dash s1 && is_dash c then
        y1 ← digit y1; y2 ← digit y2; y3 ← digit y3; y4 ← digit y4;
        m1 ← digit a; m2 ← digit b; d1 ← digit d;
        Some (1000 * y1 + 100 * y2 + 10 * y3 + y4, 10 * m1 + m2, d1)
      else None
  | _ => None
  end.

(** The day of a year, a month and a day of the month, when they are a
    date of the calendar that a Timestamp can hold. *)
Definition day_of (k : Z * Z * Z) : option Timestamp :=
  let '(y, m, d) := k in
  if (1 <=? m) && (m <=? 12) && (1 <=? d) && (d <=? days_in_month y m)
     && (Timestamp_min <=? ymd2ord y m d) && (ymd2ord y m d <=? Timestamp_max)
  then Some (ymd2ord y m d)
  else None.

(** The day that a zero-padded date string YYYY-MM-DD denotes; [None]
    for every other string. *)
Definition iso_date (s : string) : option Timestamp :=
  split_ymd s ≫= day_of.

(** A parser of the format "%Y-%m-%d" with which the sample runs are
    computed: year-month-day, the month and the day with one or two
    digits, as [strptime] reads the format.  The library accepts these
    strings and others; the theorems hold for every parser. *)
Definition strptime_ymd (s : string) : option Timestamp :=
  match split_ymd s with
  | Some k => day_of k
  | None => split_ymd_short s ≫= day_of
  end.

(** [float] on the date strings of the sample runs: they are written
    with dashes, and none of them is a float literal. *)
Definition float_rejects (s : string) : option float := None.

(** [pd.date_range(start, end, freq='D')]: every day from [start] to
    [end], both included; empty when [end] is before [start]. *)
Definition date_range (start end_ : Timestamp) : list Timestamp :=
  map (λ i, start + Z.of_nat i) (seq 0 (Z.to_nat (end_ - start + 1))).

(** ** Lists of strings

    [list.sort()] on strings orders them by code point, which is
    [String.leb] on the encoded string. *)
Fixpoint insert_sorted (x : string) (l : list string) : list string :=
  match l with
  | [] => [x]
  | y :: l' => if String.leb x y then x :: l else y :: insert_sorted x l'
  end.

Definition sorted (l : list string) : list string :=
  foldr insert_sorted [] l.

(** A list in the order [list.sort()] leaves it. *)
Definition ordered (l : list string) : Prop :=
  StronglySorted (λ a b, String.leb a b = true) l.

(** [l[i]] with Python's negative indices. *)
Definition list_item {A} (l : list A) (i : Z) : result A :=
  let j := if i <? 0 then i + Z.of_nat (length l) else i in
  if j <? 0 then Err IndexError
  else match l !! Z.to_nat j with
       | Some x => Ok x
       | None => Err IndexError
       end.

(** ** Data frames

    A frame has row labels, column labels and one float per pair of
    labels; NaN is the value of a cell that has not been set. *)

Record DataFrame := {
  index : list Timestamp;
  columns : list string;
  cells : gmap (Z * string) float
}.

Definition nan_cells (idx : list Timestamp) (cols : list string)
  : gmap (Z * string) float :=
  gset_to_gmap nan (list_to_set (list_prod idx cols)).

(** [pd.DataFrame(index=index, columns=column_array)]: every cell NaN. *)
Definition DataFrame_new (idx : list Timestamp) (cols : list string) : DataFrame :=
  {| index := idx; columns := cols; cells := nan_cells idx cols |}.

(** What [dataframe.loc[date, column]] selects: a scalar, or a Series
    with one element per occurrence of a repeated column label. *)
Inductive selection :=
  | Scalar (v : float)
  | Series (vs : list float).

Definition loc_get (df : DataFrame) (date : Timestamp) (column : string)
  : result selection :=
  match cells df !! (date, column) with
  | None => Err KeyError
  | Some v =>
      match count_occ string_dec (columns df) column with
      | 1%nat => Ok (Scalar v)
      | n => Ok (Series (replicate n v))
      end
  end.

(** [if pd.isna(x):] the truth value of a Series of booleans with more
    than one element is ambiguous and raises ValueError. *)
Definition isna_truth (x : selection) : result bool :=
  match x with
  | Scalar v => Ok (isna v)
  | Series _ => Err ValueError
  end.

(** [dataframe.loc[date, column] = val]: sets the cell; a label that does
    not exist yet is appended, with NaN in its other cells. *)
Definition loc_set (df : DataFrame) (date : Timestamp) (column : string)
    (val : float) : DataFrame :=
  if decide (date ∈ index df ∧ column ∈ columns df) then
    {| index := index df; columns := columns df;
       cells := <[(date, column) := val]> (cells df) |}
  else
    let idx := if decide (date ∈ index df) then index df else index df ++ [date] in
    let cols := if decide (column ∈ columns df) then columns df
                else columns df ++ [column] in
    {| index := idx; columns := cols;
       cells := <[(date, column) := val]> (cells df ∪ nan_cells idx cols) |}.

(** [df.fillna(x)] *)
Definition fillna (x : float) (df : DataFrame) : DataFrame :=
  {| index := index df; columns := columns df;
     cells := (λ v, if isna v then x else v) <$> cells df |}.

(** ** Widgets *)

Record Button := {
  description : string;
  disabled : bool;
  button_style : string;
  tooltip : string;
  icon : string
}.

Record SelectMultiple := {
  options : list string;
  value : list string
}.

(** ** The store *)

(** The mutable objects the code creates and passes around. *)
Inductive obj :=
  | ORecords (l : list entry)     (* a list of raw records *)
  | OStrs (l : list string)       (* a list of strings *)
  | OFrame (df : DataFrame).      (* a data frame *)

(** References are positions in the heap. *)
Abbreviation ref := nat (only parsing).

(** The heap and the global variables of the notebook. *)
Record World := {
  heap : list obj;
  hospital_ventilator_df : ref;
  vaccine_cases_df : ref;
  apibutton : Button;
  hospital_ventilator_options : SelectMultiple
}.

Definition with_heap (h : list obj) (w : World) : World :=
  {| heap := h;
     hospital_ventilator_df := hospital_ventilator_df w;
     vaccine_cases_df := vaccine_cases_df w;
     apibutton := apibutton w;
     hospital_ventilator_options := hospital_ventilator_options w |}.

(** ** The monad of notebook code: state and exceptions.  A raised
    exception keeps the store as it is at that point. *)

Definition Py (A : Type) : Type := World → result A * World.

#[global] Instance Py_ret : MRet Py := λ A a w, (Ok a, w).

#[global] Instance Py_bind : MBind Py := λ A B f m w,
  match m w with
  | (Ok a, w') => f a w'
  | (Err e, w') => (Err e, w')
  end.

Definition raise {A} (e : exn) : Py A := λ w, (Err e, w).

Definition lift {A} (r : result A) : Py A := λ w, (r, w).

(** [try: body except: handler] with a bare [except], which catches
    every exception. *)
Definition try_except (body handler : Py unit) : Py unit := λ w,
  match body w with
  | (Ok tt, w') => (Ok tt, w')
  | (Err _, w') => handler w'
  end.

Fixpoint for_each {A} (l : list A) (body : A → Py unit) : Py unit :=
  match l with
  | [] => mret tt
  | x :: l' => body x;; for_each l' body
  end.

(** Allocation of a new object. *)
Definition alloc (o : obj) : Py ref := λ w,
  (Ok (length (heap w)), with_heap (heap w ++ [o]) w).

(** Reading an object.  The typed readers below raise TypeError on an
    object of another kind. *)
Definition load (l : ref) : Py obj := λ w,
  match heap w !! l with
  | Some o => (Ok o, w)
  | None => (Err TypeError, w)
  end.

Definition store (l : ref) (o : obj) : Py unit := λ w,
  (Ok tt, with_heap (<[l := o]> (heap w)) w).

Definition get_records (l : ref) : Py (list entry) :=
  o ← load l; match o with ORecords rs => mret rs | _ => raise TypeError end.

Definition get_strs (l : ref) : Py (list string) :=
  o ← load l; match o with OStrs ss => mret ss | _ => raise TypeError end.

Definition get_frame (l : ref) : Py DataFrame :=
  o ← load l; match o with OFrame df => mret df | _ => raise TypeError end.

(** [l.sort()], in place. *)
Definition list_sort (l : ref) : Py unit :=
  ss ← get_strs l; store l (OStrs (sorted ss)).

(** Evaluation of closed goals. *)
Ltac vm_done := vm_compute; first [reflexivity | exact I | tauto].

(** ** Helper functions used for data wrangling *)

Section Notebook.

(** [pd.to_datetime(datestring, format="%Y-%m-%d")] is a function of the
    library, and which strings it accepts besides the zero-padded form
    depends on its version ("2021-9-01" and "2021-1-1" are accepted):
    it is a parameter here.  It gives the day of the Timestamp the
    library returns, a Timestamp at midnight, and [None] when the library
    raises, which it does with ValueError or a subclass of it
    (OutOfBoundsDatetime, ParserError).  Every property below is proved
    for every such function.

    Strings that the library reads as no day are outside this
    embedding: the empty string, for which it returns NaT, and "now" and
    "today", for which it returns the present moment, which differs from
    call to call. *)
Variable to_datetime : string → option Timestamp.

Definition parse_date (datestring : string) : result Timestamp :=
  match to_datetime datestring with
  | Some t => Ok t
  | None => Err ValueError
  end.

(** The library reads a zero-padded date string as the day it denotes. *)
Definition reads_iso_dates : Prop :=
  ∀ s d, iso_date s = Some d → parse_date s = Ok d.

(** [float(s)] for a string, the built-in reading of a float literal:
    the float, or [None] when it raises ValueError.  The only strings
    that reach it are ['Date'] values, when "Date" itself is requested as
    a column; whether a string that the library reads as a date is also a
    float literal ("20210101") depends on what the library accepts, so
    that this function is a parameter as well. *)
Variable float_of_str : string → option float.

(** [float(v)]. *)
Definition py_float (v : pyval) : result float :=
  match v with
  | PNum (Int z) => float_of_int z
  | PNum (Float f) => Ok f
  | PNum NoData => Err TypeError
  | PStr s => match float_of_str s with Some f => Ok f | None => Err ValueError end
  end.


Definition initialize_dataframe (rawdata column_array : ref) : Py ref :=
  (* dates=[dictionary['Date'] for dictionary in rawdata] *)
  rs ← get_records rawdata;
  dates ← alloc (OStrs (Date <$> rs));
  (* dates.sort() *)
  list_sort dates;;
  (* index=pd.date_range(parse_date(dates[0]), parse_date(dates[-1]), freq='D') *)
  ds ← get_strs dates;
  first ← lift (list_item ds 0);
  start ← lift (parse_date first);
  ds ← get_strs dates;
  last ← lift (list_item ds (-1));
  end_ ← lift (parse_date last);
  let index := date_range start end_ in
  (* return pd.DataFrame(index=index, columns=column_array) *)
  cols ← get_strs column_array;
  alloc (OFrame (DataFrame_new index cols)).

Definition set_dataframe_value (dataframe : ref) (entry : entry) (column : string)
  : Py unit :=
  (* date=parse_date(entry['Date']) *)
  date ← lift (parse_date (Date entry));
  (* if pd.isna(dataframe.loc[date,column]): *)
  df ← get_frame dataframe;
  x ← lift (loc_get df date column);
  missing ← lift (isna_truth x);
  if missing : bool then
    (* val = float(entry[column]) if entry[column]!= None else 0.0 *)
    v ← lift (getitem entry column);
    val ← (if is_not_None v then
             v ← lift (getitem entry column); lift (py_float v)
           else mret zero);
    (* dataframe.loc[date,column]=val *)
    df ← get_frame dataframe;
    store dataframe (OFrame (loc_set df date column val))
  else mret tt.

(** The outer loop runs over the records the list holds when the loop
    starts, the inner loop over the columns the list holds each time it
    starts; the body of the loops writes to the frame only. *)
Definition wrangle_data (rawdata column_array : ref) : Py ref :=
  (* df=initialize_dataframe(rawdata, column_array) *)
  df ← initialize_dataframe rawdata column_array;
  (* for entry in rawdata: for column in column_array: *)
  entries ← get_records rawdata;
  for_each entries (λ entry,
    cols ← get_strs column_array;
    for_each cols (λ column,
      set_dataframe_value df entry column));;
  (* df.fillna(0.0, inplace=True) *)
  d ← get_frame df;
  store df (OFrame (fillna zero d));;
  mret df.

(** ** The refresh button *)

Definition with_hospital_ventilator_df (l : ref) (w : World) : World :=
  {| heap := heap w;
     hospital_ventilator_df := l;
     vaccine_cases_df := vaccine_cases_df w;
     apibutton := apibutton w;
     hospital_ventilator_options := hospital_ventilator_options w |}.

Definition with_vaccine_cases_df (l : ref) (w : World) : World :=
  {| heap := heap w;
     hospital_ventilator_df := hospital_ventilator_df w;
     vaccine_cases_df := l;
     apibutton := apibutton w;
     hospital_ventilator_options := hospital_ventilator_options w |}.

Definition with_apibutton (b : Button) (w : World) : World :=
  {| heap := heap w;
     hospital_ventilator_df := hospital_ventilator_df w;
     vaccine_cases_df := vaccine_cases_df w;
     apibutton := b;
     hospital_ventilator_options := hospital_ventilator_options w |}.

Definition with_hospital_ventilator_options (o : SelectMultiple) (w : World) : World :=
  {| heap := heap w;
     hospital_ventilator_df := hospital_ventilator_df w;
     vaccine_cases_df := vaccine_cases_df w;
     apibutton := apibutton w;
     hospital_ventilator_options := o |}.

(** Assignments to the global variables and to the attributes of the
    widgets. *)
Definition set_hospital_ventilator_df (l : ref) : Py unit := λ w,
  (Ok tt, with_hospital_ventilator_df l w).

Definition set_vaccine_cases_df (l : ref) : Py unit := λ w,
  (Ok tt, with_vaccine_cases_df l w).

Definition modify_apibutton (f : Button → Button) : Py unit := λ w,
  (Ok tt, with_apibutton (f (apibutton w)) w).

Definition set_icon (s : string) (b : Button) : Button :=
  {| description := description b; disabled := disabled b;
     button_style := button_style b; tooltip := tooltip b; icon := s |}.

Definition set_disabled (d : bool) (b : Button) : Button :=
  {| description := description b; disabled := d;
     button_style := button_style b; tooltip := tooltip b; icon := icon b |}.

Definition set_description (s : string) (b : Button) : Button :=
  {| description := s; disabled := disabled b;
     button_style := button_style b; tooltip := tooltip b; icon := icon b |}.

Definition set_options_value (v : list string) : Py unit := λ w,
  (Ok tt, with_hospital_ventilator_options
            {| options := options (hospital_ventilator_options w); value := v |} w).

(** [access_api()['data']].  The answer of the server is an input of the
    model: either the list of records under ['data'], a new object, or
    the exception that the request or the lookup raised. *)
Definition access_api_data (response : result (list entry)) : Py ref :=
  match response with
  | Ok data => alloc (ORecords data)
  | Err e => raise e
  end.

(** [refresh_graph()]: swaps the selection away and back, which makes the
    widget redraw the graph. *)
Definition refresh_graph : Py unit := λ w,
  let opts := hospital_ventilator_options w in
  let current := value opts in
  let other :=
    if decide (current = take 3 (options opts)) then take 2 (options opts)
    else take 3 (options opts) in
  (set_options_value other;; set_options_value current) w.

Definition hospital_ventilator_columns : list string :=
  ["Hospital Admissions"; "Occupied Ventilator Beds"; "Daily Deaths"].

Definition vaccine_cases_columns : list string :=
  ["Daily Cases"; "Daily Vaccines Administered"].

Definition api_button_callback (response : result (list entry)) : Py unit :=
  try_except
    ((* apidata=access_api()['data'] *)
     apidata ← access_api_data response;
     (* hospital_ventilator_df=wrangle_data(apidata, [...]) *)
     cols ← alloc (OStrs hospital_ventilator_columns);
     df ← wrangle_data apidata cols;
     set_hospital_ventilator_df df;;
     (* vaccine_cases_df=wrangle_data(apidata, [...]) *)
     cols ← alloc (OStrs vaccine_cases_columns);
     df ← wrangle_data apidata cols;
     set_vaccine_cases_df df;;
     (* Update button to show success *)
     modify_apibutton (set_icon "check");;
     modify_apibutton (set_disabled true);;
     modify_apibutton (set_description "REFRESHED"))
    ((* Disable button and give user negative feedback *)
     modify_apibutton (set_disabled true);;
     modify_apibutton (set_icon "times");;
     modify_apibutton (set_description "UNAVAILABLE"));;
  (* Refresh graph with updated values *)
  refresh_graph.

(** The button as the notebook creates it. *)
Definition apibutton_created : Button :=
  {| description := "REFRESH"; disabled := false; button_style := "info";
     tooltip := "Update covid19 data"; icon := "download" |}.

(** [apibutton.on_click(api_button_callback)] registers the handler: it
    runs for every click message that reaches the kernel.  The code
    never tests [disabled]; it is the front end that sends no click for a
    button it shows as disabled. *)
Definition click (response : result (list entry)) : Py unit :=
  api_button_callback response.

(** A session: the click messages that reach the kernel, in order, each
    with the answer the server gives when its handler runs. *)
Fixpoint session (responses : list (result (list entry))) (w : World) : World :=
  match responses with
  | [] => w
  | r :: rest => session rest (click r w).2
  end.

(** ** The cells that build the tables when the notebook is opened *)

Definition notebook_cells (cached : list entry) : Py unit :=
  (* covid_jsondata=load_json_data('covid_data') *)
  covid_jsondata ← alloc (ORecords cached);
  (* hospital_ventilator_df=wrangle_data(covid_jsondata, [...]) *)
  cols ← alloc (OStrs hospital_ventilator_columns);
  df ← wrangle_data covid_jsondata cols;
  set_hospital_ventilator_df df;;
  (* vaccine_cases_df=wrangle_data(covid_jsondata, [...]) *)
  cols ← alloc (OStrs vaccine_cases_columns);
  df ← wrangle_data covid_jsondata cols;
  set_vaccine_cases_df df.

(** The button after the three assignments of the success path and of
    the failure path, and the notebook after [refresh_graph]. *)
Definition button_refreshed (b : Button) : Button :=
  set_description "REFRESHED" (set_disabled true (set_icon "check" b)).

Definition button_unavailable (b : Button) : Button :=
  set_description "UNAVAILABLE" (set_icon "times" (set_disabled true b)).

Definition redrawn (w : World) : World :=
  with_hospital_ventilator_options
    {| options := options (hospital_ventilator_options w);
       value := value (hospital_ventilator_options w) |} w.

(** What the button shows after a refresh. *)
Definition shows_failure (w : World) : Prop :=
  icon (apibutton w) = "times" ∧ description (apibutton w) = "UNAVAILABLE".

Definition shows_success (w : World) : Prop :=
  icon (apibutton w) = "check" ∧ description (apibutton w) = "REFRESHED".

(** ** Sample data *)

(** A store that holds the given objects and a freshly created button. *)
Definition world_of (objs : list obj) : World :=
  {| heap := objs;
     hospital_ventilator_df := 0%nat;
     vaccine_cases_df := 0%nat;
     apibutton := apibutton_created;
     hospital_ventilator_options :=
       {| options := hospital_ventilator_columns;
          value := hospital_ventilator_columns |} |}.

(** [{Date:"2021-01-01", A:5}, {Date:"2021-01-03", A:7}] *)
Definition scenario_records : list entry :=
  [ {| Date := "2021-01-01"; fields := {[ "A" := Int 5 ]} |};
    {| Date := "2021-01-03"; fields := {[ "A" := Int 7 ]} |} ].

Definition scenario_world : World :=
  world_of [ORecords scenario_records; OStrs ["A"]].

(** One record whose value is the float infinity, as [json.load] reads
    the number 1e999. *)
Definition infinite_records : list entry :=
  [ {| Date := "2021-01-01"; fields := {[ "A" := Float (S754_infinity false) ]} |} ].

Definition infinite_world : World :=
  world_of [ORecords infinite_records; OStrs ["A"]].

(** Two records for the same day with different values. *)
Definition first_record : entry :=
  {| Date := "2021-02-01"; fields := {[ "A" := Int 5 ]} |}.

Definition second_record : entry :=
  {| Date := "2021-02-01"; fields := {[ "A" := Int 9 ]} |}.

Definition duplicate_world : World :=
  world_of [ORecords [first_record; second_record]; OStrs ["A"];
            ORecords [first_record; {| Date := "2021-02-01"; fields := ∅ |}]].

(** Two records for the same day, the first with the float NaN, as
    [json.load] reads the literal NaN. *)
Definition nan_records : list entry :=
  [ {| Date := "2021-02-01"; fields := {[ "A" := Float S754_nan ]} |};
    {| Date := "2021-02-01"; fields := {[ "A" := Int 9 ]} |} ].

Definition nan_world : World :=
  world_of [ORecords nan_records; OStrs ["A"]].

(** A record without the requested column. *)
Definition missing_records : list entry :=
  [ {| Date := "2021-01-01"; fields := ∅ |} ].

Definition missing_world : World :=
  world_of [ORecords missing_records; OStrs ["A"]].



(** A cached file with one full record, and the notebook once its cells
    have run on it. *)
Definition cached_records : list entry :=
  [ {| Date := "2021-01-01";
       fields := {[ "Hospital Admissions" := Int 10;
                    "Occupied Ventilator Beds" := Int 3;
                    "Daily Deaths" := NoData;
                    "Daily Cases" := Int 100;
                    "Daily Vaccines Administered" := Int 50 ]} |} ].

Definition started_world : World :=
  (notebook_cells cached_records (world_of [])).2.

(** An answer of the server whose record lacks the vaccine and case
    fields. *)
Definition partial_records : list entry :=
  [ {| Date := "2021-01-02";
       fields := {[ "Hospital Admissions" := Int 12;
                    "Occupied Ventilator Beds" := Int 4;
                    "Daily Deaths" := Int 1 ]} |} ].

(** The notebook after a click that receives this answer. *)
Definition refreshed_partial : World :=
  (api_button_callback (Ok partial_records) started_world).2.

(** Two records, and the same two with a record between them whose
    date string is not a date. *)
Definition outer_records : list entry :=
  [ {| Date := "2021-01-01"; fields := {[ "A" := Int 1 ]} |};
    {| Date := "2021-01-03"; fields := {[ "A" := Int 3 ]} |} ].

Definition interior_record : entry :=
  {| Date := "2021-01-02x"; fields := {[ "A" := Int 2 ]} |}.

Definition interior_world : World :=
  world_of [ORecords outer_records; OStrs ["A"];
            ORecords [ {| Date := "2021-01-01"; fields := {[ "A" := Int 1 ]} |};
                       interior_record;
                       {| Date := "2021-01-03"; fields := {[ "A" := Int 3 ]} |} ]].

(** The records of [scenario_records] with a field that is not
    requested, and in the other order. *)
Definition annotated_records : list entry :=
  [ {| Date := "2021-01-01"; fields := {[ "A" := Int 5; "B" := Int 1 ]} |};
    {| Date := "2021-01-03"; fields := {[ "A" := Int 7; "B" := NoData ]} |} ].

Definition reversed_records : list entry :=
  [ {| Date := "2021-01-03"; fields := {[ "A" := Int 7 ]} |};
    {| Date := "2021-01-01"; fields := {[ "A" := Int 5 ]} |} ].

Definition variants_world : World :=
  world_of [ORecords scenario_records; OStrs ["A"];
            ORecords annotated_records; ORecords reversed_records;
            OStrs ["B"; "A"]].

(** The store after [wrangle_data] on [scenario_records], with the
    table bound to [hospital_ventilator_df]. *)
Definition plotted_world : World :=
  with_hospital_ventilator_df 3%nat (wrangle_data 0%nat 1%nat scenario_world).2.



(** A record whose value is None and a record whose value is the float
    2.5. *)
Definition marker_records : list entry :=
  [ {| Date := "2021-01-01"; fields := {[ "A" := NoData ]} |};
    {| Date := "2021-01-02";
       fields := {[ "A" := Float (S754_finite false 5629499534213120 (-51)) ]} |} ].

Definition marker_world : World :=
  world_of [ORecords marker_records; OStrs ["A"]].

(** No record at all. *)
Definition empty_world : World :=
  world_of [ORecords []; OStrs ["A"]].

(** ** What the wrangling functions compute

    The functions below describe, without the store, what the code above
    computes from the contents of its arguments; [wrangle_data_run] proves
    that they do. *)

#[global] Instance result_ret : MRet result := λ A a, Ok a.

#[global] Instance result_bind : MBind result := λ A B f r,
  match r with Ok a => f a | Err e => Err e end.

(** The first and the last day of the index. *)
Definition span (rs : list entry) : result (Z * Z) :=
  let dates := sorted (Date <$> rs) in
  first ← list_item dates 0;
  start ← parse_date first;
  last ← list_item dates (-1);
  end_ ← parse_date last;
  Ok (start, end_).

(** The float a record provides for a column. *)
Definition cell_value (e : entry) (c : string) : result float :=
  v ← getitem e c;
  if is_not_None v then (v ← getitem e c; py_float v) else Ok zero.

(** One call of [set_dataframe_value] on the frame. *)
Definition fill_cell (df : DataFrame) (e : entry) (c : string) : result DataFrame :=
  date ← parse_date (Date e);
  x ← loc_get df date c;
  missing ← isna_truth x;
  if missing : bool then
    val ← cell_value e c; Ok (loc_set df date c val)
  else Ok df.

(** The calls of the two nested loops, in order, up to the first
    exception: the exception, if any, and the frame at that point. *)
Fixpoint fill_cells (df : DataFrame) (ps : list (entry * string))
  : option exn * DataFrame :=
  match ps with
  | [] => (None, df)
  | (e, c) :: ps' =>
      match fill_cell df e c with
      | Ok df' => fill_cells df' ps'
      | Err x => (Some x, df)
      end
  end.

Definition pairs (rs : list entry) (cs : list string) : list (entry * string) :=
  concat (map (λ e, map (pair e) cs) rs).

(** The table [wrangle_data] returns, or the exception it raises. *)
Definition wrangle_frame (rs : list entry) (cs : list string) : result DataFrame :=
  match span rs with
  | Err x => Err x
  | Ok (start, end_) =>
      match fill_cells (DataFrame_new (date_range start end_) cs) (pairs rs cs) with
      | (Some x, _) => Err x
      | (None, df) => Ok (fillna zero df)
      end
  end.

(** The objects [wrangle_data] allocates: the list [dates] and, unless
    building the index fails, the frame. *)
Definition wrangle_objs (rs : list entry) (cs : list string) : list obj :=
  OStrs (sorted (Date <$> rs)) ::
  match span rs with
  | Err _ => []
  | Ok (start, end_) =>
      match fill_cells (DataFrame_new (date_range start end_) cs) (pairs rs cs) with
      | (Some _, df) => [OFrame df]
      | (None, df) => [OFrame (fillna zero df)]
      end
  end.

(** Every pair of labels has a cell, and only those. *)
Definition wf_frame (df : DataFrame) : Prop :=
  ∀ d c, is_Some (cells df !! (d, c)) ↔ d ∈ index df ∧ c ∈ columns df.

(** The number a record has for the cell of day [d] and column [c]: the
    float of its value for [c] when its date is [d], unless that float
    is NaN. *)
Definition provides (e : entry) (d : Timestamp) (c : string) : option float :=
  match parse_date (Date e), cell_value e c with
  | Ok d', Ok f => if decide (d' = d) then (if isna f then None else Some f) else None
  | _, _ => None
  end.

(** The first number the records have for a cell, in list order. *)
Fixpoint first_value (rs : list entry) (d : Timestamp) (c : string) : option float :=
  match rs with
  | [] => None
  | e :: rs' =>
      match provides e d c with
      | Some f => Some f
      | None => first_value rs' d c
      end
  end.

Fixpoint first_write (ps : list (entry * string)) (d : Timestamp) (c : string)
  : option float :=
  match ps with
  | [] => None
  | (e, c0) :: ps' =>
      match (if decide (c = c0) then provides e d c else None) with
      | Some f => Some f
      | None => first_write ps' d c
      end
  end.

Definition outcome (r : option exn) : result unit :=
  match r with None => Ok tt | Some x => Err x end.

(** The table a call returned, read from the store. *)
Definition table_of (r : result ref * World) : result DataFrame :=
  match r with
  | (Ok l, w) =>
      match heap w !! l with
      | Some (OFrame df) => Ok df
      | _ => Err TypeError
      end
  | (Err x, _) => Err x
  end.

(** The value of a cell, NaN when the labels do not exist. *)
Definition cell (df : DataFrame) (d : Timestamp) (c : string) : float :=
  default nan (cells df !! (d, c)).

(** ** The widgets of the graphs and the plotted data *)

(** The dates of the range slider:
    [pd.date_range(hospital_ventilator_df.index[0],
                   hospital_ventilator_df.index[-1], freq='D')]. *)
Definition timeframe_dates (df : DataFrame) : result (list Timestamp) :=
  first ← list_item (index df) 0;
  last ← list_item (index df) (-1);
  Ok (date_range first last).

(** [df.loc[a : b]] on an index in increasing order, which every table
    built by [wrangle_data] has: the rows whose label lies between the
    two labels, both included. *)
Definition loc_rows (df : DataFrame) (a b : Timestamp) : DataFrame :=
  {| index := filter (λ d, a <= d <= b) (index df);
     columns := columns df;
     cells := filter (λ kv, a <= kv.1.1 <= b) (cells df) |}.

(** [df[list(option)]]: the listed columns, in the listed order; a label
    that is not a column raises KeyError. *)
Definition select_columns (df : DataFrame) (option : list string) : result DataFrame :=
  if decide (Forall (λ c, c ∈ columns df) option) then
    Ok {| index := index df;
          columns := option;
          cells := filter (λ kv, kv.1.2 ∈ option) (cells df) |}
  else Err KeyError.

(** [plot_ventilator_hospital(option, timeframe)], up to the drawing: the
    frame [hospital_ventilator_df.loc[timeframe[0] : timeframe[1]][list(option)]]
    on which [.plot()] is called. *)
Definition plot_ventilator_hospital (option : list string) (timeframe : Z * Z)
  : Py DataFrame :=
  hv ← (λ w, (Ok (hospital_ventilator_df w), w));
  df ← get_frame hv;
  lift (select_columns (loc_rows df timeframe.1 timeframe.2) option).

(** The date strings of the records sort, as strings, in the order of
    the days they are read as: true of zero-padded strings, not of
    "2021-9-01" and "2021-10-01". *)
Definition date_ordered (rs : list entry) : Prop :=
  ∀ e e' d d', e ∈ rs → e' ∈ rs →
    parse_date (Date e) = Ok d → parse_date (Date e') = Ok d' →
    String.leb (Date e) (Date e') = true → d <= d'.

(** No two records of the list are for the same day. *)
Definition one_per_day (rs : list entry) : Prop :=
  NoDup rs ∧
  ∀ e e' d, e ∈ rs → e' ∈ rs →
    parse_date (Date e) = Ok d → parse_date (Date e') = Ok d → e = e'.

(** What a computation leaves alone: the selection widget, and the
    style and the tooltip of the button. *)
Definition widgets_kept (w w' : World) : Prop :=
  hospital_ventilator_options w' = hospital_ventilator_options w ∧
  button_style (apibutton w') = button_style (apibutton w) ∧
  tooltip (apibutton w') = tooltip (apibutton w).

Definition keeps {A} (m : Py A) : Prop := ∀ w, widgets_kept w (m w).2.

(** ** Calendar arithmetic *)

Section Calendar.

Lemma days_before_year_succ y :
  days_before_year y + 365 + (if is_leap y then 1 else 0) <= days_before_year (y + 1).
Proof.
  unfold days_before_year, is_leap.
  replace (y + 1 - 1) with y by lia.
  destruct (Z.eqb_spec (y mod 4) 0), (Z.eqb_spec (y mod 100) 0),
    (Z.eqb_spec (y mod 400) 0); simpl;
    Z.div_mod_to_equations; lia.
Qed.

Lemma days_before_year_mono y y' :
  y <= y' → days_before_year y <= days_before_year y'.
Proof.
  unfold days_before_year. intros. Z.div_mod_to_equations. lia.
Qed.

Lemma month_cases m :
  1 <= m <= 12 →
  m = 1 ∨ m = 2 ∨ m = 3 ∨ m = 4 ∨ m = 5 ∨ m = 6 ∨
  m = 7 ∨ m = 8 ∨ m = 9 ∨ m = 10 ∨ m = 11 ∨ m = 12.
Proof. lia. Qed.

Ltac by_month H :=
  apply month_cases in H;
  repeat (destruct H as [H | H]); subst.

Lemma days_in_month_pos y m : 28 <= days_in_month y m <= 31.
Proof.
  unfold days_in_month.
  repeat match goal with |- context [if ?b then _ else _] => destruct b end; lia.
Qed.

(** The days of a year fit between its first day and the next year's. *)
Lemma day_of_year_bound y m d :
  valid_ymd y m d →
  1 <= days_before_month y m + d <= 365 + (if is_leap y then 1 else 0).
Proof.
  intros [Hm Hd]. by_month Hm;
    unfold days_before_month, days_in_month in *; simpl in *;
    destruct (is_leap y); simpl in *; lia.
Qed.

Lemma days_before_month_next y m m' d :
  valid_ymd y m d → 1 <= m' <= 12 → m < m' →
  days_before_month y m + d <= days_before_month y m'.
Proof.
  intros [Hm Hd] Hm' Hlt.
  by_month Hm; by_month Hm'; try lia;
    unfold days_before_month, days_in_month in *; simpl in *;
    destruct (is_leap y); simpl in *; lia.
Qed.

(** Day numbers follow the order of (year, month, day). *)
Lemma ymd2ord_mono y m d y' m' d' :
  valid_ymd y m d → valid_ymd y' m' d' →
  y < y' ∨ (y = y' ∧ (m < m' ∨ (m = m' ∧ d <= d'))) →
  ymd2ord y m d <= ymd2ord y' m' d'.
Proof.
  intros Hv Hv' Hle. unfold ymd2ord.
  destruct Hle as [Hy | [-> [Hm | [-> Hd]]]].
  - pose proof (day_of_year_bound _ _ _ Hv).
    pose proof (day_of_year_bound _ _ _ Hv').
    pose proof (days_before_year_succ y).
    pose proof (days_before_year_mono (y + 1) y' ltac:(lia)).
    lia.
  - pose proof (days_before_month_next y' m m' d Hv (proj1 Hv') Hm).
    destruct Hv' as [_ ?]. lia.
  - lia.
Qed.

End Calendar.

(** ** The order of date strings *)

Section DateStrings.

Lemma digit_inv c v :
  digit c = Some v → Z.of_N (N_of_ascii c) = v + 48 ∧ 0 <= v <= 9.
Proof.
  unfold digit. intros H.
  destruct (Z.leb_spec 48 (Z.of_N (N_of_ascii c)));
    destruct (Z.leb_spec (Z.of_N (N_of_ascii c)) 57);
    simpl in H; inversion H; lia.
Qed.

Lemma is_dash_inv c : is_dash c = true → N_of_ascii c = 45%N.
Proof. unfold is_dash. apply N.eqb_eq. Qed.

(** A date string is ten characters: digits around two dashes. *)
Lemma split_ymd_inv s y m d :
  split_ymd s = Some (y, m, d) →
  ∃ c1 c2 c3 c4 c5 c6 c7 c8 c9 c10 y1 y2 y3 y4 m1 m2 d1 d2,
    s = String c1 (String c2 (String c3 (String c4 (String c5
          (String c6 (String c7 (String c8 (String c9 (String c10 ""))))))))) ∧
    digit c1 = Some y1 ∧ digit c2 = Some y2 ∧ digit c3 = Some y3 ∧
    digit c4 = Some y4 ∧ is_dash c5 = true ∧ digit c6 = Some m1 ∧
    digit c7 = Some m2 ∧ is_dash c8 = true ∧ digit c9 = Some d1 ∧
    digit c10 = Some d2 ∧
    y = 1000 * y1 + 100 * y2 + 10 * y3 + y4 ∧ m = 10 * m1 + m2 ∧ d = 10 * d1 + d2.
Proof.
  unfold split_ymd.
  do 10 (destruct s as [|? s]; simpl; [discriminate|]).
  destruct s; simpl; [|discriminate].
  destruct (is_dash a3) eqn:E5; [|discriminate].
  destruct (is_dash a6) eqn:E8; [|discriminate]. simpl.
  repeat match goal with
         | |- context [digit ?c] =>
             lazymatch goal with
             | H : digit c = _ |- _ => fail
             | _ => destruct (digit c) eqn:?; simpl; [|discriminate]
             end
         end.
  intros [= <- <- <-]. do 18 eexists. repeat split; eauto.
Qed.

Lemma ascii_compare_spec a b :
  CompareSpec (N_of_ascii a = N_of_ascii b)
    (N_of_ascii a < N_of_ascii b)%N (N_of_ascii b < N_of_ascii a)%N
    (Ascii.compare a b).
Proof. unfold Ascii.compare. apply N.compare_spec. Qed.

(** On date strings the code point order is the order of
    (year, month, day). *)
Lemma leb_split_ymd s t y m d y' m' d' :
  split_ymd s = Some (y, m, d) → split_ymd t = Some (y', m', d') →
  String.leb s t = true →
  y < y' ∨ (y = y' ∧ (m < m' ∨ (m = m' ∧ d <= d'))).
Proof.
  intros Hs Ht.
  apply split_ymd_inv in Hs as
    (c1&c2&c3&c4&c5&c6&c7&c8&c9&c10&y1&y2&y3&y4&m1&m2&d1&d2&->&Hs).
  apply split_ymd_inv in Ht as
    (e1&e2&e3&e4&e5&e6&e7&e8&e9&e10&z1&z2&z3&z4&n1&n2&f1&f2&->&Ht).
  repeat match goal with
         | H : _ ∧ _ |- _ => destruct H
         | H : digit _ = Some _ |- _ => apply digit_inv in H
         | H : is_dash _ = true |- _ => apply is_dash_inv in H
         end.
  subst. unfold String.leb. simpl.
  repeat match goal with
         | |- context [Ascii.compare ?a ?b] =>
             destruct (ascii_compare_spec a b); simpl
         end;
    intros; try discriminate; lia.
Qed.

Lemma iso_date_inv s t :
  iso_date s = Some t →
  ∃ y m d, split_ymd s = Some (y, m, d) ∧ valid_ymd y m d ∧ t = ymd2ord y m d
           ∧ Timestamp_min <= t <= Timestamp_max.
Proof.
  unfold iso_date.
  destruct (split_ymd s) as [[[y m] d]|]; [|discriminate]. simpl.
  destruct (_ && _) eqn:E; [|discriminate].
  intros [= <-]. exists y, m, d.
  repeat (apply andb_prop in E as [E ?]).
  unfold valid_ymd. repeat split; auto; lia.
Qed.

(** On zero-padded date strings the order of strings is the order of
    days. *)
Lemma iso_date_mono s t a b :
  iso_date s = Some a → iso_date t = Some b →
  String.leb s t = true → a <= b.
Proof.
  intros (y&m&d&Hs&Hv&->&_)%iso_date_inv (y'&m'&d'&Ht&Hv'&->&_)%iso_date_inv Hle.
  apply ymd2ord_mono; auto. eapply leb_split_ymd; eauto.
Qed.

End DateStrings.

(** ** Sorting strings *)

Section Sorting.

Lemma leb_refl s : String.leb s s = true.
Proof. destruct (String.leb_total s s); auto. Qed.

Lemma leb_trans s1 s2 s3 :
  String.leb s1 s2 = true → String.leb s2 s3 = true → String.leb s1 s3 = true.
Proof.
  unfold String.leb. revert s2 s3.
  induction s1 as [|a s1 IH]; intros [|b s2] [|c s3]; simpl; auto; try discriminate.
  specialize (IH s2 s3).
  destruct (ascii_compare_spec a b), (ascii_compare_spec b c),
    (ascii_compare_spec a c); simpl; auto; try discriminate; lia.
Qed.

Lemma insert_sorted_elem x l y : y ∈ insert_sorted x l ↔ y = x ∨ y ∈ l.
Proof.
  induction l as [|z l IH]; simpl.
  - rewrite list_elem_of_singleton, elem_of_nil. tauto.
  - destruct (String.leb x z); rewrite !elem_of_cons; [tauto|].
    rewrite IH. tauto.
Qed.

Lemma sorted_elem l y : y ∈ sorted l ↔ y ∈ l.
Proof.
  induction l as [|x l IH]; simpl; [done|].
  rewrite insert_sorted_elem, elem_of_cons, IH. tauto.
Qed.

Lemma insert_sorted_ordered x l : ordered l → ordered (insert_sorted x l).
Proof.
  unfold ordered. induction 1 as [|z l Hl IH Hz]; simpl.
  - repeat constructor.
  - destruct (String.leb x z) eqn:E.
    + constructor; [by constructor|]. constructor; [done|].
      eapply Forall_impl; [exact Hz|]. intros. by eapply leb_trans.
    + constructor; [done|]. apply Forall_forall. intros y Hy.
      apply insert_sorted_elem in Hy as [->|Hy].
      * destruct (String.leb_total x z); congruence.
      * by eapply Forall_forall in Hz.
Qed.

Lemma sorted_ordered l : ordered (sorted l).
Proof.
  induction l; simpl; [constructor|]. by apply insert_sorted_ordered.
Qed.

Lemma sorted_length l : length (sorted l) = length l.
Proof.
  assert (Hi : ∀ x l, length (insert_sorted x l) = S (length l)).
  { intros x l'. induction l' as [|z l' IH]; simpl; [done|].
    destruct (String.leb x z); simpl; congruence. }
  induction l; simpl; [done|]. rewrite Hi. congruence.
Qed.

Lemma list_item_first {A} (l : list A) : 
  list_item l 0 = match l with x :: _ => Ok x | [] => Err IndexError end.
Proof. by destruct l. Qed.

Lemma list_item_last {A} (l : list A) :
  list_item l (-1) = match last l with Some x => Ok x | None => Err IndexError end.
Proof.
  unfold list_item. simpl.
  destruct l as [|x l]; [done|].
  rewrite last_lookup.
  destruct (Z.ltb_spec (-1 + Z.of_nat (length (x :: l))) 0); [simpl in *; lia|].
  replace (Z.to_nat (-1 + Z.of_nat (length (x :: l)))) with (Nat.pred (length (x :: l)))
    by (simpl; lia).
  done.
Qed.

Lemma ordered_first x l y :
  ordered (x :: l) → y ∈ x :: l → String.leb x y = true.
Proof.
  intros Ho Hy. inversion Ho; subst.
  apply elem_of_cons in Hy as [->|Hy]; [apply leb_refl|].
  by eapply Forall_forall in Hy; [|eassumption].
Qed.

Lemma ordered_last l x y :
  ordered l → last l = Some x → y ∈ l → String.leb y x = true.
Proof.
  induction 1 as [|z l Hl IH Hz]; [done|].
  intros Hlast Hy. destruct l as [|z' l].
  - simpl in Hlast. injection Hlast as <-.
    apply list_elem_of_singleton in Hy as ->. apply leb_refl.
  - change (last (z :: z' :: l)) with (last (z' :: l)) in Hlast.
    apply elem_of_cons in Hy as [->|Hy]; [|by apply IH].
    eapply Forall_forall in Hz; [exact Hz|].
    apply list_elem_of_lookup. rewrite last_lookup in Hlast. eauto.
Qed.

End Sorting.

(** ** Running the code in the store *)

Create HintDb py.
#[local] Hint Unfold mbind mret Py_bind Py_ret result_bind result_ret lift raise
  get_frame get_strs get_records load store alloc list_sort : py.

Section Run.

Lemma with_heap_id w : with_heap (heap w) w = w.
Proof. by destruct w. Qed.

Ltac py_unfold := repeat progress (autounfold with py in *; simpl in * ).

Lemma set_dataframe_value_run w l df e c :
  heap w !! l = Some (OFrame df) →
  set_dataframe_value l e c w =
    match fill_cell df e c with
    | Ok df' => (Ok tt, with_heap (<[l := OFrame df']> (heap w)) w)
    | Err x => (Err x, w)
    end.
Proof.
  intros Hl. unfold set_dataframe_value, fill_cell, cell_value. py_unfold.
  destruct (parse_date (Date e)) as [date|]; simpl; [|done].
  rewrite Hl; simpl.
  destruct (loc_get df date c) as [x|]; simpl; [|done].
  destruct (isna_truth x) as [[]|]; simpl; [| |done].
  - destruct (getitem e c) as [v|]; simpl; [|done].
    destruct (is_not_None v); simpl.
    + destruct (py_float v); simpl; [|done]. by rewrite Hl.
    + by rewrite Hl.
  - by rewrite list_insert_id, with_heap_id.
Qed.

Lemma fill_cells_app df ps qs :
  fill_cells df (ps ++ qs) =
    match fill_cells df ps with
    | (None, df') => fill_cells df' qs
    | (Some x, df') => (Some x, df')
    end.
Proof.
  revert df. induction ps as [|[e c] ps IH]; intros df; simpl; [done|].
  destruct (fill_cell df e c); simpl; [apply IH|done].
Qed.

Lemma for_each_cons_run {A} (x : A) l body w :
  for_each (x :: l) body w =
    match body x w with
    | (Ok _, w') => for_each l body w'
    | (Err e, w') => (Err e, w')
    end.
Proof. reflexivity. Qed.

Lemma get_strs_run {B} ca cs (k : list string → Py B) w :
  heap w !! ca = Some (OStrs cs) → (cols ← get_strs ca; k cols) w = k cs w.
Proof. intros H. py_unfold. by rewrite H. Qed.

Lemma get_records_run {B} l rs (k : list entry → Py B) w :
  heap w !! l = Some (ORecords rs) → (x ← get_records l; k x) w = k rs w.
Proof. intros H. py_unfold. by rewrite H. Qed.

Lemma get_frame_run {B} l df (k : DataFrame → Py B) w :
  heap w !! l = Some (OFrame df) → (x ← get_frame l; k x) w = k df w.
Proof. intros H. py_unfold. by rewrite H. Qed.

Lemma inner_loop_run cs : ∀ w l df e,
  heap w !! l = Some (OFrame df) →
  for_each cs (λ column, set_dataframe_value l e column) w =
    (outcome (fill_cells df (map (pair e) cs)).1,
     with_heap (<[l := OFrame (fill_cells df (map (pair e) cs)).2]> (heap w)) w).
Proof.
  induction cs as [|c cs IH]; intros w l df e Hl.
  - simpl. by rewrite list_insert_id, with_heap_id.
  - rewrite for_each_cons_run, (set_dataframe_value_run _ _ _ _ _ Hl).
    destruct (fill_cell df e c) as [df'|x] eqn:E; simpl; rewrite E; simpl.
    + erewrite IH; simpl.
      * by rewrite list_insert_insert_eq.
      * apply list_lookup_insert_eq. by eapply lookup_lt_Some.
    + by rewrite list_insert_id, with_heap_id.
Qed.

Lemma outer_loop_run rs : ∀ w l ca df cs,
  heap w !! l = Some (OFrame df) →
  heap w !! ca = Some (OStrs cs) →
  for_each rs (λ entry,
      cols ← get_strs ca;
      for_each cols (λ column, set_dataframe_value l entry column)) w =
    (outcome (fill_cells df (pairs rs cs)).1,
     with_heap (<[l := OFrame (fill_cells df (pairs rs cs)).2]> (heap w)) w).
Proof.
  induction rs as [|e rs IH]; intros w l ca df cs Hl Hca.
  - simpl. by rewrite list_insert_id, with_heap_id.
  - change (pairs (e :: rs) cs) with (map (pair e) cs ++ pairs rs cs).
    rewrite fill_cells_app.
    rewrite for_each_cons_run, (get_strs_run _ _ _ _ Hca).
    rewrite (inner_loop_run _ _ _ _ _ Hl).
    destruct (fill_cells df (map (pair e) cs)) as [[x|] df']; simpl; [done|].
    assert (l ≠ ca) by (intros ->; congruence).
    erewrite IH; simpl.
    + by rewrite list_insert_insert_eq.
    + apply list_lookup_insert_eq. by eapply lookup_lt_Some.
    + by rewrite list_lookup_insert_ne.
Qed.

Lemma alloc_run {B} o (k : nat → Py B) w :
  (l ← alloc o; k l) w = k (length (heap w)) (with_heap (heap w ++ [o]) w).
Proof. reflexivity. Qed.

Lemma lift_run {A B} (r : result A) (k : A → Py B) w :
  (x ← lift r; k x) w = match r with Ok a => k a w | Err e => (Err e, w) end.
Proof. by destruct r. Qed.

Lemma store_run {B} l o (k : Py B) w :
  (store l o;; k) w = k (with_heap (<[l := o]> (heap w)) w).
Proof. reflexivity. Qed.

Lemma list_sort_run {B} l ss (k : Py B) w :
  heap w !! l = Some (OStrs ss) →
  (list_sort l;; k) w = k (with_heap (<[l := OStrs (sorted ss)]> (heap w)) w).
Proof. intros H. py_unfold. by rewrite H. Qed.

Lemma lookup_new (h : list obj) o : (h ++ [o]) !! length h = Some o.
Proof. by apply list_lookup_middle. Qed.

Lemma insert_new (h : list obj) o o' : <[length h := o']> (h ++ [o]) = h ++ [o'].
Proof.
  rewrite insert_app_r_alt by lia. by replace (length h - length h)%nat with 0%nat by lia.
Qed.

Lemma initialize_dataframe_run w rawdata ca rs cs :
  heap w !! rawdata = Some (ORecords rs) →
  heap w !! ca = Some (OStrs cs) →
  initialize_dataframe rawdata ca w =
    match span rs with
    | Ok (start, end_) =>
        (Ok (S (length (heap w))),
         with_heap (heap w ++ [OStrs (sorted (Date <$> rs));
                               OFrame (DataFrame_new (date_range start end_) cs)]) w)
    | Err x => (Err x, with_heap (heap w ++ [OStrs (sorted (Date <$> rs))]) w)
    end.
Proof.
  intros Hr Hc. unfold initialize_dataframe, span.
  rewrite (get_records_run _ _ _ _ Hr), alloc_run.
  erewrite list_sort_run by apply lookup_new. simpl heap. rewrite insert_new.
  erewrite get_strs_run by apply lookup_new.
  rewrite lift_run.
  destruct (list_item (sorted (Date <$> rs)) 0) as [first|]; simpl; [|done].
  rewrite lift_run.
  destruct (parse_date first) as [start|]; simpl; [|done].
  erewrite get_strs_run by apply lookup_new.
  rewrite lift_run.
  destruct (list_item (sorted (Date <$> rs)) (-1)) as [last|]; simpl; [|done].
  rewrite lift_run.
  destruct (parse_date last) as [end_|]; simpl; [|done].
  erewrite get_strs_run by (simpl; by apply lookup_app_l_Some).
  unfold alloc; simpl. rewrite length_app, <- app_assoc. simpl.
  by replace (length (heap w) + 1)%nat with (S (length (heap w))) by lia.
Qed.

(** When the ends of the index cannot be computed, the column list is
    not even read. *)
Lemma initialize_dataframe_err w rawdata ca rs x :
  heap w !! rawdata = Some (ORecords rs) →
  span rs = Err x →
  initialize_dataframe rawdata ca w =
    (Err x, with_heap (heap w ++ [OStrs (sorted (Date <$> rs))]) w).
Proof.
  intros Hr. unfold initialize_dataframe, span.
  rewrite (get_records_run _ _ _ _ Hr), alloc_run.
  erewrite list_sort_run by apply lookup_new. simpl heap. rewrite insert_new.
  erewrite get_strs_run by apply lookup_new.
  rewrite lift_run.
  destruct (list_item (sorted (Date <$> rs)) 0) as [first|]; simpl;
    [|by intros [= <-]].
  rewrite lift_run.
  destruct (parse_date first) as [start|]; simpl; [|by intros [= <-]].
  erewrite get_strs_run by apply lookup_new.
  rewrite lift_run.
  destruct (list_item (sorted (Date <$> rs)) (-1)) as [last|]; simpl;
    [|by intros [= <-]].
  rewrite lift_run.
  destruct (parse_date last) as [end_|]; simpl; [done|by intros [= <-]].
Qed.

(** What a call of [wrangle_data] returns and how it leaves the store:
    the result is a new reference, the store is the old one with the
    new objects appended. *)
Lemma wrangle_data_run w rawdata ca rs cs :
  heap w !! rawdata = Some (ORecords rs) →
  heap w !! ca = Some (OStrs cs) →
  wrangle_data rawdata ca w =
    (match wrangle_frame rs cs with
     | Ok _ => Ok (S (length (heap w)))
     | Err x => Err x
     end,
     with_heap (heap w ++ wrangle_objs rs cs) w).
Proof.
  intros Hr Hc. unfold wrangle_data, wrangle_frame, wrangle_objs.
  unfold mbind at 1, Py_bind.
  rewrite (initialize_dataframe_run _ _ _ _ _ Hr Hc).
  destruct (span rs) as [[start end_]|]; [|done].
  set (df0 := DataFrame_new (date_range start end_) cs).
  set (h1 := heap w ++ [OStrs (sorted (Date <$> rs)); OFrame df0]).
  assert (Hdf : h1 !! S (length (heap w)) = Some (OFrame df0)).
  { unfold h1. rewrite lookup_app_r by lia.
    by replace (S (length (heap w)) - length (heap w))%nat with 1%nat by lia. }
  erewrite get_records_run by (simpl; by apply lookup_app_l_Some).
  unfold mbind at 1, Py_bind.
  erewrite outer_loop_run; [|exact Hdf|simpl; by apply lookup_app_l_Some].
  destruct (fill_cells df0 (pairs rs cs)) as [[x|] df]; simpl.
  - f_equal. unfold h1. rewrite insert_app_r_alt by lia.
    by replace (S (length (heap w)) - length (heap w))%nat with 1%nat by lia.
  - assert (Hi : <[S (length (heap w)) := OFrame df]> h1
                 = heap w ++ [OStrs (sorted (Date <$> rs)); OFrame df]).
    { unfold h1. rewrite insert_app_r_alt by lia.
      by replace (S (length (heap w)) - length (heap w))%nat with 1%nat by lia. }
    rewrite Hi.
    erewrite get_frame_run.
    2:{ simpl. rewrite lookup_app_r by lia.
        by replace (S (length (heap w)) - length (heap w))%nat with 1%nat by lia. }
    rewrite store_run. unfold mret, Py_ret, with_heap. simpl.
    rewrite insert_app_r_alt by lia.
    by replace (S (length (heap w)) - length (heap w))%nat with 1%nat by lia.
Qed.

Lemma table_of_wrangle_data w rawdata ca rs cs :
  heap w !! rawdata = Some (ORecords rs) →
  heap w !! ca = Some (OStrs cs) →
  table_of (wrangle_data rawdata ca w) = wrangle_frame rs cs.
Proof.
  intros Hr Hc. rewrite (wrangle_data_run _ _ _ _ _ Hr Hc).
  unfold wrangle_frame, wrangle_objs, table_of.
  destruct (span rs) as [[start end_]|]; [|done].
  destruct (fill_cells _ _) as [[x|] df]; [done|]. simpl.
  rewrite lookup_app_r by lia.
  by replace (S (length (heap w)) - length (heap w))%nat with 1%nat by lia.
Qed.

End Run.

(** ** Filling the frame *)

Section Frames.

Lemma nan_cells_lookup idx cols d c :
  nan_cells idx cols !! (d, c) =
    if decide (d ∈ idx ∧ c ∈ cols) then Some nan else None.
Proof.
  unfold nan_cells. rewrite lookup_gset_to_gmap.
  assert ((d, c) ∈ (list_to_set (list_prod idx cols) : gset (Z * string))
          ↔ d ∈ idx ∧ c ∈ cols) as Hiff.
  { rewrite elem_of_list_to_set, list_elem_of_In, in_prod_iff,
      <- !list_elem_of_In. done. }
  case_guard; case_decide; simpl; tauto.
Qed.

Lemma DataFrame_new_wf idx cols : wf_frame (DataFrame_new idx cols).
Proof.
  intros d c. simpl. rewrite nan_cells_lookup.
  case_decide; split; intros H'; auto.
  all: try (by destruct H' as [? [=]]); try tauto.
Qed.

Lemma provides_not_nan e d c f : provides e d c = Some f → isna f = false.
Proof.
  unfold provides.
  destruct (parse_date (Date e)), (cell_value e c); try discriminate.
  case_decide; [|discriminate].
  destruct (isna a0) eqn:E; [discriminate|]. by intros [= <-].
Qed.

Lemma loc_get_scalar df d c x b :
  loc_get df d c = Ok x → isna_truth x = Ok b →
  ∃ v, cells df !! (d, c) = Some v ∧ count_occ string_dec (columns df) c = 1%nat
       ∧ b = isna v.
Proof.
  unfold loc_get. destruct (cells df !! (d, c)) as [v|]; [|discriminate].
  destruct (count_occ string_dec (columns df) c) as [|[|n]];
    intros [= <-]; simpl; try discriminate.
  intros [= <-]. eauto.
Qed.

(** The effect of one call on all the cells. *)
Lemma fill_cell_spec df e c0 df' :
  wf_frame df → fill_cell df e c0 = Ok df' →
  wf_frame df' ∧ index df' = index df ∧ columns df' = columns df ∧
  ∀ d c, cells df' !! (d, c) =
    (λ v, if isna v
          then default nan (if decide (c = c0) then provides e d c else None)
          else v) <$> cells df !! (d, c).
Proof.
  intros Hwf. unfold fill_cell, provides.
  destruct (parse_date (Date e)) as [date|]; simpl; [|discriminate].
  destruct (loc_get df date c0) as [x|] eqn:Hget; simpl; [|discriminate].
  destruct (isna_truth x) as [b|] eqn:Hb; simpl; [|discriminate].
  destruct (loc_get_scalar _ _ _ _ _ Hget Hb) as (v & Hv & Hocc & ->).
  destruct (isna v) eqn:Hnan.
  - destruct (cell_value e c0) as [val|] eqn:Hval; simpl; [|discriminate].
    intros [= <-]. unfold loc_set.
    assert (date ∈ index df ∧ c0 ∈ columns df) as Hin by (apply Hwf; eauto).
    rewrite decide_True by done. simpl.
    split; [|split; [done|split; [done|]]].
    + intros d c. simpl. destruct (decide ((date, c0) = (d, c))) as [[= <- <-]|Hne].
      * rewrite lookup_insert_eq. split; [done|]. intros _. by eexists.
      * rewrite lookup_insert_ne by done. apply Hwf.
    + intros d c. simpl. destruct (decide ((date, c0) = (d, c))) as [[= <- <-]|Hne].
      * rewrite lookup_insert_eq, Hv. simpl. rewrite Hnan.
        rewrite Hval, !decide_True by done.
        by destruct (isna val) eqn:E; destruct val.
      * rewrite lookup_insert_ne by done.
        destruct (cells df !! (d, c)) as [u|]; simpl; [|done].
        destruct (isna u) eqn:Hu; [|done]. f_equal.
        destruct u; try discriminate.
        case_decide; [|done]. subst. rewrite Hval.
        rewrite decide_False by congruence. done.
  - intros [= <-]. split; [done|split; [done|split; [done|]]].
    intros d c. destruct (cells df !! (d, c)) as [u|] eqn:Hu; simpl; [|done].
    destruct (isna u) eqn:Hn; [|done]. f_equal. destruct u; try discriminate.
    case_decide; [|done]. subst.
    destruct (cell_value e c0); [|done].
    case_decide; [|done]. subst. rewrite Hv in Hu. injection Hu as ->. discriminate.
Qed.

(** The effect of the two loops on all the cells, when no call raises. *)
Lemma fill_cells_spec ps : ∀ df df',
  wf_frame df → fill_cells df ps = (None, df') →
  wf_frame df' ∧ index df' = index df ∧ columns df' = columns df ∧
  ∀ d c, cells df' !! (d, c) =
    (λ v, if isna v then default nan (first_write ps d c) else v)
      <$> cells df !! (d, c).
Proof.
  induction ps as [|[e c0] ps IH]; intros df df' Hwf; simpl.
  - intros [= <-]. split; [done|split; [done|split; [done|]]].
    intros d c. destruct (cells df !! (d, c)) as [v|]; simpl; [|done].
    by destruct v.
  - destruct (fill_cell df e c0) as [df1|] eqn:H1; [|discriminate].
    intros Hrest.
    destruct (fill_cell_spec _ _ _ _ Hwf H1) as (Hwf1 & Hi1 & Hc1 & Hcells1).
    destruct (IH _ _ Hwf1 Hrest) as (Hwf' & Hi' & Hc' & Hcells').
    split; [done|split; [congruence|split; [congruence|]]].
    intros d c. rewrite Hcells', Hcells1.
    destruct (cells df !! (d, c)) as [v|]; simpl; [|done]. f_equal.
    destruct (isna v) eqn:Hv; [|by rewrite Hv].
    destruct (if decide (c = c0) then provides e d c else None) as [f|] eqn:Hp.
    + simpl. assert (isna f = false) as ->; [|done].
      case_decide; [|discriminate]. by eapply provides_not_nan.
    + done.
Qed.

Lemma first_write_app ps qs d c :
  first_write (ps ++ qs) d c =
    match first_write ps d c with
    | Some f => Some f
    | None => first_write qs d c
    end.
Proof.
  induction ps as [|[e c0] ps IH]; simpl; [done|].
  by destruct (if decide (c = c0) then provides e d c else None).
Qed.

Lemma first_write_row e cs d c :
  c ∈ cs → first_write (map (pair e) cs) d c = provides e d c.
Proof.
  induction cs as [|c0 cs IH]; simpl; [by intros ?%elem_of_nil|].
  intros Hin. case_decide as Hc.
  - destruct (provides e d c) eqn:Hp; [done|].
    destruct (decide (c ∈ cs)) as [Hin'|Hnin]; [by rewrite IH|].
    clear -Hp. induction cs as [|c1 cs IH]; simpl; [done|].
    case_decide; by rewrite ?Hp.
  - apply elem_of_cons in Hin as [?|Hin]; [done|]. by apply IH.
Qed.

Lemma first_write_pairs rs cs d c :
  c ∈ cs → first_write (pairs rs cs) d c = first_value rs d c.
Proof.
  intros Hin. induction rs as [|e rs IH]; [done|].
  change (pairs (e :: rs) cs) with (map (pair e) cs ++ pairs rs cs).
  rewrite first_write_app, first_write_row by done. simpl. by rewrite IH.
Qed.

Lemma first_value_not_nan rs d c f : first_value rs d c = Some f → isna f = false.
Proof.
  induction rs as [|e rs IH]; simpl; [done|].
  destruct (provides e d c) eqn:Hp; [|done].
  intros [= <-]. by eapply provides_not_nan.
Qed.

(** The table [wrangle_data] returns: its index, its columns and every
    one of its cells. *)
Lemma wrangle_frame_spec rs cs df :
  wrangle_frame rs cs = Ok df →
  ∃ lo hi, span rs = Ok (lo, hi) ∧
    index df = date_range lo hi ∧ columns df = cs ∧ wf_frame df ∧
    ∀ d c, d ∈ index df → c ∈ cs →
      cells df !! (d, c) = Some (default zero (first_value rs d c)).
Proof.
  unfold wrangle_frame.
  destruct (span rs) as [[lo hi]|]; [|discriminate].
  destruct (fill_cells _ _) as [[x|] df1] eqn:Hfill; [discriminate|].
  intros [= <-]. exists lo, hi.
  destruct (fill_cells_spec _ _ _ (DataFrame_new_wf _ _) Hfill)
    as (Hwf & Hi & Hc & Hcells).
  simpl in *. split; [done|split; [done|split; [done|split]]].
  - intros d c. simpl. rewrite lookup_fmap, fmap_is_Some. apply Hwf.
  - intros d c Hd Hcin. rewrite lookup_fmap, Hcells, nan_cells_lookup.
    rewrite Hi in Hd. rewrite decide_True by done. simpl.
    rewrite first_write_pairs by done.
    destruct (first_value rs d c) as [f|] eqn:Hf; simpl; [|done].
    by rewrite (first_value_not_nan _ _ _ _ Hf).
Qed.

End Frames.

(** ** The index *)

Section Index.

Lemma parse_date_err s x : parse_date s = Err x → x = ValueError.
Proof.
  unfold parse_date. destruct (to_datetime s); congruence.
Qed.

Lemma span_nil : span [] = Err IndexError.
Proof. reflexivity. Qed.

Lemma span_inv rs lo hi :
  span rs = Ok (lo, hi) →
  ∃ first last, first ∈ Date <$> rs ∧ last ∈ Date <$> rs ∧
    parse_date first = Ok lo ∧ parse_date last = Ok hi ∧
    ∀ s, s ∈ Date <$> rs → String.leb first s = true ∧ String.leb s last = true.
Proof.
  unfold span. rewrite list_item_first, list_item_last.
  pose proof (sorted_ordered (Date <$> rs)) as Hord.
  pose proof (sorted_elem (Date <$> rs)) as Hel.
  destruct (sorted (Date <$> rs)) as [|first l]; simpl; [discriminate|].
  destruct (parse_date first) as [lo'|] eqn:Hlo; simpl; [|discriminate].
  destruct (last (first :: l)) as [last_|] eqn:Hlast; simpl; [|discriminate].
  destruct (parse_date last_) as [hi'|] eqn:Hhi; simpl; [|discriminate].
  intros [= <- <-]. exists first, last_.
  split; [apply Hel; by left|].
  split; [apply Hel, list_elem_of_lookup; rewrite last_lookup in Hlast; eauto|].
  split; [done|]. split; [done|].
  intros s Hs%Hel. split.
  - by eapply ordered_first.
  - by eapply ordered_last.
Qed.

(** When the strings sort in the order of the days, every record date
    lies between the two ends of the index. *)
Lemma span_bounds rs lo hi e d :
  date_ordered rs →
  span rs = Ok (lo, hi) → e ∈ rs → parse_date (Date e) = Ok d → lo <= d <= hi.
Proof.
  intros Hord (first & last_ & H1 & H2 & Hlo & Hhi & Hall)%span_inv He Hd.
  apply list_elem_of_fmap in H1 as (e1 & -> & He1).
  apply list_elem_of_fmap in H2 as (e2 & -> & He2).
  destruct (Hall (Date e)) as [Hle1 Hle2]; [by apply list_elem_of_fmap_2|].
  split.
  - exact (Hord e1 e lo d He1 He Hlo Hd Hle1).
  - exact (Hord e e2 d hi He He2 Hd Hhi Hle2).
Qed.

(** The two ends of the index are record dates. *)
Lemma span_attained rs lo hi :
  span rs = Ok (lo, hi) →
  (∃ e, e ∈ rs ∧ parse_date (Date e) = Ok lo) ∧
  (∃ e, e ∈ rs ∧ parse_date (Date e) = Ok hi).
Proof.
  intros (first & last_ & H1 & H2 & Hlo & Hhi & _)%span_inv.
  apply list_elem_of_fmap in H1 as (e1 & -> & ?).
  apply list_elem_of_fmap in H2 as (e2 & -> & ?). split; eauto.
Qed.

Lemma span_err rs x :
  span rs = Err x →
  (rs = [] ∧ x = IndexError) ∨
  (x = ValueError ∧ ∃ e, e ∈ rs ∧ ¬ is_Ok (parse_date (Date e))).
Proof.
  unfold span. rewrite list_item_first, list_item_last.
  pose proof (sorted_elem (Date <$> rs)) as Hel.
  pose proof (sorted_length (Date <$> rs)) as Hlen.
  destruct (sorted (Date <$> rs)) as [|first l]; simpl.
  - intros [= <-]. left. split; [|done].
    rewrite length_fmap in Hlen. destruct rs; [done|discriminate].
  - assert (∀ s y, s ∈ first :: l → parse_date s = Err y →
              ∃ e, e ∈ rs ∧ ¬ is_Ok (parse_date (Date e))) as Hbad.
    { intros s y Hs%Hel Hy. apply list_elem_of_fmap in Hs as (e & -> & ?).
      exists e. split; [done|]. rewrite Hy. by intros []. }
    destruct (parse_date first) as [lo|] eqn:Hlo; simpl.
    + destruct (last (first :: l)) as [last_|] eqn:Hlast; simpl;
        [|by apply last_None in Hlast].
      destruct (parse_date last_) as [hi|] eqn:Hhi; simpl; [done|].
      intros [= <-]. right. split; [by eapply parse_date_err|].
      eapply Hbad; [|exact Hhi].
      apply list_elem_of_lookup. rewrite last_lookup in Hlast. eauto.
    + intros [= <-]. right. split; [by eapply parse_date_err|].
      eapply Hbad; [|exact Hlo]. by left.
Qed.

Lemma span_ok rs :
  rs ≠ [] → Forall (λ e, is_Ok (parse_date (Date e))) rs →
  ∃ lo hi, span rs = Ok (lo, hi).
Proof.
  intros Hne Hall. destruct (span rs) as [[lo hi]|x] eqn:E; [eauto|].
  apply span_err in E as [[? _]|[_ (e & He & Hbad)]]; [done|].
  rewrite Forall_forall in Hall. destruct Hbad. by apply Hall.
Qed.

Lemma elem_of_date_range lo hi d : d ∈ date_range lo hi ↔ lo <= d <= hi.
Proof.
  unfold date_range. rewrite list_elem_of_fmap. split.
  - intros (i & -> & Hi%elem_of_seq). lia.
  - intros Hd. exists (Z.to_nat (d - lo)). split; [lia|].
    apply elem_of_seq. lia.
Qed.

Lemma date_range_lookup lo hi (i : nat) d :
  date_range lo hi !! i = Some d ↔ d = lo + Z.of_nat i ∧ lo + Z.of_nat i <= hi.
Proof.
  unfold date_range. rewrite list_lookup_fmap, fmap_Some. split.
  - intros (j & Hj%lookup_seq & ->). simpl in Hj. split; lia.
  - intros [-> Hi]. exists i. split; [|done]. apply lookup_seq. simpl. lia.
Qed.

Lemma date_range_length lo hi :
  Z.of_nat (length (date_range lo hi)) = Z.max 0 (hi - lo + 1).
Proof. unfold date_range. rewrite length_map, length_seq. lia. Qed.


End Index.

(** ** When the loops raise *)

Section Failures.

Lemma elem_of_pairs rs cs e c : (e, c) ∈ pairs rs cs ↔ e ∈ rs ∧ c ∈ cs.
Proof.
  unfold pairs. induction rs as [|e0 rs IH]; simpl.
  - rewrite !elem_of_nil. tauto.
  - rewrite elem_of_app, IH, list_elem_of_fmap, elem_of_cons. split.
    + intros [(c' & [= -> ->] & ?)|[? ?]]; auto.
    + intros [[->|?] ?]; [left; eauto|auto].
Qed.

Lemma count_occ_NoDup (cs : list string) c :
  NoDup cs → c ∈ cs → count_occ string_dec cs c = 1%nat.
Proof.
  intros Hnd%NoDup_ListNoDup Hin%list_elem_of_In.
  by apply (proj1 (NoDup_count_occ' string_dec cs) Hnd).
Qed.

Lemma fill_cell_parsed df e c df' :
  fill_cell df e c = Ok df' → is_Ok (parse_date (Date e)).
Proof. unfold fill_cell. by destruct (parse_date (Date e)). Qed.

(** A record whose date does not parse stops the loops, whatever
    happened before it. *)
Lemma fill_cells_bad_date ps : ∀ df,
  Exists (λ p, ¬ is_Ok (parse_date (Date p.1))) ps →
  ∃ x df', fill_cells df ps = (Some x, df').
Proof.
  induction ps as [|[e c] ps IH]; intros df Hex; [by inversion Hex|].
  simpl. destruct (fill_cell df e c) as [df1|x] eqn:H1; [|eauto].
  apply IH. inversion Hex as [?? Hbad|]; subst; [|done].
  destruct Hbad. simpl. by eapply fill_cell_parsed.
Qed.

(** When every record has a usable value for every column and the
    column labels are distinct, the loops can only stop at a date that
    does not parse. *)
Lemma fill_cells_complete ps : ∀ df,
  wf_frame df →
  Forall (λ p, (∀ d, parse_date (Date p.1) = Ok d → d ∈ index df) ∧
               count_occ string_dec (columns df) p.2 = 1%nat ∧
               is_Ok (cell_value p.1 p.2)) ps →
  match fill_cells df ps with
  | (None, _) => Forall (λ p, is_Ok (parse_date (Date p.1))) ps
  | (Some x, _) =>
      x = ValueError ∧ Exists (λ p, ¬ is_Ok (parse_date (Date p.1))) ps
  end.
Proof.
  induction ps as [|[e c] ps IH]; intros df Hwf Hall; simpl; [done|].
  apply Forall_cons in Hall as [(Hd & Hocc & Hval) Hall]. simpl in *.
  destruct (fill_cell df e c) as [df1|x] eqn:H1.
  - destruct (fill_cell_spec _ _ _ _ Hwf H1) as (Hwf1 & Hi1 & Hc1 & _).
    specialize (IH df1 Hwf1). rewrite Hi1, Hc1 in IH. specialize (IH Hall).
    destruct (fill_cells df1 ps) as [[x|] df2].
    + destruct IH. split; [done|]. by right.
    + constructor; [|done]. by eapply fill_cell_parsed.
  - unfold fill_cell in H1.
    destruct (parse_date (Date e)) as [d|y] eqn:Hp; simpl in H1.
    + exfalso. specialize (Hd d eq_refl).
      assert (c ∈ columns df) as Hc.
      { apply list_elem_of_In, (count_occ_In string_dec). lia. }
      destruct (proj2 (Hwf d c) (conj Hd Hc)) as [v Hv].
      unfold loc_get in H1. rewrite Hv, Hocc in H1. simpl in H1.
      destruct (isna v); [|done].
      destruct (cell_value e c); [done|]. by destruct Hval.
    + injection H1 as <-. split; [by eapply parse_date_err|].
      left. simpl. rewrite Hp. by intros [].
Qed.

Lemma pairs_complete rs cs lo hi :
  (∀ e d, e ∈ rs → parse_date (Date e) = Ok d → lo <= d <= hi) → NoDup cs →
  (∀ e c, e ∈ rs → c ∈ cs → is_Ok (cell_value e c)) →
  Forall (λ p, (∀ d, parse_date (Date p.1) = Ok d →
                     d ∈ index (DataFrame_new (date_range lo hi) cs)) ∧
               count_occ string_dec (columns (DataFrame_new (date_range lo hi) cs)) p.2
                 = 1%nat ∧
               is_Ok (cell_value p.1 p.2)) (pairs rs cs).
Proof.
  intros Hcov Hnd Hval. apply Forall_forall. intros [e c] [He Hc]%elem_of_pairs.
  simpl. split; [|split; [by apply count_occ_NoDup|by apply Hval]].
  intros d Hd. apply elem_of_date_range. by eapply Hcov.
Qed.

Lemma pairs_bad_date rs cs :
  cs ≠ [] → Exists (λ e, ¬ is_Ok (parse_date (Date e))) rs →
  Exists (λ p, ¬ is_Ok (parse_date (Date p.1))) (pairs rs cs).
Proof.
  intros Hcs (e & He & Hbad)%Exists_exists. destruct cs as [|c cs]; [done|].
  apply Exists_exists. exists (e, c). split; [|done].
  apply elem_of_pairs. split; [done|by left].
Qed.

(** [wrangle_data] returns a table when every date parses to a day of
    the index and every record has a usable value for each of the
    distinct columns. *)
Lemma wrangle_frame_total_covered rs cs lo hi :
  span rs = Ok (lo, hi) →
  (∀ e d, e ∈ rs → parse_date (Date e) = Ok d → lo <= d <= hi) →
  Forall (λ e, is_Ok (parse_date (Date e))) rs → NoDup cs →
  (∀ e c, e ∈ rs → c ∈ cs → is_Ok (cell_value e c)) →
  is_Ok (wrangle_frame rs cs).
Proof.
  intros Hspan Hcov Hall Hnd Hval. unfold wrangle_frame. rewrite Hspan.
  pose proof (fill_cells_complete _ _ (DataFrame_new_wf _ _)
                (pairs_complete _ _ _ _ Hcov Hnd Hval)) as H.
  destruct (fill_cells _ _) as [[x|] df]; [|done].
  destruct H as [_ ([e c] & [He _]%elem_of_pairs & Hbad)%Exists_exists].
  rewrite Forall_forall in Hall. destruct Hbad. by apply Hall.
Qed.

Lemma wrangle_frame_total rs cs :
  rs ≠ [] → Forall (λ e, is_Ok (parse_date (Date e))) rs → date_ordered rs →
  NoDup cs →
  (∀ e c, e ∈ rs → c ∈ cs → is_Ok (cell_value e c)) →
  is_Ok (wrangle_frame rs cs).
Proof.
  intros Hne Hall Hord Hnd Hval.
  destruct (span_ok rs Hne Hall) as (lo & hi & Hspan).
  eapply wrangle_frame_total_covered; [exact Hspan| |done|done|done].
  intros e d He Hd. by eapply span_bounds.
Qed.

(** With a column to fill, a date that does not parse makes
    [wrangle_data] raise. *)
Lemma wrangle_frame_bad_date rs cs :
  cs ≠ [] → Exists (λ e, ¬ is_Ok (parse_date (Date e))) rs →
  ∃ x, wrangle_frame rs cs = Err x.
Proof.
  intros Hcs Hbad. unfold wrangle_frame.
  destruct (span rs) as [[lo hi]|x]; [|eauto].
  destruct (fill_cells_bad_date _ (DataFrame_new (date_range lo hi) cs)
              (pairs_bad_date _ _ Hcs Hbad)) as (x & df' & ->). eauto.
Qed.


(** IndexError is raised for an empty list of records and for nothing
    else. *)
Lemma fill_cell_not_IndexError df e c x : fill_cell df e c = Err x → x ≠ IndexError.
Proof.
  unfold fill_cell, cell_value, loc_get, getitem.
  destruct (parse_date (Date e)) as [d|y] eqn:Hd; simpl.
  2:{ intros [= <-]. by rewrite (parse_date_err _ _ Hd). }
  destruct (cells df !! (d, c)) as [v|]; simpl; [|by intros [= <-]].
  destruct (count_occ string_dec (columns df) c) as [|[|n]]; simpl;
    try (by intros [= <-]).
  destruct (isna v); simpl; [|done].
  case_decide; simpl.
  { destruct (float_of_str (Date e)); simpl; [done|by intros [= <-]]. }
  destruct (fields e !! c) as [[|z|f]|]; simpl; try (by intros [= <-]); try done.
  unfold float_of_int. destruct (binary_normalize prec emax z 0 false); simpl;
    try done; by intros [= <-].
Qed.

Lemma fill_cells_not_IndexError ps : ∀ df x df',
  fill_cells df ps = (Some x, df') → x ≠ IndexError.
Proof.
  induction ps as [|[e c] ps IH]; intros df x df'; simpl; [done|].
  destruct (fill_cell df e c) as [df1|y] eqn:H1.
  - apply IH.
  - intros [= <- <-]. by eapply fill_cell_not_IndexError.
Qed.

Lemma wrangle_frame_IndexError rs cs :
  wrangle_frame rs cs = Err IndexError ↔ rs = [].
Proof.
  split; [|by intros ->].
  unfold wrangle_frame. destruct (span rs) as [[lo hi]|x] eqn:Hspan.
  - destruct (fill_cells _ _) as [[x|] df] eqn:Hfill; [|done].
    intros [= ->]. by destruct (fill_cells_not_IndexError _ _ _ _ Hfill).
  - intros [= ->]. by apply span_err in Hspan as [[-> _]|[? _]].
Qed.

End Failures.

(** ** The value of a cell *)

Section Cells.

Lemma cell_value_inv e c f :
  cell_value e c = Ok f →
  ∃ v, getitem e c = Ok v ∧
       ((is_not_None v = false ∧ f = zero) ∨
        (is_not_None v = true ∧ py_float v = Ok f)).
Proof.
  unfold cell_value. destruct (getitem e c) as [v|]; simpl; [|discriminate].
  destruct (is_not_None v) eqn:Hv; simpl.
  - intros Hf. eauto.
  - intros [= <-]. eauto.
Qed.

Lemma provides_inv e d c f :
  provides e d c = Some f →
  parse_date (Date e) = Ok d ∧ cell_value e c = Ok f ∧ isna f = false.
Proof.
  unfold provides.
  destruct (parse_date (Date e)) as [d'|]; [|discriminate].
  destruct (cell_value e c) as [f'|]; [|discriminate].
  case_decide; [|discriminate]. subst.
  destruct (isna f') eqn:Hn; [discriminate|]. by intros [= <-].
Qed.

Lemma first_value_elem rs d c f :
  first_value rs d c = Some f → ∃ e, e ∈ rs ∧ provides e d c = Some f.
Proof.
  induction rs as [|e rs IH]; simpl; [discriminate|].
  destruct (provides e d c) as [f'|] eqn:Hp.
  - intros [= <-]. exists e. split; [by left|done].
  - intros (e' & ? & ?)%IH. exists e'. split; [by right|done].
Qed.

Lemma first_value_app l1 l2 d c :
  first_value (l1 ++ l2) d c =
    match first_value l1 d c with
    | Some f => Some f
    | None => first_value l2 d c
    end.
Proof.
  induction l1 as [|e l1 IH]; simpl; [done|]. by destruct (provides e d c).
Qed.

Lemma first_value_other_days rs d c :
  (∀ e, e ∈ rs → parse_date (Date e) ≠ Ok d) → first_value rs d c = None.
Proof.
  intros H. destruct (first_value rs d c) as [f|] eqn:Hf; [|done].
  apply first_value_elem in Hf as (e & He & (Hd & _)%provides_inv).
  by destruct (H e He).
Qed.

(** The float of an int is never infinite. *)
Lemma float_of_int_not_inf z f : float_of_int z = Ok f → ∀ s, f ≠ S754_infinity s.
Proof.
  unfold float_of_int. destruct (binary_normalize prec emax z 0 false);
    intros [= <-]; done.
Qed.

End Cells.

(** ** Records for a day that is already filled *)

Section Duplicates.

Lemma pairs_app l1 l2 cs : pairs (l1 ++ l2) cs = pairs l1 cs ++ pairs l2 cs.
Proof. unfold pairs. by rewrite map_app, concat_app. Qed.

Lemma getitem_agree e e' c c' :
  Date e' = Date e → (∀ k, k ≠ c → fields e' !! k = fields e !! k) →
  c' ≠ c → getitem e' c' = getitem e c'.
Proof. intros HD Hf Hne. unfold getitem. by rewrite HD, Hf. Qed.

Lemma fill_cell_agree df e e' c c' :
  Date e' = Date e → (∀ k, k ≠ c → fields e' !! k = fields e !! k) →
  c' ≠ c → fill_cell df e' c' = fill_cell df e c'.
Proof.
  intros HD Hf Hne. unfold fill_cell, cell_value.
  by rewrite HD, (getitem_agree _ _ _ _ HD Hf Hne).
Qed.

(** On a cell that is set, the call does not look at the record. *)
Lemma fill_cell_set df e e' d c v :
  Date e' = Date e → parse_date (Date e) = Ok d →
  cells df !! (d, c) = Some v → isna v = false →
  fill_cell df e' c = fill_cell df e c.
Proof.
  intros HD Hd Hv Hn. unfold fill_cell. rewrite HD, Hd. simpl.
  unfold loc_get. rewrite Hv.
  destruct (count_occ string_dec (columns df) c) as [|[|n]]; simpl; try done.
  by rewrite Hn.
Qed.

Lemma fill_cell_keeps df e c' df' d c v :
  wf_frame df → fill_cell df e c' = Ok df' →
  cells df !! (d, c) = Some v → isna v = false →
  cells df' !! (d, c) = Some v.
Proof.
  intros Hwf (_ & _ & _ & Hcells)%fill_cell_spec Hv Hn; [|done].
  rewrite Hcells, Hv. simpl. by rewrite Hn.
Qed.

Lemma fill_cells_row_agree e e' d c v qs cs : ∀ df,
  Date e' = Date e → (∀ k, k ≠ c → fields e' !! k = fields e !! k) →
  parse_date (Date e) = Ok d →
  wf_frame df → cells df !! (d, c) = Some v → isna v = false →
  fill_cells df (map (pair e') cs ++ qs) = fill_cells df (map (pair e) cs ++ qs).
Proof.
  intros df HD Hf Hd. revert df.
  induction cs as [|c0 cs IH]; intros df Hwf Hv Hn; simpl; [done|].
  assert (fill_cell df e' c0 = fill_cell df e c0) as ->.
  { destruct (decide (c0 = c)) as [->|Hne].
    - by eapply fill_cell_set.
    - by eapply fill_cell_agree. }
  destruct (fill_cell df e c0) as [df1|] eqn:H1; [|done].
  apply IH.
  - by eapply fill_cell_spec.
  - by eapply fill_cell_keeps.
  - done.
Qed.

End Duplicates.

(** ** Records without a requested column *)

Section Missing.

Lemma fill_cells_app_None df ps qs df' :
  fill_cells df (ps ++ qs) = (None, df') →
  ∃ df1, fill_cells df ps = (None, df1) ∧ fill_cells df1 qs = (None, df').
Proof.
  rewrite fill_cells_app. destruct (fill_cells df ps) as [[x|] df1]; [done|eauto].
Qed.

Lemma first_write_row_notin e cs d c :
  c ∉ cs → first_write (map (pair e) cs) d c = None.
Proof.
  induction cs as [|c0 cs IH]; simpl; [done|].
  intros [Hne Hnin]%not_elem_of_cons. rewrite decide_False by done. by apply IH.
Qed.



End Missing.

(** ** The rows of a returned table *)

Section Returned.

(** A call of the loops that returns has found the day of its record in
    the index. *)
Lemma fill_cells_reached ps : ∀ df df' e c,
  wf_frame df → fill_cells df ps = (None, df') → (e, c) ∈ ps →
  ∃ d, parse_date (Date e) = Ok d ∧ d ∈ index df.
Proof.
  induction ps as [|[e0 c0] ps IH]; intros df df' e c Hwf Hfill Hin.
  - by apply elem_of_nil in Hin.
  - simpl in Hfill.
    destruct (fill_cell df e0 c0) as [df1|] eqn:H1; [|discriminate].
    destruct (fill_cell_spec _ _ _ _ Hwf H1) as (Hwf1 & Hi1 & _).
    apply elem_of_cons in Hin as [[= -> ->]|Hin].
    + unfold fill_cell in H1.
      destruct (parse_date (Date e0)) as [d|] eqn:Hd; [|discriminate].
      simpl in H1. exists d. split; [done|].
      unfold loc_get in H1.
      destruct (cells df !! (d, c0)) as [v|] eqn:Hv; [|discriminate].
      apply (Hwf d c0). by eexists.
    + destruct (IH df1 df' e c Hwf1 Hfill Hin) as (d & Hd & Hin').
      exists d. by rewrite <- Hi1.
Qed.

(** In a returned table every record has its row, whatever the order of
    the date strings: a record whose day is not in the index makes the
    loops raise. *)
Lemma wrangle_frame_covers rs cs df e c :
  wrangle_frame rs cs = Ok df → e ∈ rs → c ∈ cs →
  ∃ d, parse_date (Date e) = Ok d ∧ d ∈ index df.
Proof.
  intros Hw He Hc.
  destruct (wrangle_frame_spec _ _ _ Hw) as (lo & hi & Hspan & Hi & _).
  unfold wrangle_frame in Hw. rewrite Hspan in Hw.
  destruct (fill_cells _ _) as [[x|] df1] eqn:Hfill; [discriminate|].
  destruct (fill_cells_reached _ _ _ e c (DataFrame_new_wf _ _) Hfill)
    as (d & Hd & Hin); [by apply elem_of_pairs|].
  exists d. split; [done|]. by rewrite Hi.
Qed.

Lemma span_records rs lo hi : span rs = Ok (lo, hi) → rs ≠ [].
Proof. intros Hspan ->. by rewrite span_nil in Hspan. Qed.

(** A returned table with a column has a row. *)
Lemma wrangle_frame_rows rs cs df lo hi :
  wrangle_frame rs cs = Ok df → cs ≠ [] → span rs = Ok (lo, hi) →
  lo <= hi ∧ index df ≠ [].
Proof.
  intros Hw Hcs Hspan.
  destruct (wrangle_frame_spec _ _ _ Hw) as (lo' & hi' & Hspan' & Hi & _).
  rewrite Hspan in Hspan'. injection Hspan' as <- <-.
  pose proof (span_records _ _ _ Hspan) as Hne.
  destruct rs as [|e rs]; [done|]. destruct cs as [|c cs]; [done|].
  destruct (wrangle_frame_covers _ _ _ e c Hw) as (d & _ & Hd); [left|left|].
  split.
  - rewrite Hi in Hd. apply elem_of_date_range in Hd. lia.
  - intros Hnil. rewrite Hnil in Hd. by apply elem_of_nil in Hd.
Qed.

End Returned.

(** ** The properties of the specification *)


Lemma table_of_initialize_dataframe w rawdata ca rs cs :
  heap w !! rawdata = Some (ORecords rs) →
  heap w !! ca = Some (OStrs cs) →
  table_of (initialize_dataframe rawdata ca w) =
    match span rs with
    | Ok (start, end_) => Ok (DataFrame_new (date_range start end_) cs)
    | Err x => Err x
    end.
Proof.
  intros Hr Hc. rewrite (initialize_dataframe_run _ _ _ _ _ Hr Hc).
  destruct (span rs) as [[start end_]|]; [|done]. simpl.
  rewrite lookup_app_r by lia.
  by replace (S (length (heap w)) - length (heap w))%nat with 1%nat by lia.
Qed.


(** C8, amended.  The code has no test for an empty list and no exception
    of its own.  Called with an empty list of records, [wrangle_data]
    raises the IndexError of the subscript [dates[0]], whatever the
    columns are: the exception reaches the caller and no table is
    returned.  A call of [wrangle_data] that raises IndexError was given
    an empty list. *)
Theorem wrangle_data_empty w rawdata column_array :
  (heap w !! rawdata = Some (ORecords []) →
   (wrangle_data rawdata column_array w).1 = Err IndexError ∧
   table_of (wrangle_data rawdata column_array w) = Err IndexError) ∧
  (∀ rs cs,
     heap w !! rawdata = Some (ORecords rs) →
     heap w !! column_array = Some (OStrs cs) →
     table_of (wrangle_data rawdata column_array w) = Err IndexError →
     rs = []).
Proof.
  split.
  - intros Hr.
    assert ((wrangle_data rawdata column_array w).1 = Err IndexError) as H.
    { unfold wrangle_data. unfold mbind at 1, Py_bind.
      by rewrite (initialize_dataframe_err _ _ _ _ _ Hr span_nil). }
    split; [done|]. destruct (wrangle_data rawdata column_array w) as [r w'].
    simpl in H. by subst.
  - intros rs cs Hr Hc. rewrite (table_of_wrangle_data _ _ _ _ _ Hr Hc).
    apply wrangle_frame_IndexError.
Qed.

(** The scenario of the specification: the records 2021-01-01 with
    A = 5 and 2021-01-03 with A = 7, and the column A. *)
Lemma scenario_ordered :
  parse_date "2021-01-01" = Ok 737791 → parse_date "2021-01-03" = Ok 737793 →
  Forall (λ e, is_Ok (parse_date (Date e))) scenario_records ∧
  date_ordered scenario_records ∧
  span scenario_records = Ok (737791, 737793).
Proof.
  intros H1 H3. split; [|split].
  - unfold scenario_records. repeat constructor; cbn [Date]; by rewrite ?H1, ?H3.
  - intros e e' d d' He He'. unfold scenario_records in He, He'.
    rewrite !elem_of_cons, elem_of_nil in He, He'.
    destruct He as [->|[->|[]]], He' as [->|[->|[]]]; cbn [Date];
      rewrite ?H1, ?H3; intros [= <-] [= <-] Hle; try lia.
    vm_compute in Hle. discriminate Hle.
  - unfold span.
    change (sorted (Date <$> scenario_records)) with ["2021-01-01"; "2021-01-03"].
    rewrite list_item_first, list_item_last. cbn [last mbind result_bind].
    rewrite H1. cbn [mbind result_bind]. by rewrite H3.
Qed.

Lemma scenario_run :
  parse_date "2021-01-01" = Ok 737791 → parse_date "2021-01-03" = Ok 737793 →
  ∃ df, wrangle_frame scenario_records ["A"] = Ok df ∧
    index df = [737791; 737792; 737793] ∧ columns df = ["A"] ∧
    ∀ d, d ∈ [737791; 737792; 737793] →
      cells df !! (d, "A") = Some (default zero (first_value scenario_records d "A")).
Proof.
  intros H1 H3. destruct (scenario_ordered H1 H3) as (Hall & Hord & Hspan).
  assert (is_Ok (wrangle_frame scenario_records ["A"])) as Hok.
  { apply wrangle_frame_total; [done|exact Hall|exact Hord|apply NoDup_singleton|].
    intros e c He ->%list_elem_of_singleton. unfold scenario_records in He.
    rewrite !elem_of_cons, elem_of_nil in He.
    destruct He as [->|[->|[]]]; vm_done. }
  destruct (wrangle_frame scenario_records ["A"]) as [df|] eqn:Hw; [|done].
  destruct (wrangle_frame_spec _ _ _ Hw) as (lo & hi & Hspan' & Hidx & Hcols & _ & Hcells).
  rewrite Hspan in Hspan'. injection Hspan' as <- <-.
  change (date_range 737791 737793) with [737791; 737792; 737793] in Hidx.
  exists df. split; [done|]. split; [done|]. split; [done|].
  intros d Hd. apply Hcells; [by rewrite Hidx|by left].
Qed.

(** C4.  In the table [wrangle_data] returns, a cell whose day has no
    record with a value other than None for the column is 0.0.  For the
    records 2021-01-01 with A = 5 and 2021-01-03 with A = 7 and the
    column A, when the library reads zero-padded dates as the days they
    denote, a table is returned; it has the three rows 2021-01-01,
    2021-01-02 and 2021-01-03, the days 737791, 737792 and 737793, where
    A is 5.0 (5629499534213120 times 2^-50), 0.0 and 7.0
    (7881299347898368 times 2^-50). *)
Theorem wrangle_data_zero_fill w rawdata column_array rs cs :
  heap w !! rawdata = Some (ORecords rs) →
  heap w !! column_array = Some (OStrs cs) →
  (∀ df d c,
     table_of (wrangle_data rawdata column_array w) = Ok df →
     d ∈ index df → c ∈ cs →
     (∀ e v, e ∈ rs → parse_date (Date e) = Ok d → getitem e c = Ok v →
             is_not_None v = false) →
     cells df !! (d, c) = Some zero) ∧
  (rs = scenario_records → cs = ["A"] → reads_iso_dates →
   iso_date "2021-01-01" = Some 737791 ∧
   iso_date "2021-01-02" = Some 737792 ∧
   iso_date "2021-01-03" = Some 737793 ∧
   ∃ df,
     table_of (wrangle_data rawdata column_array w) = Ok df ∧
     index df = [737791; 737792; 737793] ∧ columns df = ["A"] ∧
     cells df !! (737791, "A") = Some (S754_finite false 5629499534213120 (-50)) ∧
     cells df !! (737792, "A") = Some (S754_zero false) ∧
     cells df !! (737793, "A") = Some (S754_finite false 7881299347898368 (-50))).
Proof.
  intros Hr Hc. rewrite (table_of_wrangle_data _ _ _ _ _ Hr Hc). split.
  - intros df d c (lo & hi & _ & _ & _ & _ & Hcells)%wrangle_frame_spec Hd Hcin Hno.
    rewrite (Hcells d c Hd Hcin). f_equal.
    destruct (first_value rs d c) as [f|] eqn:Hf; [|done]. simpl.
    apply first_value_elem in Hf as (e & He & (Hdate & Hval & _)%provides_inv).
    apply cell_value_inv in Hval as (v & Hv & [[_ ->]|[Hnn _]]); [done|].
    by rewrite (Hno e v He Hdate Hv) in Hnn.
  - intros -> -> Hiso.
    split; [vm_done|]. split; [vm_done|]. split; [vm_done|].
    assert (parse_date "2021-01-01" = Ok 737791) as H1 by (apply Hiso; vm_done).
    assert (parse_date "2021-01-03" = Ok 737793) as H3 by (apply Hiso; vm_done).
    destruct (scenario_run H1 H3) as (df & Hw & Hidx & Hcols & Hcells).
    exists df. split; [exact Hw|]. split; [exact Hidx|]. split; [exact Hcols|].
    split; [|split].
    + rewrite Hcells by (by left).
      unfold first_value, provides, scenario_records. cbn [Date].
      rewrite H1. vm_done.
    + rewrite Hcells by (right; by left).
      unfold first_value, provides, scenario_records. cbn [Date].
      rewrite H1, H3. vm_done.
    + rewrite Hcells by (right; right; by left).
      unfold first_value, provides, scenario_records. cbn [Date].
      rewrite H1, H3. vm_done.
Qed.

(** C2, amended.  In the table [wrangle_data] returns, every cell of a
    row and a column of the table holds one float that is not NaN; in a
    column other than "Date" the float is finite when no record has an
    infinite float for that column.  A record whose value for a requested
    column is None, and which is the first record of its day, makes the
    cell 0.0. *)
Theorem wrangle_data_cells w rawdata column_array rs cs df :
  heap w !! rawdata = Some (ORecords rs) →
  heap w !! column_array = Some (OStrs cs) →
  table_of (wrangle_data rawdata column_array w) = Ok df →
  (∀ d c, d ∈ index df → c ∈ columns df →
     ∃ v, cells df !! (d, c) = Some v ∧ isna v = false ∧
          (c ≠ "Date" →
           (∀ e s, e ∈ rs → fields e !! c ≠ Some (Float (S754_infinity s))) →
           is_finite v = true)) ∧
  (∀ l1 e l2 c d,
     rs = l1 ++ e :: l2 → c ∈ cs →
     getitem e c = Ok (PNum NoData) →
     parse_date (Date e) = Ok d →
     (∀ e', e' ∈ l1 → parse_date (Date e') ≠ Ok d) →
     cells df !! (d, c) = Some (S754_zero false)).
Proof.
  intros Hr Hc. rewrite (table_of_wrangle_data _ _ _ _ _ Hr Hc). intros Hw.
  destruct (wrangle_frame_spec _ _ _ Hw) as (lo & hi & Hspan & Hidx & Hcols & Hwf & Hcells).
  split.
  - intros d c Hd Hcin. rewrite Hcols in Hcin.
    rewrite (Hcells d c Hd Hcin). eexists. split; [done|].
    destruct (first_value rs d c) as [f|] eqn:Hf; simpl; [|done].
    pose proof (first_value_not_nan _ _ _ _ Hf) as Hnan.
    split; [done|]. intros Hcol Hfin.
    apply first_value_elem in Hf as (e & He & (_ & Hval & _)%provides_inv).
    apply cell_value_inv in Hval as (v & Hv & [[_ ->]|[_ Hfl]]); [done|].
    destruct v as [s|[|z|f']]; simpl in Hfl; try discriminate.
    + unfold getitem in Hv. case_decide; [done|].
      by destruct (fields e !! c).
    + pose proof (float_of_int_not_inf _ _ Hfl) as Hinf.
      destruct f as [|s| |]; try done. by destruct (Hinf s).
    + injection Hfl as ->.
      destruct f as [|s| |]; try done. exfalso. apply (Hfin e s He).
      unfold getitem in Hv. case_decide; [discriminate|].
      by destruct (fields e !! c) as [n|]; simplify_eq.
  - intros l1 e l2 c d -> Hcin Hnone Hdate Hfirst.
    assert (d ∈ index df) as Hd.
    { destruct (wrangle_frame_covers _ _ _ e c Hw) as (d' & Hd' & Hin);
        [rewrite elem_of_app, elem_of_cons; tauto|done|]. congruence. }
    rewrite (Hcells d c Hd Hcin), first_value_app.
    rewrite (first_value_other_days _ _ _ Hfirst). simpl.
    unfold provides, cell_value. rewrite Hdate, Hnone. simpl.
    by rewrite decide_True.
Qed.

(** C3, amended.  When two records have the same day and the first of
    them is the first record of that day and has, for a requested column,
    a value whose float is not NaN, the cell of the returned table is the
    float of the first record's value.  The value of the second record
    for that column is not used: whatever is put in its place, or if it
    is removed, [wrangle_data] gives the same result, table or
    exception. *)
Theorem first_write_wins w rawdata column_array l1 e1 l2 e2 l3 cs c d f :
  heap w !! rawdata = Some (ORecords (l1 ++ e1 :: l2 ++ e2 :: l3)) →
  heap w !! column_array = Some (OStrs cs) →
  c ∈ cs →
  parse_date (Date e1) = Ok d →
  parse_date (Date e2) = Ok d →
  (∀ e, e ∈ l1 → parse_date (Date e) ≠ Ok d) →
  cell_value e1 c = Ok f → isna f = false →
  (∀ df, table_of (wrangle_data rawdata column_array w) = Ok df →
         cells df !! (d, c) = Some f) ∧
  (∀ rawdata' fs',
     heap w !! rawdata' =
       Some (ORecords (l1 ++ e1 :: l2 ++ {| Date := Date e2; fields := fs' |} :: l3)) →
     (∀ k, k ≠ c → fs' !! k = fields e2 !! k) →
     table_of (wrangle_data rawdata' column_array w) =
     table_of (wrangle_data rawdata column_array w)).
Proof.
  intros Hr Hc Hcin Hd1 Hd2 Hfirst Hval Hnan.
  assert (provides e1 d c = Some f) as Hp.
  { unfold provides. rewrite Hd1, Hval, decide_True, Hnan; done. }
  split.
  - intros df. rewrite (table_of_wrangle_data _ _ _ _ _ Hr Hc). intros Hw.
    destruct (wrangle_frame_spec _ _ _ Hw) as (lo & hi & Hspan & Hidx & _ & _ & Hcells).
    assert (d ∈ index df) as Hd.
    { destruct (wrangle_frame_covers _ _ _ e1 c Hw) as (d' & Hd' & Hin);
        [rewrite elem_of_app, elem_of_cons; tauto|done|]. congruence. }
    rewrite (Hcells d c Hd Hcin), first_value_app.
    rewrite (first_value_other_days _ _ _ Hfirst). simpl. by rewrite Hp.
  - intros rawdata' fs' Hr' Hagree.
    rewrite (table_of_wrangle_data _ _ _ _ _ Hr Hc),
      (table_of_wrangle_data _ _ _ _ _ Hr' Hc).
    set (e2' := {| Date := Date e2; fields := fs' |}).
    unfold wrangle_frame.
    assert (span (l1 ++ e1 :: l2 ++ e2' :: l3) = span (l1 ++ e1 :: l2 ++ e2 :: l3))
      as -> by (unfold span; by rewrite !fmap_app, !fmap_cons, !fmap_app, !fmap_cons).
    destruct (span (l1 ++ e1 :: l2 ++ e2 :: l3)) as [[lo hi]|] eqn:Hspan; [|done].
    assert (fill_cells (DataFrame_new (date_range lo hi) cs)
              (pairs (l1 ++ e1 :: l2 ++ e2' :: l3) cs)
            = fill_cells (DataFrame_new (date_range lo hi) cs)
                (pairs (l1 ++ e1 :: l2 ++ e2 :: l3) cs)) as ->; [|done].
    change (l1 ++ e1 :: l2 ++ e2' :: l3) with (l1 ++ (e1 :: l2) ++ [e2'] ++ l3).
    change (l1 ++ e1 :: l2 ++ e2 :: l3) with (l1 ++ (e1 :: l2) ++ [e2] ++ l3).
    rewrite !app_assoc, !(pairs_app _ l3), !(pairs_app _ [_]), <- !app_assoc.
    rewrite !(fill_cells_app _ (pairs (l1 ++ e1 :: l2) cs)).
    destruct (fill_cells _ (pairs (l1 ++ e1 :: l2) cs)) as [[x|] dfA] eqn:HA; [done|].
    destruct (fill_cells_spec _ _ _ (DataFrame_new_wf _ _) HA)
      as (HwfA & _ & _ & HcellsA).
    specialize (HcellsA d c). simpl in HcellsA.
    rewrite nan_cells_lookup, decide_True in HcellsA.
    2:{ split; [|done].
        destruct (fill_cells_reached _ _ _ e1 c (DataFrame_new_wf _ _) HA)
          as (d' & Hd' & Hin).
        - apply elem_of_pairs. split; [|done].
          rewrite elem_of_app, elem_of_cons. tauto.
        - simpl in Hin. congruence. }
    simpl in HcellsA. rewrite first_write_pairs in HcellsA by done.
    destruct (first_value (l1 ++ e1 :: l2) d c) as [f'|] eqn:Hf'.
    2:{ rewrite first_value_app in Hf'. simpl in Hf'. rewrite Hp in Hf'.
        by destruct (first_value l1 d c). }
    unfold pairs at 1 3. simpl. rewrite !app_nil_r.
    eapply (fill_cells_row_agree e2 e2' d c f'); eauto.
    by eapply first_value_not_nan.
Qed.



(** C9.  A call of [wrangle_data] leaves the global variables and every
    object of the store as they are, the list of records and the list of
    columns among them: it only adds new objects.  Its result, table or
    exception, is determined by the contents of the two lists: it is the
    same in any other store that holds these contents, and the same when
    the call is made a second time. *)
Theorem wrangle_data_pure w rawdata column_array rs cs :
  heap w !! rawdata = Some (ORecords rs) →
  heap w !! column_array = Some (OStrs cs) →
  ∃ r w',
    wrangle_data rawdata column_array w = (r, w') ∧
    hospital_ventilator_df w' = hospital_ventilator_df w ∧
    vaccine_cases_df w' = vaccine_cases_df w ∧
    apibutton w' = apibutton w ∧
    hospital_ventilator_options w' = hospital_ventilator_options w ∧
    (∃ new, heap w' = heap w ++ new) ∧
    (∀ l o, heap w !! l = Some o → heap w' !! l = Some o) ∧
    heap w' !! rawdata = Some (ORecords rs) ∧
    heap w' !! column_array = Some (OStrs cs) ∧
    (∀ w2 rawdata2 column_array2,
       heap w2 !! rawdata2 = Some (ORecords rs) →
       heap w2 !! column_array2 = Some (OStrs cs) →
       table_of (wrangle_data rawdata2 column_array2 w2) = table_of (r, w')) ∧
    table_of (wrangle_data rawdata column_array w') = table_of (r, w').
Proof.
  intros Hr Hc. eexists _, _. split; [apply (wrangle_data_run _ _ _ _ _ Hr Hc)|].
  pose proof (table_of_wrangle_data _ _ _ _ _ Hr Hc) as Ht.
  rewrite (wrangle_data_run _ _ _ _ _ Hr Hc) in Ht. rewrite Ht.
  assert (∀ l o, heap w !! l = Some o → (heap w ++ wrangle_objs rs cs) !! l = Some o)
    as Hold by (intros; by apply lookup_app_l_Some).
  do 4 (split; [done|]).
  split; [simpl; eauto|].
  split; [done|]. split; [by apply Hold|]. split; [by apply Hold|].
  split.
  - intros w2 rawdata2 ca2 Hr2 Hc2. by apply table_of_wrangle_data.
  - apply table_of_wrangle_data; simpl; by apply Hold.
Qed.

(** ** The refresh cycle *)

Section Refresh.

Lemma wrangle_objs_ok rs cs df :
  wrangle_frame rs cs = Ok df →
  wrangle_objs rs cs = [OStrs (sorted (Date <$> rs)); OFrame df].
Proof.
  unfold wrangle_frame, wrangle_objs.
  destruct (span rs) as [[lo hi]|]; [|done].
  destruct (fill_cells _ _) as [[x|] df1]; [done|]. by intros [= <-].
Qed.

Lemma set_hospital_run {B} l (k : Py B) w :
  (set_hospital_ventilator_df l;; k) w = k (with_hospital_ventilator_df l w).
Proof. reflexivity. Qed.

Lemma set_vaccine_run {B} l (k : Py B) w :
  (set_vaccine_cases_df l;; k) w = k (with_vaccine_cases_df l w).
Proof. reflexivity. Qed.

Lemma success_run w :
  (modify_apibutton (set_icon "check");;
   modify_apibutton (set_disabled true);;
   modify_apibutton (set_description "REFRESHED")) w =
  (Ok tt, with_apibutton (button_refreshed (apibutton w)) w).
Proof. reflexivity. Qed.

Lemma failure_run w :
  (modify_apibutton (set_disabled true);;
   modify_apibutton (set_icon "times");;
   modify_apibutton (set_description "UNAVAILABLE")) w =
  (Ok tt, with_apibutton (button_unavailable (apibutton w)) w).
Proof. reflexivity. Qed.

Lemma refresh_graph_run w : refresh_graph w = (Ok tt, redrawn w).
Proof. reflexivity. Qed.

Lemma raise_run {A B} e (k : A → Py B) w : (x ← raise e; k x) w = (Err e, w).
Proof. reflexivity. Qed.

Lemma try_except_run {B} body handler (k : Py B) w :
  (try_except body handler;; k) w =
    match body w with
    | (Ok _, w') => k w'
    | (Err _, w') =>
        match handler w' with
        | (Ok _, w'') => k w''
        | (Err e, w'') => (Err e, w'')
        end
    end.
Proof.
  unfold mbind at 1, Py_bind, try_except. by destruct (body w) as [[[]|] ?].
Qed.

Lemma wrangle_data_bind_run {B} w rawdata ca rs cs (k : nat → Py B) :
  heap w !! rawdata = Some (ORecords rs) →
  heap w !! ca = Some (OStrs cs) →
  (df ← wrangle_data rawdata ca; k df) w =
    match wrangle_frame rs cs with
    | Ok _ => k (S (length (heap w))) (with_heap (heap w ++ wrangle_objs rs cs) w)
    | Err x => (Err x, with_heap (heap w ++ wrangle_objs rs cs) w)
    end.
Proof.
  intros Hr Hc. unfold mbind at 1, Py_bind.
  rewrite (wrangle_data_run _ _ _ _ _ Hr Hc). by destruct (wrangle_frame rs cs).
Qed.

Lemma refresh_cycle_run response w :
  ∃ w', api_button_callback response w = (Ok tt, w') ∧
  disabled (apibutton w') = true ∧
  (∃ new, heap w' = heap w ++ new) ∧
  match response with
  | Err _ =>
      hospital_ventilator_df w' = hospital_ventilator_df w ∧
      vaccine_cases_df w' = vaccine_cases_df w ∧ shows_failure w'
  | Ok data =>
      match wrangle_frame data hospital_ventilator_columns with
      | Err _ =>
          hospital_ventilator_df w' = hospital_ventilator_df w ∧
          vaccine_cases_df w' = vaccine_cases_df w ∧ shows_failure w'
      | Ok df1 =>
          heap w' !! hospital_ventilator_df w' = Some (OFrame df1) ∧
          (length (heap w) <= hospital_ventilator_df w')%nat ∧
          match wrangle_frame data vaccine_cases_columns with
          | Err _ => vaccine_cases_df w' = vaccine_cases_df w ∧ shows_failure w'
          | Ok df2 =>
              heap w' !! vaccine_cases_df w' = Some (OFrame df2) ∧
              (length (heap w) <= vaccine_cases_df w')%nat ∧ shows_success w'
          end
      end
  end.
Proof.
  unfold api_button_callback. rewrite try_except_run.
  destruct response as [data|e].
  - unfold access_api_data. rewrite !alloc_run.
    erewrite wrangle_data_bind_run.
    2:{ cbn [heap with_heap]. apply lookup_app_l_Some, lookup_new. }
    2:{ cbn [heap with_heap]. apply lookup_new. }
    cbn [heap with_heap].
    set (H2 := (heap w ++ [ORecords data]) ++ [OStrs hospital_ventilator_columns]).
    assert (H2 !! length (heap w) = Some (ORecords data)) as Hdata
      by apply lookup_app_l_Some, lookup_new.
    assert (∃ pre, H2 = heap w ++ pre) as [pre Hpre]
      by (unfold H2; rewrite <- app_assoc; eauto).
    assert (length (heap w) <= length H2)%nat as Hlen
      by (rewrite Hpre, length_app; lia).
    clearbody H2.
    destruct (wrangle_frame data hospital_ventilator_columns) as [df1|x1] eqn:E1.
    + rewrite (wrangle_objs_ok _ _ _ E1).
      set (H3 := H2 ++ [OStrs (sorted (Date <$> data)); OFrame df1]).
      assert (H3 !! S (length H2) = Some (OFrame df1)) as Hdf1.
      { unfold H3. rewrite lookup_app_r by lia.
        by replace (S (length H2) - length H2)%nat with 1%nat by lia. }
      assert (H3 !! length (heap w) = Some (ORecords data)) as Hdata3
        by (by apply lookup_app_l_Some).
      assert (∃ pre3, H3 = heap w ++ pre3) as [pre3 Hpre3]
        by (unfold H3; rewrite Hpre, <- app_assoc; eauto).
      assert (length H2 <= length H3)%nat as Hlen3
        by (unfold H3; rewrite length_app; lia).
      clearbody H3.
      rewrite set_hospital_run, alloc_run.
      erewrite wrangle_data_bind_run.
      2:{ cbn [heap with_heap with_hospital_ventilator_df].
          apply lookup_app_l_Some, Hdata3. }
      2:{ cbn [heap with_heap with_hospital_ventilator_df]. apply lookup_new. }
      cbn [heap with_heap with_hospital_ventilator_df].
      destruct (wrangle_frame data vaccine_cases_columns) as [df2|x2] eqn:E2.
      * rewrite (wrangle_objs_ok _ _ _ E2), set_vaccine_run, success_run.
        cbv beta iota. rewrite refresh_graph_run.
        eexists. split; [reflexivity|].
        cbn [redrawn with_apibutton with_vaccine_cases_df with_heap
             with_hospital_ventilator_df with_hospital_ventilator_options
             heap apibutton hospital_ventilator_df vaccine_cases_df].
        split; [reflexivity|]. split.
        { rewrite Hpre3, <- !app_assoc. eauto. }
        split; [by do 2 apply lookup_app_l_Some|].
        split; [lia|]. split; [|split; [|by split]].
        -- rewrite lookup_app_r by lia.
           match goal with |- _ !! ?i = _ => replace i with 1%nat by lia end. done.
        -- rewrite length_app. simpl. lia.
      * cbv beta iota. rewrite failure_run. cbv beta iota.
        rewrite refresh_graph_run.
        eexists. split; [reflexivity|].
        cbn [redrawn with_apibutton with_vaccine_cases_df with_heap
             with_hospital_ventilator_df with_hospital_ventilator_options
             heap apibutton hospital_ventilator_df vaccine_cases_df].
        split; [reflexivity|]. split.
        { rewrite Hpre3, <- !app_assoc. eauto. }
        split; [by do 2 apply lookup_app_l_Some|].
        split; [lia|]. by split.
    + cbv beta iota. rewrite failure_run. cbv beta iota.
      rewrite refresh_graph_run.
      eexists. split; [reflexivity|].
      cbn [redrawn with_apibutton with_vaccine_cases_df with_heap
           with_hospital_ventilator_df with_hospital_ventilator_options
           heap apibutton hospital_ventilator_df vaccine_cases_df].
      split; [reflexivity|]. split; [rewrite Hpre, <- !app_assoc; eauto|].
      by repeat split.
  - unfold access_api_data. rewrite raise_run. cbv beta iota.
    rewrite failure_run. cbv beta iota. rewrite refresh_graph_run.
    eexists. split; [reflexivity|].
    cbn [redrawn with_apibutton with_vaccine_cases_df with_heap
         with_hospital_ventilator_df with_hospital_ventilator_options
         heap apibutton hospital_ventilator_df vaccine_cases_df].
    split; [reflexivity|]. split; [exists []; by rewrite app_nil_r|].
    by repeat split.
Qed.



End Refresh.

(** C5, amended.  A refresh cycle always ends, with the button disabled,
    and changes no object that existed before.  When the request fails,
    or when the first call of [wrangle_data] raises, both global tables
    stay as they were and the button shows the failure.  When the first
    call returns, [hospital_ventilator_df] is bound to the new table;
    then, when the second call raises, [vaccine_cases_df] stays as it was
    and the button shows the failure, and when it returns,
    [vaccine_cases_df] is bound to the second new table and the button
    shows the success. *)
Theorem refresh_cycle response w :
  ∃ w', api_button_callback response w = (Ok tt, w') ∧
    disabled (apibutton w') = true ∧
    (∀ l o, heap w !! l = Some o → heap w' !! l = Some o) ∧
    match response with
    | Err _ =>
        hospital_ventilator_df w' = hospital_ventilator_df w ∧
        vaccine_cases_df w' = vaccine_cases_df w ∧ shows_failure w'
    | Ok data =>
        match wrangle_frame data hospital_ventilator_columns with
        | Err _ =>
            hospital_ventilator_df w' = hospital_ventilator_df w ∧
            vaccine_cases_df w' = vaccine_cases_df w ∧ shows_failure w'
        | Ok df1 =>
            heap w' !! hospital_ventilator_df w' = Some (OFrame df1) ∧
            (length (heap w) <= hospital_ventilator_df w')%nat ∧
            match wrangle_frame data vaccine_cases_columns with
            | Err _ => vaccine_cases_df w' = vaccine_cases_df w ∧ shows_failure w'
            | Ok df2 =>
                heap w' !! vaccine_cases_df w' = Some (OFrame df2) ∧
                (length (heap w) <= vaccine_cases_df w')%nat ∧ shows_success w'
            end
        end
    end.
Proof.
  destruct (refresh_cycle_run response w) as (w' & Hrun & Hdis & [new Hnew] & Hcases).
  exists w'. split; [done|]. split; [done|]. split; [|done].
  intros l o Hl. rewrite Hnew. by apply lookup_app_l_Some.
Qed.


(** ** Further properties of the code *)

(** *** Date strings and days *)

Lemma ymd2ord_strict y m d y' m' d' :
  valid_ymd y m d → valid_ymd y' m' d' →
  y < y' ∨ (y = y' ∧ (m < m' ∨ (m = m' ∧ d < d'))) →
  ymd2ord y m d < ymd2ord y' m' d'.
Proof.
  intros Hv Hv' Hlt. unfold ymd2ord.
  destruct Hlt as [Hy | [-> [Hm | [-> Hd]]]].
  - pose proof (day_of_year_bound _ _ _ Hv).
    pose proof (day_of_year_bound _ _ _ Hv').
    pose proof (days_before_year_succ y).
    pose proof (days_before_year_mono (y + 1) y' ltac:(lia)).
    lia.
  - pose proof (days_before_month_next y' m m' d Hv (proj1 Hv') Hm).
    destruct Hv' as [_ ?]. lia.
  - lia.
Qed.

Lemma ascii_of_code a b : N_of_ascii a = N_of_ascii b → a = b.
Proof.
  intros H. rewrite <- (ascii_N_embedding a), <- (ascii_N_embedding b). by rewrite H.
Qed.

Lemma digit_inj a b v : digit a = Some v → digit b = Some v → a = b.
Proof.
  intros [Ha _]%digit_inv [Hb _]%digit_inv. apply ascii_of_code. lia.
Qed.

(** A date string is determined by its year, month and day. *)
Lemma split_ymd_inj s t k : split_ymd s = Some k → split_ymd t = Some k → s = t.
Proof.
  destruct k as [[y m] d]. intros Hs Ht.
  apply split_ymd_inv in Hs as
    (c1&c2&c3&c4&c5&c6&c7&c8&c9&c10&y1&y2&y3&y4&m1&m2&d1&d2&->&Hs).
  apply split_ymd_inv in Ht as
    (e1&e2&e3&e4&e5&e6&e7&e8&e9&e10&z1&z2&z3&z4&n1&n2&f1&f2&->&Ht).
  destruct Hs as (H1&H2&H3&H4&H5&H6&H7&H8&H9&H10&Hy&Hm&Hd).
  destruct Ht as (G1&G2&G3&G4&G5&G6&G7&G8&G9&G10&Gy&Gm&Gd).
  pose proof (digit_inv _ _ H1). pose proof (digit_inv _ _ H2).
  pose proof (digit_inv _ _ H3). pose proof (digit_inv _ _ H4).
  pose proof (digit_inv _ _ H6). pose proof (digit_inv _ _ H7).
  pose proof (digit_inv _ _ H9). pose proof (digit_inv _ _ H10).
  pose proof (digit_inv _ _ G1). pose proof (digit_inv _ _ G2).
  pose proof (digit_inv _ _ G3). pose proof (digit_inv _ _ G4).
  pose proof (digit_inv _ _ G6). pose proof (digit_inv _ _ G7).
  pose proof (digit_inv _ _ G9). pose proof (digit_inv _ _ G10).
  assert (y1 = z1 ∧ y2 = z2 ∧ y3 = z3 ∧ y4 = z4 ∧ m1 = n1 ∧ m2 = n2 ∧ d1 = f1 ∧ d2 = f2)
    as (->&->&->&->&->&->&->&->) by lia.
  rewrite (digit_inj _ _ _ H1 G1), (digit_inj _ _ _ H2 G2), (digit_inj _ _ _ H3 G3),
    (digit_inj _ _ _ H4 G4), (digit_inj _ _ _ H6 G6), (digit_inj _ _ _ H7 G7),
    (digit_inj _ _ _ H9 G9), (digit_inj _ _ _ H10 G10).
  apply is_dash_inv in H5, H8, G5, G8.
  rewrite (ascii_of_code c5 e5), (ascii_of_code c8 e8) by congruence. done.
Qed.

Lemma iso_date_inj s t a : iso_date s = Some a → iso_date t = Some a → s = t.
Proof.
  intros (y&m&d&Hs&Hv&->&_)%iso_date_inv (y'&m'&d'&Ht&Hv'&Heq&_)%iso_date_inv.
  assert (y = y' ∧ m = m' ∧ d = d') as (->&->&->).
  { destruct (Z.lt_trichotomy y y') as [?|[->|?]].
    - pose proof (ymd2ord_strict y m d y' m' d' Hv Hv'). lia.
    - destruct (Z.lt_trichotomy m m') as [?|[->|?]].
      + pose proof (ymd2ord_strict y' m d y' m' d' Hv Hv'). lia.
      + destruct (Z.lt_trichotomy d d') as [?|[->|?]]; [|done|].
        * pose proof (ymd2ord_strict y' m' d y' m' d' Hv Hv'). lia.
        * pose proof (ymd2ord_strict y' m' d' y' m' d Hv' Hv). lia.
      + pose proof (ymd2ord_strict y' m' d' y' m d Hv' Hv). lia.
    - pose proof (ymd2ord_strict y' m' d' y m d Hv' Hv). lia. }
  by eapply split_ymd_inj.
Qed.

Lemma iso_date_order s t a b :
  iso_date s = Some a → iso_date t = Some b →
  (String.leb s t = true ↔ a <= b) ∧ (a = b ↔ s = t).
Proof.
  intros Hs Ht.
  assert (a = b ↔ s = t) as Hinj.
  { split; [intros ->; by eapply iso_date_inj|intros ->; congruence]. }
  split; [|done]. split; [by eapply iso_date_mono|].
  intros Hle. destruct (String.leb_total s t) as [|Hts]; [done|].
  pose proof (iso_date_mono _ _ _ _ Ht Hs Hts).
  assert (a = b) as Heq by lia. apply Hinj in Heq as ->. apply leb_refl.
Qed.

(** Records with zero-padded dates have date strings that sort in the
    order of the days. *)
Lemma iso_dates_ordered rs :
  reads_iso_dates →
  Forall (λ e, is_Some (iso_date (Date e))) rs →
  Forall (λ e, is_Ok (parse_date (Date e))) rs ∧ date_ordered rs.
Proof.
  intros Hiso Hall. rewrite Forall_forall in Hall. split.
  - apply Forall_forall. intros e He. destruct (Hall e He) as [a Ha].
    by rewrite (Hiso _ _ Ha).
  - intros e e' d d' He He' Hd Hd' Hle.
    destruct (Hall e He) as [a Ha]. destruct (Hall e' He') as [b Hb].
    rewrite (Hiso _ _ Ha) in Hd. rewrite (Hiso _ _ Hb) in Hd'.
    injection Hd as <-. injection Hd' as <-. by eapply iso_date_mono.
Qed.

(** X1.  Zero-padded date strings sort in the order of the days they
    denote, and two of them that denote the same day are the same
    string.  So for records with such dates, which the library reads as
    these days, every date parses and the order in which [dates.sort()]
    puts the strings is the order of the days that [parse_date] returns
    for them. *)
Theorem parse_date_order rs :
  reads_iso_dates →
  Forall (λ e, is_Some (iso_date (Date e))) rs →
  Forall (λ e, is_Ok (parse_date (Date e))) rs ∧
  date_ordered rs ∧
  ∀ e e' d d',
    e ∈ rs → e' ∈ rs →
    parse_date (Date e) = Ok d → parse_date (Date e') = Ok d' →
    (String.leb (Date e) (Date e') = true ↔ d <= d') ∧
    (d = d' ↔ Date e = Date e').
Proof.
  intros Hiso Hall.
  destruct (iso_dates_ordered rs Hiso Hall) as [Hok Hord].
  split; [done|]. split; [done|].
  intros e e' d d' He He' Hd Hd'. rewrite Forall_forall in Hall.
  destruct (Hall e He) as [a Ha]. destruct (Hall e' He') as [b Hb].
  rewrite (Hiso _ _ Ha) in Hd. rewrite (Hiso _ _ Hb) in Hd'.
  injection Hd as <-. injection Hd' as <-. by apply iso_date_order.
Qed.

(** *** The first and the last of the sorted dates *)

(** The ends of the sorted list do not change when strings are added
    that lie between two strings of the list. *)
Lemma sorted_ends l l' :
  (∀ x, x ∈ l → x ∈ l') →
  (∀ y, y ∈ l' → ∃ a b, a ∈ l ∧ b ∈ l ∧
      String.leb a y = true ∧ String.leb y b = true) →
  list_item (sorted l') 0 = list_item (sorted l) 0 ∧
  list_item (sorted l') (-1) = list_item (sorted l) (-1).
Proof.
  intros Hsub Hbound. rewrite !list_item_first, !list_item_last.
  pose proof (sorted_ordered l) as Ho. pose proof (sorted_ordered l') as Ho'.
  pose proof (sorted_elem l) as He. pose proof (sorted_elem l') as He'.
  destruct (sorted l) as [|x t] eqn:Hs, (sorted l') as [|x' t'] eqn:Hs'.
  - done.
  - exfalso. destruct (Hbound x') as (a & _ & Ha & _).
    { apply He'. left. }
    apply He in Ha. by apply elem_of_nil in Ha.
  - exfalso. assert (x ∈ l') as Hx by (apply Hsub, He; left).
    apply He' in Hx. by apply elem_of_nil in Hx.
  - assert (∀ y, y ∈ x :: t → y ∈ x' :: t') as Hsub'.
    { intros y Hy. by apply He', Hsub, He. }
    assert (∀ y, y ∈ x' :: t' → ∃ a b, a ∈ x :: t ∧ b ∈ x :: t ∧
              String.leb a y = true ∧ String.leb y b = true) as Hbound'.
    { intros y Hy. destruct (Hbound y) as (a & b & Ha & Hb & Hab); [by apply He'|].
      exists a, b. split; [by apply He|]. split; [by apply He|done]. }
    split.
    + f_equal. apply String.leb_antisym.
      * eapply ordered_first; [exact Ho'|]. apply Hsub'. left.
      * destruct (Hbound' x') as (a & _ & Ha & _ & Hle & _); [left|].
        eapply leb_trans; [|exact Hle]. exact (ordered_first _ _ _ Ho Ha).
    + destruct (last (x :: t)) as [z|] eqn:Hz; [|by apply last_None in Hz].
      destruct (last (x' :: t')) as [z'|] eqn:Hz'; [|by apply last_None in Hz'].
      assert (z ∈ x :: t) as Hzin.
      { rewrite last_lookup in Hz. by eapply list_elem_of_lookup_2. }
      assert (z' ∈ x' :: t') as Hzin'.
      { rewrite last_lookup in Hz'. by eapply list_elem_of_lookup_2. }
      f_equal. apply String.leb_antisym.
      * destruct (Hbound' z') as (_ & b & _ & Hb & _ & Hle); [done|].
        eapply leb_trans; [exact Hle|]. exact (ordered_last _ _ _ Ho Hz Hb).
      * exact (ordered_last _ _ _ Ho' Hz' (Hsub' _ Hzin)).
Qed.

Lemma span_ends rs rs' :
  (∀ x, x ∈ Date <$> rs → x ∈ Date <$> rs') →
  (∀ y, y ∈ Date <$> rs' → ∃ a b, a ∈ Date <$> rs ∧ b ∈ Date <$> rs ∧
      String.leb a y = true ∧ String.leb y b = true) →
  span rs' = span rs.
Proof.
  intros Hsub Hbound. unfold span.
  destruct (sorted_ends _ _ Hsub Hbound) as [-> ->]. done.
Qed.

(** *** [initialize_dataframe] *)

(** X2.  [initialize_dataframe] reads the first and the last of the
    sorted date strings only: a record whose date string lies, in code
    point order, between the date strings of two other records does not
    change the frame it builds, whether that string is a date or not. *)
Theorem initialize_dataframe_interior w rawdata rawdata' column_array l1 e l2 cs a b :
  heap w !! rawdata = Some (ORecords (l1 ++ l2)) →
  heap w !! rawdata' = Some (ORecords (l1 ++ e :: l2)) →
  heap w !! column_array = Some (OStrs cs) →
  a ∈ l1 ++ l2 → b ∈ l1 ++ l2 →
  String.leb (Date a) (Date e) = true → String.leb (Date e) (Date b) = true →
  table_of (initialize_dataframe rawdata' column_array w) =
  table_of (initialize_dataframe rawdata column_array w).
Proof.
  intros Hr Hr' Hc Ha Hb Hae Heb.
  rewrite (table_of_initialize_dataframe _ _ _ _ _ Hr Hc),
    (table_of_initialize_dataframe _ _ _ _ _ Hr' Hc).
  rewrite (span_ends (l1 ++ l2) (l1 ++ e :: l2)); [done| |].
  - intros x. rewrite !fmap_app, fmap_cons, !elem_of_app, elem_of_cons. tauto.
  - intros y. rewrite fmap_app, fmap_cons, elem_of_app, elem_of_cons.
    intros Hy.
    assert (y = Date e ∨ y ∈ Date <$> l1 ++ l2) as [->|Hy'].
    { rewrite fmap_app, elem_of_app. tauto. }
    + exists (Date a), (Date b).
      split; [by apply list_elem_of_fmap_2|]. split; [by apply list_elem_of_fmap_2|done].
    + exists y, y. split; [done|]. split; [done|]. split; apply leb_refl.
Qed.


(** *** [set_dataframe_value] *)

Lemma cell_value_err e c x :
  cell_value e c = Err x → x = KeyError ∨ x = ValueError ∨ x = OverflowError.
Proof.
  unfold cell_value, getitem.
  case_decide; simpl.
  { destruct (float_of_str (Date e)); simpl; [done|intros [= <-]; tauto]. }
  destruct (fields e !! c) as [[|z|f]|]; simpl; try (intros [= <-]; tauto); try done.
  unfold float_of_int. destruct (binary_normalize prec emax z 0 false); simpl;
    try done; intros [= <-]; tauto.
Qed.

Lemma fill_cell_err df e c x :
  fill_cell df e c = Err x → x = KeyError ∨ x = ValueError ∨ x = OverflowError.
Proof.
  unfold fill_cell, loc_get.
  destruct (parse_date (Date e)) as [d|y] eqn:Hd; simpl.
  2:{ intros [= <-]. rewrite (parse_date_err _ _ Hd). tauto. }
  destruct (cells df !! (d, c)) as [v|]; simpl; [|intros [= <-]; tauto].
  destruct (count_occ string_dec (columns df) c) as [|[|n]]; simpl;
    try (intros [= <-]; tauto).
  destruct (isna v); simpl; [|done].
  destruct (cell_value e c) as [f|y] eqn:Hf; simpl; [done|].
  intros [= <-]. by eapply cell_value_err.
Qed.

(** What a call that returns does to the frame. *)
Lemma fill_cell_inv df e c df' :
  wf_frame df → fill_cell df e c = Ok df' →
  ∃ d v, parse_date (Date e) = Ok d ∧ cells df !! (d, c) = Some v ∧
    count_occ string_dec (columns df) c = 1%nat ∧
    if isna v
    then ∃ f, cell_value e c = Ok f ∧
              df' = {| index := index df; columns := columns df;
                       cells := <[(d, c) := f]> (cells df) |}
    else df' = df.
Proof.
  intros Hwf. unfold fill_cell.
  destruct (parse_date (Date e)) as [d|]; simpl; [|discriminate].
  destruct (loc_get df d c) as [x|] eqn:Hget; simpl; [|discriminate].
  destruct (isna_truth x) as [b|] eqn:Hb; simpl; [|discriminate].
  destruct (loc_get_scalar _ _ _ _ _ Hget Hb) as (v & Hv & Hocc & ->).
  intros Hfill. exists d, v. split; [done|]. split; [done|]. split; [done|].
  destruct (isna v).
  - destruct (cell_value e c) as [f|]; simpl in Hfill; [|discriminate].
    injection Hfill as <-. exists f. split; [done|].
    unfold loc_set. rewrite decide_True; [done|]. apply Hwf. eauto.
  - by injection Hfill as <-.
Qed.

(** X4.  A call of [set_dataframe_value] that raises leaves the store as
    it was, and what it raises is ValueError, KeyError or OverflowError:
    [float] is never applied to [None]. *)
Theorem set_dataframe_value_failure w dataframe df e c x w' :
  heap w !! dataframe = Some (OFrame df) →
  set_dataframe_value dataframe e c w = (Err x, w') →
  w' = w ∧ (x = KeyError ∨ x = ValueError ∨ x = OverflowError).
Proof.
  intros Hdf. rewrite (set_dataframe_value_run _ _ _ _ _ Hdf).
  destruct (fill_cell df e c) as [df'|y] eqn:Hfill; [discriminate|].
  intros [= <- <-]. split; [done|]. by eapply fill_cell_err.
Qed.

(** X5.  A call of [set_dataframe_value] that returns keeps the labels
    of the frame and every cell but the one of the record's day and the
    column; that cell is written only when it holds NaN, with the float
    of the record's value, and otherwise the store stays as it was. *)
Theorem set_dataframe_value_one_cell w dataframe df e c w' :
  wf_frame df →
  heap w !! dataframe = Some (OFrame df) →
  set_dataframe_value dataframe e c w = (Ok tt, w') →
  ∃ d df' v,
    parse_date (Date e) = Ok d ∧
    heap w' = <[dataframe := OFrame df']> (heap w) ∧
    index df' = index df ∧ columns df' = columns df ∧
    (∀ d' c', (d', c') ≠ (d, c) → cells df' !! (d', c') = cells df !! (d', c')) ∧
    cells df !! (d, c) = Some v ∧
    (isna v = false → w' = w) ∧
    (isna v = true → ∃ f, cell_value e c = Ok f ∧ cells df' !! (d, c) = Some f).
Proof.
  intros Hwf Hdf. rewrite (set_dataframe_value_run _ _ _ _ _ Hdf).
  destruct (fill_cell df e c) as [df'|y] eqn:Hfill; [|discriminate].
  intros [= <-].
  destruct (fill_cell_inv _ _ _ _ Hwf Hfill) as (d & v & Hd & Hv & _ & Hcase).
  exists d, df', v. split; [done|]. split; [done|].
  destruct (isna v).
  - destruct Hcase as (f & Hf & ->). simpl.
    split; [done|]. split; [done|]. split.
    { intros d' c' Hne. by rewrite lookup_insert_ne. }
    split; [done|]. split; [done|]. intros _. exists f.
    by rewrite lookup_insert_eq.
  - subst df'. split; [done|]. split; [done|]. split; [done|].
    split; [done|]. split; [|done]. intros _.
    rewrite list_insert_id by done. apply with_heap_id.
Qed.

(** X6.  Calling [set_dataframe_value] a second time with the same
    arguments changes nothing: the second call finds the cell set, or
    sets it to the same float, or raises the same exception. *)
Theorem set_dataframe_value_twice w dataframe df e c :
  wf_frame df →
  heap w !! dataframe = Some (OFrame df) →
  (set_dataframe_value dataframe e c;; set_dataframe_value dataframe e c) w =
  set_dataframe_value dataframe e c w.
Proof.
  intros Hwf Hdf.
  change ((set_dataframe_value dataframe e c;; set_dataframe_value dataframe e c) w)
    with (match set_dataframe_value dataframe e c w with
          | (Ok _, w') => set_dataframe_value dataframe e c w'
          | (Err x, w') => (Err x, w')
          end).
  rewrite (set_dataframe_value_run _ _ _ _ _ Hdf).
  destruct (fill_cell df e c) as [df'|y] eqn:Hfill; [|done].
  assert (dataframe < length (heap w))%nat as Hlt by (by eapply lookup_lt_Some).
  rewrite (set_dataframe_value_run _ _ df').
  2:{ simpl. by apply list_lookup_insert_eq. }
  assert (fill_cell df' e c = Ok df') as ->.
  { destruct (fill_cell_inv _ _ _ _ Hwf Hfill) as (d & v & Hd & Hv & Hocc & Hcase).
    destruct (isna v) eqn:Hnan.
    - destruct Hcase as (f & Hf & ->).
      unfold fill_cell, loc_get. rewrite Hd. simpl.
      rewrite lookup_insert_eq, Hocc. simpl.
      destruct (isna f); [|done].
      rewrite Hf. simpl. unfold loc_set. simpl.
      rewrite decide_True by (apply Hwf; eauto). simpl.
      by rewrite insert_insert_eq.
    - subst df'. unfold fill_cell, loc_get. rewrite Hd. simpl.
      rewrite Hv, Hocc. simpl. by rewrite Hnan. }
  unfold with_heap. simpl. by rewrite list_insert_insert_eq.
Qed.

(** *** The shape of the table *)

Lemma fill_cell_duplicate df e c :
  (2 <= count_occ string_dec (columns df) c)%nat → ∃ x, fill_cell df e c = Err x.
Proof.
  intros Hocc. unfold fill_cell, loc_get.
  destruct (parse_date (Date e)) as [d|y]; simpl; [|by eexists].
  destruct (cells df !! (d, c)) as [v|]; simpl; [|by eexists].
  destruct (count_occ string_dec (columns df) c) as [|[|n]]; [lia|lia|].
  simpl. by eexists.
Qed.

Lemma fill_cells_duplicate ps e c : ∀ df,
  wf_frame df → (e, c) ∈ ps →
  (2 <= count_occ string_dec (columns df) c)%nat →
  ∃ x df', fill_cells df ps = (Some x, df').
Proof.
  induction ps as [|[e0 c0] ps IH]; intros df Hwf Hin Hocc.
  - by apply elem_of_nil in Hin.
  - simpl. destruct (fill_cell df e0 c0) as [df1|y] eqn:Hfill; [|by eexists _, _].
    apply elem_of_cons in Hin as [[= <- <-]|Hin].
    + destruct (fill_cell_duplicate df e c Hocc) as [x Hx]. congruence.
    + destruct (fill_cell_spec _ _ _ _ Hwf Hfill) as (Hwf1 & _ & Hc & _).
      apply IH; [done|done|by rewrite Hc].
Qed.

(** A table is returned only for column names that are all different. *)
Lemma wrangle_frame_NoDup rs cs df : wrangle_frame rs cs = Ok df → NoDup cs.
Proof.
  intros Hw. apply NoDup_ListNoDup, (NoDup_count_occ string_dec). intros c.
  destruct (le_gt_dec (count_occ string_dec cs c) 1) as [|Hgt]; [done|]. exfalso.
  assert (c ∈ cs) as Hc.
  { apply list_elem_of_In, (count_occ_In string_dec). lia. }
  unfold wrangle_frame in Hw.
  destruct (span rs) as [[lo hi]|] eqn:Hspan; [|discriminate].
  pose proof (span_records _ _ _ Hspan) as Hne.
  destruct rs as [|e rs]; [done|].
  destruct (fill_cells_duplicate (pairs (e :: rs) cs) e c
              (DataFrame_new (date_range lo hi) cs) (DataFrame_new_wf _ _))
    as (x & df' & Hx).
  - apply elem_of_pairs. split; [left|done].
  - simpl. lia.
  - by rewrite Hx in Hw.
Qed.

(** X7.  The table [wrangle_data] returns has the requested columns, in
    the requested order, and a cell for every pair of a row and a column
    and for nothing else.  When a column is requested it has the row of
    every record, so at least one row; with no column requested it may
    have no row at all.  A table is returned only when the requested
    column names are all different: with a name listed twice the call
    raises. *)
Theorem wrangle_data_shape w rawdata column_array rs cs df :
  heap w !! rawdata = Some (ORecords rs) →
  heap w !! column_array = Some (OStrs cs) →
  table_of (wrangle_data rawdata column_array w) = Ok df →
  columns df = cs ∧ NoDup cs ∧ rs ≠ [] ∧
  (cs ≠ [] →
   index df ≠ [] ∧
   ∀ e, e ∈ rs → ∃ d, parse_date (Date e) = Ok d ∧ d ∈ index df) ∧
  ∀ d c, is_Some (cells df !! (d, c)) ↔ d ∈ index df ∧ c ∈ cs.
Proof.
  intros Hr Hc. rewrite (table_of_wrangle_data _ _ _ _ _ Hr Hc). intros Hw.
  destruct (wrangle_frame_spec _ _ _ Hw) as (lo & hi & Hspan & Hi & Hcols & Hwf & _).
  split; [done|]. split; [by eapply wrangle_frame_NoDup|].
  split; [by eapply span_records|]. split.
  - intros Hcs. split; [by eapply wrangle_frame_rows|].
    intros e He. destruct cs as [|c cs']; [done|].
    eapply (wrangle_frame_covers _ _ _ e c Hw); [done|left].
  - intros d c. rewrite <- Hcols. apply Hwf.
Qed.

(** *** Fields that are not requested *)

Lemma fill_cell_same df e e' c :
  Date e = Date e' → fields e !! c = fields e' !! c →
  fill_cell df e c = fill_cell df e' c.
Proof.
  intros Hd Hf. unfold fill_cell, cell_value, getitem. by rewrite Hd, Hf.
Qed.

Lemma fill_cells_row_same e e' cs : ∀ df,
  Date e = Date e' → (∀ c, c ∈ cs → fields e !! c = fields e' !! c) →
  fill_cells df (map (pair e) cs) = fill_cells df (map (pair e') cs).
Proof.
  induction cs as [|c cs IH]; intros df Hd Hf; [done|]. simpl.
  rewrite (fill_cell_same df e e' c Hd) by (apply Hf; left).
  destruct (fill_cell df e' c); [|done].
  apply IH; [done|]. intros c' Hc'. apply Hf. by right.
Qed.

Lemma fill_cells_same rs rs' cs :
  Forall2 (λ e e', Date e = Date e' ∧
                   ∀ c, c ∈ cs → fields e !! c = fields e' !! c) rs rs' →
  ∀ df, fill_cells df (pairs rs cs) = fill_cells df (pairs rs' cs).
Proof.
  induction 1 as [|e e' rs rs' [Hd Hf] _ IH]; intros df; [done|].
  change (pairs (e :: rs) cs) with (map (pair e) cs ++ pairs rs cs).
  change (pairs (e' :: rs') cs) with (map (pair e') cs ++ pairs rs' cs).
  rewrite !fill_cells_app, (fill_cells_row_same e e' cs df Hd Hf).
  destruct (fill_cells df (map (pair e') cs)) as [[x|] df1]; [done|apply IH].
Qed.

Lemma wrangle_frame_same rs rs' cs :
  Forall2 (λ e e', Date e = Date e' ∧
                   ∀ c, c ∈ cs → fields e !! c = fields e' !! c) rs rs' →
  wrangle_frame rs' cs = wrangle_frame rs cs.
Proof.
  intros Hsame. unfold wrangle_frame, span.
  assert (Date <$> rs = Date <$> rs') as ->.
  { induction Hsame as [|e e' rs rs' [Hd _] _ IH]; [done|].
    by rewrite !fmap_cons, Hd, IH. }
  destruct (_ ≫= _) as [[lo hi]|]; [|done].
  by rewrite (fill_cells_same rs rs' cs Hsame).
Qed.

(** X8.  [wrangle_data] reads of each record its date and the requested
    columns, and nothing else: two lists whose records agree, one by one,
    on the date and on the requested columns give the same table, or
    raise the same exception. *)
Theorem wrangle_data_other_fields w rawdata rawdata' column_array rs rs' cs :
  heap w !! rawdata = Some (ORecords rs) →
  heap w !! rawdata' = Some (ORecords rs') →
  heap w !! column_array = Some (OStrs cs) →
  Forall2 (λ e e', Date e = Date e' ∧
                   ∀ c, c ∈ cs → fields e !! c = fields e' !! c) rs rs' →
  table_of (wrangle_data rawdata' column_array w) =
  table_of (wrangle_data rawdata column_array w).
Proof.
  intros Hr Hr' Hc Hsame.
  rewrite (table_of_wrangle_data _ _ _ _ _ Hr Hc),
    (table_of_wrangle_data _ _ _ _ _ Hr' Hc).
  by apply wrangle_frame_same.
Qed.

(** *** The order of the records *)

Lemma pairs_nil rs : pairs rs [] = [].
Proof. induction rs as [|e rs IH]; [done|]. exact IH. Qed.

Lemma span_perm rs rs' : rs ≡ₚ rs' → span rs' = span rs.
Proof.
  intros Hperm. apply span_ends.
  - intros x Hx. by rewrite <- Hperm.
  - intros y Hy. exists y, y. rewrite Hperm.
    split; [done|]. split; [done|]. split; apply leb_refl.
Qed.

Lemma one_per_day_perm rs rs' : rs ≡ₚ rs' → one_per_day rs → one_per_day rs'.
Proof.
  intros Hperm [Hnd Hday]. split; [by rewrite <- Hperm|].
  intros e e' d He He'. rewrite <- Hperm in He, He'. by apply Hday.
Qed.

Lemma one_per_day_cons e rs : one_per_day (e :: rs) → one_per_day rs.
Proof.
  intros [[_ Hnd]%NoDup_cons Hday]. split; [done|].
  intros e1 e2 d H1 H2. apply Hday; by right.
Qed.

(** When no two records are for the same day, at most one record
    provides a number for a cell. *)
Lemma first_value_unique rs d c e f :
  one_per_day rs → e ∈ rs → provides e d c = Some f →
  first_value rs d c = Some f.
Proof.
  induction rs as [|e0 rs IH]; intros Hnd Hin Hp.
  - by apply elem_of_nil in Hin.
  - simpl. apply elem_of_cons in Hin as [->|Hin]; [by rewrite Hp|].
    destruct (provides e0 d c) as [g|] eqn:Hg;
      [|by apply IH; [eapply one_per_day_cons|..]].
    exfalso. destruct Hnd as [[Hnotin _]%NoDup_cons Hday]. apply Hnotin.
    apply provides_inv in Hg as (Hd0 & _). apply provides_inv in Hp as (Hd & _).
    rewrite (Hday e0 e d); [done|left|by right|done|done].
Qed.

Lemma first_value_perm rs rs' d c :
  rs ≡ₚ rs' → one_per_day rs → first_value rs' d c = first_value rs d c.
Proof.
  intros Hperm Hnd.
  assert (one_per_day rs') as Hnd' by (by eapply one_per_day_perm).
  destruct (first_value rs d c) as [f|] eqn:Hf.
  - destruct (first_value_elem _ _ _ _ Hf) as (e & He & Hp).
    eapply first_value_unique; [done| |exact Hp]. by rewrite <- Hperm.
  - destruct (first_value rs' d c) as [g|] eqn:Hg; [|done].
    destruct (first_value_elem _ _ _ _ Hg) as (e & He & Hp).
    rewrite <- Hperm in He.
    rewrite (first_value_unique _ _ _ _ _ Hnd He Hp) in Hf. discriminate.
Qed.

(** When no two records are for the same day, a table is returned only
    if every record has a value for every requested column. *)
Lemma wrangle_frame_values rs cs df e c :
  wrangle_frame rs cs = Ok df → one_per_day rs →
  e ∈ rs → c ∈ cs → is_Ok (cell_value e c).
Proof.
  intros Hw Hnd He Hc.
  apply list_elem_of_split in He as (l1 & l2 & ->).
  apply list_elem_of_split_l in Hc as (c1 & c2 & -> & Hnotin).
  unfold wrangle_frame in Hw.
  destruct (span _) as [[lo hi]|]; [|discriminate].
  destruct (fill_cells _ _) as [[x|] dfn] eqn:Hfill; [discriminate|]. clear Hw.
  rewrite pairs_app in Hfill.
  change (pairs (e :: l2) (c1 ++ c :: c2))
    with (map (pair e) (c1 ++ c :: c2) ++ pairs l2 (c1 ++ c :: c2)) in Hfill.
  rewrite map_app in Hfill. simpl in Hfill.
  rewrite <- !app_assoc in Hfill. rewrite app_assoc in Hfill.
  apply fill_cells_app_None in Hfill as (df1 & Hfill1 & Hfill2).
  simpl in Hfill2.
  destruct (fill_cell df1 e c) as [df2|] eqn:Hcell; [|discriminate].
  destruct (fill_cells_spec _ _ _ (DataFrame_new_wf _ _) Hfill1)
    as (Hwf1 & _ & _ & Hcells).
  destruct (fill_cell_inv _ _ _ _ Hwf1 Hcell) as (d & v & Hd & Hv & _ & Hcase).
  assert (isna v = true) as Hnan.
  { rewrite Hcells in Hv. simpl in Hv. rewrite nan_cells_lookup in Hv.
    case_decide; [|discriminate]. simpl in Hv. injection Hv as <-.
    rewrite first_write_app, first_write_pairs
      by (rewrite elem_of_app, elem_of_cons; tauto).
    rewrite first_value_other_days, first_write_row_notin; [done|done|].
    intros e' He' Hd'. destruct Hnd as [Hnd Hday].
    apply NoDup_app in Hnd as (_ & Hdisj & _).
    apply (Hdisj e' He').
    rewrite (Hday e' e d); [left| | |done|done];
      rewrite elem_of_app, elem_of_cons; tauto. }
  rewrite Hnan in Hcase. destruct Hcase as (f & -> & _). done.
Qed.

Lemma wrangle_frame_parsed rs cs df e :
  wrangle_frame rs cs = Ok df → cs ≠ [] → e ∈ rs → is_Ok (parse_date (Date e)).
Proof.
  intros Hw Hne He.
  destruct (parse_date (Date e)) as [d|x] eqn:Hd; [done|]. exfalso.
  destruct (wrangle_frame_bad_date rs cs Hne) as [y Hy]; [|congruence].
  apply Exists_exists. exists e. split; [done|]. rewrite Hd. simpl. tauto.
Qed.

Lemma DataFrame_eq df df' :
  index df = index df' → columns df = columns df' →
  wf_frame df → wf_frame df' →
  (∀ d c, d ∈ index df → c ∈ columns df →
          cells df !! (d, c) = cells df' !! (d, c)) →
  df = df'.
Proof.
  destruct df as [i cs m], df' as [i' cs' m']. simpl.
  intros <- <- Hwf Hwf' Hcells. f_equal.
  apply map_eq. intros [d c].
  destruct (decide (d ∈ i ∧ c ∈ cs)) as [[Hd Hc]|Hno]; [by apply Hcells|].
  assert (m !! (d, c) = None) as ->.
  { apply eq_None_not_Some. intros Hs. by apply (Hwf d c) in Hs. }
  symmetry. apply eq_None_not_Some. intros Hs. by apply (Hwf' d c) in Hs.
Qed.

Lemma wrangle_frame_perm rs rs' cs df :
  rs ≡ₚ rs' → one_per_day rs →
  wrangle_frame rs cs = Ok df → wrangle_frame rs' cs = Ok df.
Proof.
  intros Hperm Hnd Hw.
  destruct (wrangle_frame_spec _ _ _ Hw) as (lo & hi & Hspan & Hi & Hc & Hwf & Hcells).
  assert (is_Ok (wrangle_frame rs' cs)) as Hok.
  { destruct cs as [|c0 cs0].
    - unfold wrangle_frame. rewrite (span_perm _ _ Hperm), Hspan, pairs_nil. done.
    - apply (wrangle_frame_total_covered rs' (c0 :: cs0) lo hi).
      + by rewrite (span_perm _ _ Hperm).
      + intros e d He Hd. rewrite <- Hperm in He.
        destruct (wrangle_frame_covers _ _ _ e c0 Hw He) as (d' & Hd' & Hin);
          [left|].
        rewrite Hi in Hin. apply elem_of_date_range in Hin. congruence.
      + apply Forall_forall. intros e He. rewrite <- Hperm in He.
        by eapply wrangle_frame_parsed.
      + by eapply wrangle_frame_NoDup.
      + intros e c He Hcin. rewrite <- Hperm in He.
        by eapply wrangle_frame_values. }
  destruct (wrangle_frame rs' cs) as [df'|] eqn:Hw'; [|done].
  f_equal.
  destruct (wrangle_frame_spec _ _ _ Hw')
    as (lo' & hi' & Hspan' & Hi' & Hc' & Hwf' & Hcells').
  rewrite (span_perm _ _ Hperm), Hspan in Hspan'. injection Hspan' as <- <-.
  apply DataFrame_eq; [congruence|congruence|done|done|].
  intros d c Hd Hcin. rewrite Hc' in Hcin.
  rewrite Hcells' by done. rewrite Hcells; [|by rewrite Hi, <- Hi'|done].
  by rewrite (first_value_perm _ _ _ _ Hperm Hnd).
Qed.

(** X9.  When no two records are for the same day, the table does not
    depend on the order of the records: any list with the same records
    in another order gives the same table. *)
Theorem wrangle_data_record_order w rawdata rawdata' column_array rs rs' cs df :
  heap w !! rawdata = Some (ORecords rs) →
  heap w !! rawdata' = Some (ORecords rs') →
  heap w !! column_array = Some (OStrs cs) →
  rs ≡ₚ rs' → one_per_day rs →
  table_of (wrangle_data rawdata column_array w) = Ok df →
  table_of (wrangle_data rawdata' column_array w) = Ok df.
Proof.
  intros Hr Hr' Hc Hperm Hnd.
  rewrite (table_of_wrangle_data _ _ _ _ _ Hr Hc),
    (table_of_wrangle_data _ _ _ _ _ Hr' Hc).
  by apply wrangle_frame_perm.
Qed.

(** *** The other requested columns *)

(** X10.  A column of the table does not depend on the other columns
    that are requested: two calls on the same records, as the notebook
    makes for its two tables, return tables with the same rows, and with
    the same cells in every column that both calls request. *)
Theorem wrangle_data_columns_independent w rawdata ca ca' rs cs cs' df df' :
  heap w !! rawdata = Some (ORecords rs) →
  heap w !! ca = Some (OStrs cs) →
  heap w !! ca' = Some (OStrs cs') →
  table_of (wrangle_data rawdata ca w) = Ok df →
  table_of (wrangle_data rawdata ca' w) = Ok df' →
  index df' = index df ∧
  ∀ d c, c ∈ cs → c ∈ cs' → cells df' !! (d, c) = cells df !! (d, c).
Proof.
  intros Hr Hc Hc'.
  rewrite (table_of_wrangle_data _ _ _ _ _ Hr Hc),
    (table_of_wrangle_data _ _ _ _ _ Hr Hc').
  intros Hw Hw'.
  destruct (wrangle_frame_spec _ _ _ Hw) as (lo & hi & Hspan & Hi & Hcols & Hwf & Hcells).
  destruct (wrangle_frame_spec _ _ _ Hw')
    as (lo' & hi' & Hspan' & Hi' & Hcols' & Hwf' & Hcells').
  rewrite Hspan in Hspan'. injection Hspan' as <- <-.
  split; [congruence|]. intros d c Hcin Hcin'.
  destruct (decide (d ∈ date_range lo hi)) as [Hd|Hd].
  - rewrite Hcells'; [|by rewrite Hi'|done]. rewrite Hcells; [done|by rewrite Hi|done].
  - assert (cells df !! (d, c) = None) as ->.
    { apply eq_None_not_Some. intros Hs. apply (Hwf d c) in Hs. rewrite Hi in Hs. tauto. }
    apply eq_None_not_Some. intros Hs. apply (Hwf' d c) in Hs. rewrite Hi' in Hs. tauto.
Qed.

(** *** What the code leaves alone *)

Section Keeps.

Lemma widgets_kept_refl w : widgets_kept w w.
Proof. by repeat split. Qed.

Lemma widgets_kept_trans w1 w2 w3 :
  widgets_kept w1 w2 → widgets_kept w2 w3 → widgets_kept w1 w3.
Proof. intros (?&?&?) (?&?&?). repeat split; congruence. Qed.

Lemma keeps_ret {A} (a : A) : keeps (mret a).
Proof. intros w. apply widgets_kept_refl. Qed.

Lemma keeps_bind {A B} (m : Py A) (k : A → Py B) :
  keeps m → (∀ a, keeps (k a)) → keeps (m ≫= k).
Proof.
  intros Hm Hk w. unfold mbind, Py_bind. specialize (Hm w).
  destruct (m w) as [[a|e] w1]; simpl in *; [|done].
  eapply widgets_kept_trans; [exact Hm|apply Hk].
Qed.

Lemma keeps_raise {A} e : keeps (raise (A:=A) e).
Proof. intros w. apply widgets_kept_refl. Qed.

Lemma keeps_lift {A} (r : result A) : keeps (lift r).
Proof. intros w. apply widgets_kept_refl. Qed.

Lemma keeps_alloc o : keeps (alloc o).
Proof. intros w. by repeat split. Qed.

Lemma keeps_load l : keeps (load l).
Proof. intros w. unfold load. destruct (heap w !! l); apply widgets_kept_refl. Qed.

Lemma keeps_store l o : keeps (store l o).
Proof. intros w. by repeat split. Qed.

Lemma keeps_get_records l : keeps (get_records l).
Proof.
  apply keeps_bind; [apply keeps_load|].
  intros [| |]; first [apply keeps_ret|apply keeps_raise].
Qed.

Lemma keeps_get_strs l : keeps (get_strs l).
Proof.
  apply keeps_bind; [apply keeps_load|].
  intros [| |]; first [apply keeps_ret|apply keeps_raise].
Qed.

Lemma keeps_get_frame l : keeps (get_frame l).
Proof.
  apply keeps_bind; [apply keeps_load|].
  intros [| |]; first [apply keeps_ret|apply keeps_raise].
Qed.

Lemma keeps_list_sort l : keeps (list_sort l).
Proof. apply keeps_bind; [apply keeps_get_strs|]. intros ss. apply keeps_store. Qed.

Lemma keeps_for_each {A} (l : list A) body :
  (∀ x, keeps (body x)) → keeps (for_each l body).
Proof.
  intros Hbody. induction l as [|x l IH]; [apply keeps_ret|].
  apply keeps_bind; [apply Hbody|]. intros _. exact IH.
Qed.

Lemma keeps_try_except body handler :
  keeps body → keeps handler → keeps (try_except body handler).
Proof.
  intros Hb Hh w. unfold try_except. specialize (Hb w).
  destruct (body w) as [[[]|e] w1]; simpl in *; [done|].
  eapply widgets_kept_trans; [exact Hb|apply Hh].
Qed.

Ltac keeps_step :=
  first [ apply keeps_ret | apply keeps_raise | apply keeps_lift | apply keeps_alloc
        | apply keeps_store | apply keeps_get_records | apply keeps_get_strs
        | apply keeps_get_frame | apply keeps_list_sort
        | apply keeps_bind; [|intros ?]
        | match goal with
          | |- keeps (if ?b then _ else _) => destruct b
          end ].

Lemma keeps_initialize_dataframe rawdata column_array :
  keeps (initialize_dataframe rawdata column_array).
Proof. unfold initialize_dataframe. repeat keeps_step. Qed.

Lemma keeps_set_dataframe_value dataframe e c :
  keeps (set_dataframe_value dataframe e c).
Proof. unfold set_dataframe_value. repeat keeps_step. Qed.

Lemma keeps_wrangle_data rawdata column_array :
  keeps (wrangle_data rawdata column_array).
Proof.
  unfold wrangle_data.
  apply keeps_bind; [apply keeps_initialize_dataframe|]. intros df.
  apply keeps_bind; [apply keeps_get_records|]. intros entries.
  apply keeps_bind.
  { apply keeps_for_each. intros e.
    apply keeps_bind; [apply keeps_get_strs|]. intros cols.
    apply keeps_for_each. intros c. apply keeps_set_dataframe_value. }
  intros _. repeat keeps_step.
Qed.

Lemma keeps_modify_apibutton f :
  (∀ b, button_style (f b) = button_style b ∧ tooltip (f b) = tooltip b) →
  keeps (modify_apibutton f).
Proof. intros Hf w. split; [done|]. apply Hf. Qed.

Lemma keeps_refresh_graph : keeps refresh_graph.
Proof.
  intros w. rewrite refresh_graph_run. unfold redrawn. split; [|done]. simpl.
  by destruct (hospital_ventilator_options w).
Qed.

Lemma keeps_api_button_callback response : keeps (api_button_callback response).
Proof.
  unfold api_button_callback.
  apply keeps_bind; [|intros _; apply keeps_refresh_graph].
  apply keeps_try_except.
  - apply keeps_bind; [destruct response; [apply keeps_alloc|apply keeps_raise]|].
    intros apidata.
    apply keeps_bind; [apply keeps_alloc|]. intros cols.
    apply keeps_bind; [apply keeps_wrangle_data|]. intros df.
    apply keeps_bind; [by intros w|]. intros _.
    apply keeps_bind; [apply keeps_alloc|]. intros cols'.
    apply keeps_bind; [apply keeps_wrangle_data|]. intros df'.
    apply keeps_bind; [by intros w|]. intros _.
    apply keeps_bind; [by apply keeps_modify_apibutton|]. intros _.
    apply keeps_bind; [by apply keeps_modify_apibutton|]. intros _.
    by apply keeps_modify_apibutton.
  - apply keeps_bind; [by apply keeps_modify_apibutton|]. intros _.
    apply keeps_bind; [by apply keeps_modify_apibutton|]. intros _.
    by apply keeps_modify_apibutton.
Qed.

Lemma keeps_click response : keeps (click response).
Proof. apply keeps_api_button_callback. Qed.

Lemma session_kept responses : ∀ w, widgets_kept w (session responses w).
Proof.
  induction responses as [|r rest IH]; intros w; [apply widgets_kept_refl|].
  simpl. eapply widgets_kept_trans; [apply keeps_click|apply IH].
Qed.

End Keeps.

(** X11.  A refresh never changes what is selected in the list of
    statistics, although [refresh_graph] sets the selection twice, nor
    the options of that list, nor the style and the tooltip of the
    button; the same holds for any number of clicks. *)
Theorem api_button_callback_keeps_widgets :
  (∀ response w,
     hospital_ventilator_options (api_button_callback response w).2
       = hospital_ventilator_options w ∧
     button_style (apibutton (api_button_callback response w).2)
       = button_style (apibutton w) ∧
     tooltip (apibutton (api_button_callback response w).2) = tooltip (apibutton w)) ∧
  (∀ responses w,
     hospital_ventilator_options (session responses w) = hospital_ventilator_options w ∧
     button_style (apibutton (session responses w)) = button_style (apibutton w) ∧
     tooltip (apibutton (session responses w)) = tooltip (apibutton w)).
Proof.
  split.
  - intros response w. apply keeps_api_button_callback.
  - intros responses w. apply session_kept.
Qed.

(** *** [refresh_graph] *)


(** *** The cells that run when the notebook is opened *)

(** X13.  The cells that build the two tables from the cached file have
    no handler: the exception of the first call of [wrangle_data] that
    raises is the exception of the cell, and a table built before it
    stays bound.  When both calls return, the two variables are bound to
    two new tables with the same rows.  The button is not touched and
    the objects of the store are kept. *)
Theorem notebook_cells_outcome cached w :
  ∃ r w',
    notebook_cells cached w = (r, w') ∧
    apibutton w' = apibutton w ∧
    (∀ l o, heap w !! l = Some o → heap w' !! l = Some o) ∧
    match wrangle_frame cached hospital_ventilator_columns with
    | Err x =>
        r = Err x ∧
        hospital_ventilator_df w' = hospital_ventilator_df w ∧
        vaccine_cases_df w' = vaccine_cases_df w
    | Ok df1 =>
        heap w' !! hospital_ventilator_df w' = Some (OFrame df1) ∧
        (length (heap w) <= hospital_ventilator_df w')%nat ∧
        match wrangle_frame cached vaccine_cases_columns with
        | Err x => r = Err x ∧ vaccine_cases_df w' = vaccine_cases_df w
        | Ok df2 =>
            r = Ok tt ∧
            heap w' !! vaccine_cases_df w' = Some (OFrame df2) ∧
            vaccine_cases_df w' ≠ hospital_ventilator_df w' ∧
            index df2 = index df1
        end
    end.
Proof.
  unfold notebook_cells. rewrite !alloc_run.
  erewrite wrangle_data_bind_run.
  2:{ cbn [heap with_heap]. apply lookup_app_l_Some, lookup_new. }
  2:{ cbn [heap with_heap]. apply lookup_new. }
  cbn [heap with_heap].
  set (H2 := (heap w ++ [ORecords cached]) ++ [OStrs hospital_ventilator_columns]).
  assert (H2 !! length (heap w) = Some (ORecords cached)) as Hdata
    by apply lookup_app_l_Some, lookup_new.
  assert (∀ l o, heap w !! l = Some o → H2 !! l = Some o) as Hkeep
    by (intros l o Hl; by do 2 apply lookup_app_l_Some).
  assert (length (heap w) <= length H2)%nat as Hlen
    by (unfold H2; rewrite !length_app; lia).
  clearbody H2.
  destruct (wrangle_frame cached hospital_ventilator_columns) as [df1|x1] eqn:E1.
  - rewrite (wrangle_objs_ok _ _ _ E1).
    set (H3 := H2 ++ [OStrs (sorted (Date <$> cached)); OFrame df1]).
    assert (H3 !! S (length H2) = Some (OFrame df1)) as Hdf1.
    { unfold H3. rewrite lookup_app_r by lia.
      by replace (S (length H2) - length H2)%nat with 1%nat by lia. }
    assert (H3 !! length (heap w) = Some (ORecords cached)) as Hdata3
      by (by apply lookup_app_l_Some).
    assert (∀ l o, heap w !! l = Some o → H3 !! l = Some o) as Hkeep3
      by (intros l o Hl; by apply lookup_app_l_Some, Hkeep).
    assert (S (length H2) < length H3)%nat as Hlen3
      by (unfold H3; rewrite length_app; simpl; lia).
    clearbody H3.
    rewrite set_hospital_run, alloc_run.
    erewrite wrangle_data_bind_run.
    2:{ cbn [heap with_heap with_hospital_ventilator_df].
        apply lookup_app_l_Some, Hdata3. }
    2:{ cbn [heap with_heap with_hospital_ventilator_df]. apply lookup_new. }
    cbn [heap with_heap with_hospital_ventilator_df].
    destruct (wrangle_frame cached vaccine_cases_columns) as [df2|x2] eqn:E2.
    + rewrite (wrangle_objs_ok _ _ _ E2). unfold set_vaccine_cases_df.
      eexists _, _. split; [reflexivity|].
      cbn [with_vaccine_cases_df with_heap with_hospital_ventilator_df
           heap apibutton hospital_ventilator_df vaccine_cases_df].
      split; [reflexivity|]. split.
      { intros l o Hl. do 2 apply lookup_app_l_Some. by apply Hkeep3. }
      split; [by do 2 apply lookup_app_l_Some|]. split; [lia|].
      split; [reflexivity|]. split.
      { rewrite lookup_app_r by lia.
        match goal with |- _ !! ?i = _ => replace i with 1%nat by lia end. done. }
      split; [rewrite length_app; simpl; lia|].
      destruct (wrangle_frame_spec _ _ _ E1) as (lo & hi & Hspan & Hi & _).
      destruct (wrangle_frame_spec _ _ _ E2) as (lo' & hi' & Hspan' & Hi' & _).
      congruence.
    + eexists _, _. split; [reflexivity|].
      cbn [with_vaccine_cases_df with_heap with_hospital_ventilator_df
           heap apibutton hospital_ventilator_df vaccine_cases_df].
      split; [reflexivity|]. split.
      { intros l o Hl. do 2 apply lookup_app_l_Some. by apply Hkeep3. }
      split; [by do 2 apply lookup_app_l_Some|]. split; [lia|]. by split.
  - eexists _, _. split; [reflexivity|].
    cbn [with_heap heap apibutton hospital_ventilator_df vaccine_cases_df].
    split; [reflexivity|]. split.
    { intros l o Hl. by apply lookup_app_l_Some, Hkeep. }
    by repeat split.
Qed.

(** *** The dates of the slider and the plotted rows *)

Section Plots.

Lemma date_range_empty lo hi : hi < lo → date_range lo hi = [].
Proof.
  intros Hlt. unfold date_range.
  by replace (Z.to_nat (hi - lo + 1)) with 0%nat by lia.
Qed.

Lemma date_range_cons lo hi :
  lo <= hi → date_range lo hi = lo :: date_range (lo + 1) hi.
Proof.
  intros Hle. unfold date_range.
  replace (Z.to_nat (hi - lo + 1)) with (S (Z.to_nat (hi - (lo + 1) + 1))) by lia.
  simpl. f_equal; [lia|].
  rewrite <- fmap_S_seq, <- list_fmap_compose.
  apply list_fmap_ext. intros i x _. simpl. lia.
Qed.

Lemma date_range_filter a b : ∀ n lo hi,
  Z.to_nat (hi - lo + 1) = n →
  filter (λ d, a <= d <= b) (date_range lo hi) = date_range (Z.max lo a) (Z.min hi b).
Proof.
  induction n as [|n IH]; intros lo hi Hn.
  - rewrite !date_range_empty by lia. done.
  - rewrite (date_range_cons lo hi) by lia.
    destruct (decide (a <= lo <= b)) as [Hin|Hout].
    + rewrite filter_cons_True by done.
      rewrite (IH (lo + 1) hi) by lia.
      rewrite (date_range_cons (Z.max lo a)) by lia.
      f_equal; [lia|]. f_equal; lia.
    + rewrite filter_cons_False by done.
      rewrite (IH (lo + 1) hi) by lia.
      destruct (decide (lo < a)).
      * f_equal; lia.
      * rewrite !date_range_empty by lia. done.
Qed.

Lemma date_range_ends lo hi :
  lo <= hi →
  list_item (date_range lo hi) 0 = Ok lo ∧ list_item (date_range lo hi) (-1) = Ok hi.
Proof.
  intros Hle. rewrite list_item_first, list_item_last. split.
  - by rewrite date_range_cons.
  - rewrite last_lookup.
    pose proof (date_range_length lo hi) as Hlen.
    assert (date_range lo hi !! Nat.pred (length (date_range lo hi)) = Some hi) as ->;
      [|done].
    apply date_range_lookup. lia.
Qed.

Lemma list_item_length {A} (l : list A) :
  l ≠ [] → list_item l (Z.of_nat (length l) - 1) = list_item l (-1).
Proof.
  intros Hne. unfold list_item. change (-1 <? 0) with true. cbv iota.
  assert (0 < Z.of_nat (length l)) as Hpos by (destruct l; [done|simpl; lia]).
  replace (-1 + Z.of_nat (length l)) with (Z.of_nat (length l) - 1) by lia.
  assert ((Z.of_nat (length l) - 1 <? 0) = false) as E by (apply Z.ltb_ge; lia).
  rewrite E. cbv iota. by rewrite E.
Qed.

Lemma timeframe_dates_range df lo hi :
  index df = date_range lo hi → lo <= hi →
  timeframe_dates df = Ok (index df) ∧
  list_item (index df) 0 = Ok lo ∧ list_item (index df) (-1) = Ok hi.
Proof.
  intros Hi Hle. unfold timeframe_dates. rewrite Hi.
  destruct (date_range_ends lo hi Hle) as [-> ->]. done.
Qed.

Lemma plot_ventilator_hospital_run w df (option : list string) timeframe :
  heap w !! hospital_ventilator_df w = Some (OFrame df) →
  plot_ventilator_hospital option timeframe w =
    (select_columns (loc_rows df timeframe.1 timeframe.2) option, w).
Proof.
  intros Hdf. unfold plot_ventilator_hospital.
  unfold mbind at 1, Py_bind. cbv beta iota.
  rewrite (get_frame_run _ _ _ _ Hdf). reflexivity.
Qed.

Lemma selection_cells df a b (selected : list string) d c :
  filter (λ kv, kv.1.2 ∈ selected)
    (filter (λ kv, a <= kv.1.1 <= b) (cells df)) !! (d, c) =
    if decide (a <= d <= b ∧ c ∈ selected) then cells df !! (d, c) else None.
Proof.
  apply option_eq. intros v. rewrite !map_lookup_filter_Some. simpl.
  case_decide as Hin; [tauto|]. split; [tauto|discriminate].
Qed.

Lemma selection_whole df lo hi :
  wf_frame df → index df = date_range lo hi →
  select_columns (loc_rows df lo hi) (columns df) = Ok df.
Proof.
  intros Hwf Hi. unfold select_columns.
  rewrite decide_True by (by apply Forall_forall).
  f_equal. apply DataFrame_eq; simpl.
  - rewrite Hi, (date_range_filter lo hi _ lo hi eq_refl). f_equal; lia.
  - done.
  - intros d c. simpl. rewrite selection_cells, list_elem_of_filter.
    case_decide as Hin.
    + rewrite (Hwf d c). tauto.
    + split; [by intros [v ?]|]. intros [[HP Hd] Hc]. by destruct Hin.
  - done.
  - intros d c [Hd _]%list_elem_of_filter Hc.
    rewrite selection_cells. by rewrite decide_True.
Qed.

End Plots.

(** X14.  The dates the range slider offers are the rows of the table,
    in order: [pd.date_range] between the first and the last label of
    the index of a table built by [wrangle_data] for at least one
    column, as the table of the hospital statistics is, gives that index
    again, and it is not empty, so that the positions [0] and
    [len(options)-1] the slider starts with exist. *)
Theorem timeframe_dates_index w rawdata column_array rs cs df :
  heap w !! rawdata = Some (ORecords rs) →
  heap w !! column_array = Some (OStrs cs) →
  cs ≠ [] →
  table_of (wrangle_data rawdata column_array w) = Ok df →
  ∃ ds first last,
    timeframe_dates df = Ok ds ∧ ds = index df ∧
    list_item ds 0 = Ok first ∧
    list_item ds (Z.of_nat (length ds) - 1) = Ok last ∧
    first <= last ∧
    (∃ e, e ∈ rs ∧ parse_date (Date e) = Ok first) ∧
    (∃ e, e ∈ rs ∧ parse_date (Date e) = Ok last).
Proof.
  intros Hr Hc Hcs. rewrite (table_of_wrangle_data _ _ _ _ _ Hr Hc). intros Hw.
  destruct (wrangle_frame_spec _ _ _ Hw) as (lo & hi & Hspan & Hi & _).
  destruct (wrangle_frame_rows _ _ _ _ _ Hw Hcs Hspan) as [Hle _].
  destruct (timeframe_dates_range df lo hi Hi Hle) as (Ht & Hfirst & Hlast).
  destruct (span_attained _ _ _ Hspan) as [Hlo Hhi].
  exists (index df), lo, hi. split; [done|]. split; [done|]. split; [done|].
  split; [|done].
  rewrite list_item_length; [done|].
  intros Hnil. by rewrite Hnil in Hfirst.
Qed.

(** X15.  With the values the widgets start with, all the columns and
    the slider from its first to its last date, the frame that is
    plotted is the whole table, for a table built for at least one
    column, as the table of the hospital statistics is; plotting does
    not change the store. *)
Theorem plot_ventilator_hospital_default w rs cs df :
  heap w !! hospital_ventilator_df w = Some (OFrame df) →
  cs ≠ [] →
  wrangle_frame rs cs = Ok df →
  ∃ ds first last,
    timeframe_dates df = Ok ds ∧
    list_item ds 0 = Ok first ∧
    list_item ds (-1) = Ok last ∧
    plot_ventilator_hospital cs (first, last) w = (Ok df, w).
Proof.
  intros Hdf Hcs Hw.
  destruct (wrangle_frame_spec _ _ _ Hw) as (lo & hi & Hspan & Hi & Hcols & Hwf & _).
  destruct (wrangle_frame_rows _ _ _ _ _ Hw Hcs Hspan) as [Hle _].
  destruct (timeframe_dates_range df lo hi Hi Hle) as (Ht & Hfirst & Hlast).
  exists (index df), lo, hi. split; [done|]. split; [done|]. split; [done|].
  rewrite (plot_ventilator_hospital_run _ _ _ _ Hdf). simpl.
  by rewrite <- Hcols, (selection_whole df lo hi Hwf Hi).
Qed.

(** X16.  For any selection of columns of the table and any two dates,
    the frame that is plotted has the selected columns, in the selected
    order, and the days of the table between the two dates, both
    included, in order and without gaps, with the cells of the table.  A
    selected name that is not a column of the table raises KeyError.
    The store is left as it is. *)
Theorem plot_ventilator_hospital_selection w rs cs df (option : list string) a b :
  heap w !! hospital_ventilator_df w = Some (OFrame df) →
  wrangle_frame rs cs = Ok df →
  (Forall (λ c, c ∈ cs) option →
   ∃ lo hi shown,
     span rs = Ok (lo, hi) ∧
     plot_ventilator_hospital option (a, b) w = (Ok shown, w) ∧
     index shown = date_range (Z.max lo a) (Z.min hi b) ∧
     columns shown = option ∧
     ∀ d c, cells shown !! (d, c) =
       if decide (a <= d <= b ∧ c ∈ option) then cells df !! (d, c) else None) ∧
  (¬ Forall (λ c, c ∈ cs) option →
   plot_ventilator_hospital option (a, b) w = (Err KeyError, w)).
Proof.
  intros Hdf Hw.
  destruct (wrangle_frame_spec _ _ _ Hw) as (lo & hi & Hspan & Hi & Hcols & Hwf & _).
  rewrite (plot_ventilator_hospital_run _ _ _ _ Hdf). simpl.
  unfold select_columns. simpl. rewrite Hcols. split.
  - intros Hall. rewrite decide_True by done.
    eexists lo, hi, _. split; [done|]. split; [reflexivity|]. simpl.
    split; [by rewrite Hi, (date_range_filter a b _ lo hi eq_refl)|].
    split; [done|]. intros d c. apply selection_cells.
  - intros Hno. by rewrite decide_False.
Qed.

(** X17.  After a refresh whose answer gives the first table, the graph
    of the hospital statistics is drawn from the new table: with all the
    columns selected and the whole range of dates the plotted frame is
    that table, also when the second table could not be built and the
    button reports a failure. *)
Theorem refresh_then_plot data w df1 :
  wrangle_frame data hospital_ventilator_columns = Ok df1 →
  ∃ first last,
    list_item (index df1) 0 = Ok first ∧
    list_item (index df1) (-1) = Ok last ∧
    plot_ventilator_hospital hospital_ventilator_columns (first, last)
      (api_button_callback (Ok data) w).2
    = (Ok df1, (api_button_callback (Ok data) w).2).
Proof.
  intros Hw.
  destruct (refresh_cycle_run (Ok data) w) as (w' & Hrun & _ & _ & Hcases).
  rewrite Hw in Hcases. destruct Hcases as (Hdf & _).
  rewrite Hrun. cbn [snd].
  destruct (wrangle_frame_spec _ _ _ Hw) as (lo & hi & Hspan & Hi & Hcols & Hwf & _).
  destruct (wrangle_frame_rows _ _ _ _ _ Hw ltac:(done) Hspan) as [Hle _].
  destruct (timeframe_dates_range df1 lo hi Hi Hle) as (_ & Hfirst & Hlast).
  exists lo, hi. split; [done|]. split; [done|].
  rewrite (plot_ventilator_hospital_run _ _ _ _ Hdf). cbn [fst snd].
  by rewrite <- Hcols, (selection_whole df1 lo hi Hwf Hi).
Qed.

(** X18.  The slider keeps the dates of the table built when the
    notebook was opened.  After a refresh the plotted rows are the days
    of the new table between the two dates of the slider, so a day of the
    new table outside the range of the first table is never plotted. *)
Theorem refresh_keeps_timeframe cached data w df0 df1 ds a b (option : list string) :
  wrangle_frame cached hospital_ventilator_columns = Ok df0 →
  timeframe_dates df0 = Ok ds → a ∈ ds → b ∈ ds →
  wrangle_frame data hospital_ventilator_columns = Ok df1 →
  Forall (λ c, c ∈ hospital_ventilator_columns) option →
  ∃ shown,
    plot_ventilator_hospital option (a, b) (api_button_callback (Ok data) w).2
      = (Ok shown, (api_button_callback (Ok data) w).2) ∧
    (∀ d, d ∈ index shown ↔ a <= d <= b ∧ d ∈ index df1) ∧
    (∀ d, d ∈ index shown → d ∈ index df0).
Proof.
  intros H0 Hds Ha Hb H1 Hall.
  destruct (refresh_cycle_run (Ok data) w) as (w' & Hrun & _ & _ & Hcases).
  rewrite H1 in Hcases. destruct Hcases as (Hdf & _).
  rewrite Hrun. cbn [snd].
  rewrite (plot_ventilator_hospital_run _ _ _ _ Hdf). cbn [fst snd].
  destruct (wrangle_frame_spec _ _ _ H1) as (lo1 & hi1 & _ & _ & Hcols1 & _).
  unfold select_columns. cbn [columns loc_rows].
  rewrite Hcols1, decide_True by done.
  eexists. split; [reflexivity|]. cbn [index loc_rows]. split.
  - intros d. rewrite list_elem_of_filter. tauto.
  - intros d [Hab _]%list_elem_of_filter.
    destruct (wrangle_frame_spec _ _ _ H0) as (lo0 & hi0 & Hspan0 & Hi0 & _).
    destruct (wrangle_frame_rows _ _ _ _ _ H0 ltac:(done) Hspan0) as [Hle _].
    destruct (timeframe_dates_range df0 lo0 hi0 Hi0 Hle) as (Ht & _).
    rewrite Ht in Hds. injection Hds as <-.
    rewrite Hi0 in *. apply elem_of_date_range in Ha, Hb.
    apply elem_of_date_range. lia.
Qed.

(** *** What the exceptions tell *)

Section Causes.





End Causes.


(** X20.  The table holds no number of its own making: every cell is
    0.0 or the float of the value that a record of that day has in that
    column. *)
Theorem wrangle_data_provenance w rawdata column_array rs cs df d c v :
  heap w !! rawdata = Some (ORecords rs) →
  heap w !! column_array = Some (OStrs cs) →
  table_of (wrangle_data rawdata column_array w) = Ok df →
  cells df !! (d, c) = Some v →
  v = zero ∨
  ∃ e, e ∈ rs ∧ parse_date (Date e) = Ok d ∧ cell_value e c = Ok v.
Proof.
  intros Hr Hc. rewrite (table_of_wrangle_data _ _ _ _ _ Hr Hc). intros Hw Hv.
  destruct (wrangle_frame_spec _ _ _ Hw) as (lo & hi & _ & _ & Hcols & Hwf & Hcells).
  destruct (proj1 (Hwf d c)) as [Hd Hcin]; [by eexists|].
  rewrite Hcols in Hcin. rewrite (Hcells d c Hd Hcin) in Hv. injection Hv as <-.
  destruct (first_value rs d c) as [f|] eqn:Hf; [|by left]. right.
  destruct (first_value_elem _ _ _ _ Hf) as (e & He & Hp).
  apply provides_inv in Hp as (Hparse & Hval & _). by exists e.
Qed.

End Notebook.

(** ** Sample runs

    The runs below are computed with the parser [strptime_ymd], which
    reads zero-padded dates as the days they denote, and with
    [float_rejects] for [float] on strings. *)

Lemma strptime_ymd_reads_iso_dates : reads_iso_dates strptime_ymd.
Proof.
  intros s d H. unfold parse_date, strptime_ymd. unfold iso_date in H.
  destruct (split_ymd s) as [k|]; simpl in H; [by rewrite H|done].
Qed.




Lemma wrangle_data_empty_witness :
  (wrangle_data strptime_ymd float_rejects 0%nat 1%nat empty_world).1 = Err IndexError ∧
  table_of (wrangle_data strptime_ymd float_rejects 0%nat 1%nat empty_world) = Err IndexError.
Proof.
  apply (wrangle_data_empty strptime_ymd float_rejects empty_world 0%nat 1%nat).
  reflexivity.
Defined.

(** C8, as stated, fails: what the empty list raises is IndexError, the
    exception of a list subscript that is out of range, here of
    [dates[0]]; the call raises no other exception, and the code has
    none that is reserved for the empty input. *)
Lemma wrangle_data_empty_counterexample :
  ¬ (∃ x, (wrangle_data strptime_ymd float_rejects 0%nat 1%nat empty_world).1 = Err x ∧
          x ≠ IndexError).
Proof.
  intros (x & Hx & Hne). apply Hne.
  assert ((wrangle_data strptime_ymd float_rejects 0%nat 1%nat empty_world).1 = Err IndexError) as E
    by vm_done.
  congruence.
Qed.

Lemma wrangle_data_zero_fill_witness :
  ∃ df,
    table_of (wrangle_data strptime_ymd float_rejects 0%nat 1%nat scenario_world) = Ok df ∧
    index df = [737791; 737792; 737793] ∧ columns df = ["A"] ∧
    cells df !! (737791, "A") = Some (S754_finite false 5629499534213120 (-50)) ∧
    cells df !! (737792, "A") = Some (S754_zero false) ∧
    cells df !! (737793, "A") = Some (S754_finite false 7881299347898368 (-50)) ∧
    (∀ e v, e ∈ scenario_records → parse_date strptime_ymd (Date e) = Ok 737792 →
            getitem e "A" = Ok v → is_not_None v = false).
Proof.
  destruct (wrangle_data_zero_fill strptime_ymd float_rejects scenario_world 0%nat 1%nat
              scenario_records ["A"] eq_refl eq_refl) as [Hzero Hscenario].
  destruct (Hscenario eq_refl eq_refl strptime_ymd_reads_iso_dates)
    as (_ & _ & _ & df & Hdf & Hidx & Hcols & H5 & H0 & H7).
  exists df. split; [exact Hdf|]. split; [exact Hidx|]. split; [exact Hcols|].
  split; [exact H5|]. split; [exact H0|]. split; [exact H7|].
  intros e v He Hd. unfold scenario_records in He.
  rewrite !elem_of_cons, elem_of_nil in He.
  destruct He as [->|[->|[]]]; vm_compute in Hd; discriminate Hd.
Defined.



(** C2, as stated, fails: a record whose value is the float infinity is
    accepted and the cell of the returned table holds infinity, which is
    not a finite number. *)
Lemma wrangle_data_cells_finite_counterexample :
  ¬ (∀ df d c,
       table_of (wrangle_data strptime_ymd float_rejects 0%nat 1%nat infinite_world) = Ok df →
       d ∈ index df → c ∈ columns df →
       ∃ v, cells df !! (d, c) = Some v ∧ is_finite v = true).
Proof.
  intros H.
  destruct (wrangle_frame strptime_ymd float_rejects infinite_records ["A"]) as [df|] eqn:E;
    [|vm_compute in E; discriminate E].
  assert (table_of (wrangle_data strptime_ymd float_rejects 0%nat 1%nat infinite_world) = Ok df) as Ht
    by (by rewrite (table_of_wrangle_data _ _ _ _ _ infinite_records ["A"])).
  vm_compute in E. injection E as <-.
  destruct (H _ 737791 "A" Ht) as (v & Hv & Hfin).
  - by left.
  - by left.
  - vm_compute in Hv. injection Hv as <-. discriminate.
Qed.

Lemma marker_sample :
  ∃ df, table_of (wrangle_data strptime_ymd float_rejects 0%nat 1%nat marker_world) = Ok df ∧
        index df = [737791; 737792] ∧ columns df = ["A"].
Proof. eexists. split; [vm_done|]. split; vm_done. Qed.

Lemma wrangle_data_cells_witness :
  ∃ df, table_of (wrangle_data strptime_ymd float_rejects 0%nat 1%nat marker_world) = Ok df ∧
    getitem {| Date := "2021-01-01"; fields := {[ "A" := NoData ]} |} "A"
      = Ok (PNum NoData) ∧
    cells df !! (737791, "A") = Some (S754_zero false) ∧
    ∃ v, cells df !! (737792, "A") = Some v ∧ isna v = false ∧ is_finite v = true.
Proof.
  destruct marker_sample as (df & Hdf & Hidx & Hcols).
  destruct (wrangle_data_cells strptime_ymd float_rejects marker_world 0%nat 1%nat marker_records ["A"]
              df eq_refl eq_refl Hdf) as [Hcells Hnone].
  assert ("A" ∈ ["A"]) as Hin by (by left).
  assert (getitem {| Date := "2021-01-01"; fields := {[ "A" := NoData ]} |} "A"
          = Ok (PNum NoData)) as Hget by vm_done.
  assert (parse_date strptime_ymd "2021-01-01" = Ok 737791) as Hd by vm_done.
  exists df. split; [exact Hdf|]. split; [exact Hget|]. split.
  - apply (Hnone [] {| Date := "2021-01-01"; fields := {[ "A" := NoData ]} |}
             [ {| Date := "2021-01-02";
                  fields := {[ "A" := Float (S754_finite false 5629499534213120 (-51)) ]} |} ]
             "A" 737791 eq_refl Hin Hget Hd).
    intros e' He'. by apply elem_of_nil in He'.
  - destruct (Hcells 737792 "A") as (v & Hv & Hnan & Hfin).
    + rewrite Hidx. right. by left.
    + rewrite Hcols. by left.
    + exists v. split; [exact Hv|]. split; [exact Hnan|].
      apply Hfin; [discriminate|].
      intros e s He Hinf. unfold marker_records in He.
      rewrite !elem_of_cons, elem_of_nil in He.
      destruct He as [->|[->|[]]]; vm_compute in Hinf; discriminate Hinf.
Defined.

(** C3, as stated, fails: when the value of the first record is the float
    NaN, the cell still counts as unset after the first write, and the
    returned table holds the value of the second record. *)
Lemma first_write_wins_counterexample :
  ¬ (∀ df e1 e2 f,
       nan_records = [e1; e2] →
       table_of (wrangle_data strptime_ymd float_rejects 0%nat 1%nat nan_world) = Ok df →
       cell_value float_rejects e1 "A" = Ok f →
       cells df !! (737822, "A") = Some f).
Proof.
  intros H.
  destruct (wrangle_frame strptime_ymd float_rejects nan_records ["A"]) as [df|] eqn:E;
    [|vm_compute in E; discriminate E].
  assert (table_of (wrangle_data strptime_ymd float_rejects 0%nat 1%nat nan_world) = Ok df) as Ht
    by (by rewrite (table_of_wrangle_data _ _ _ _ _ nan_records ["A"])).
  vm_compute in E. injection E as <-.
  specialize (H _ _ _ S754_nan eq_refl Ht eq_refl).
  vm_compute in H. discriminate H.
Qed.

Lemma first_write_wins_witness :
  ∃ v5,
    float_of_int 5 = Ok v5 ∧
    (∀ df, table_of (wrangle_data strptime_ymd float_rejects 0%nat 1%nat duplicate_world) = Ok df →
           cells df !! (737822, "A") = Some v5) ∧
    table_of (wrangle_data strptime_ymd float_rejects 2%nat 1%nat duplicate_world) =
    table_of (wrangle_data strptime_ymd float_rejects 0%nat 1%nat duplicate_world).
Proof.
  exists (S754_finite false 5629499534213120 (-50)).
  assert ("A" ∈ ["A"]) as Hin by (by left).
  assert (parse_date strptime_ymd (Date first_record) = Ok 737822) as Hd1 by vm_done.
  assert (parse_date strptime_ymd (Date second_record) = Ok 737822) as Hd2 by vm_done.
  assert (∀ e : entry, e ∈ [] → parse_date strptime_ymd (Date e) ≠ Ok 737822) as Hfirst
    by (intros e He; by apply elem_of_nil in He).
  assert (cell_value float_rejects first_record "A" = Ok (S754_finite false 5629499534213120 (-50)))
    as Hval by vm_done.
  destruct (first_write_wins strptime_ymd float_rejects duplicate_world 0%nat 1%nat
              [] first_record [] second_record [] ["A"] "A" 737822
              (S754_finite false 5629499534213120 (-50))
              eq_refl eq_refl Hin Hd1 Hd2 Hfirst Hval eq_refl) as [H1 H2].
  split; [vm_done|]. split; [exact H1|].
  apply (H2 2%nat ∅); [reflexivity|].
  intros k Hk. rewrite lookup_empty. symmetry. by apply lookup_singleton_ne.
Defined.





Lemma wrangle_data_pure_witness :
  ∃ r w',
    wrangle_data strptime_ymd float_rejects 0%nat 1%nat scenario_world = (r, w') ∧
    hospital_ventilator_df w' = hospital_ventilator_df scenario_world ∧
    vaccine_cases_df w' = vaccine_cases_df scenario_world ∧
    apibutton w' = apibutton scenario_world ∧
    hospital_ventilator_options w' = hospital_ventilator_options scenario_world ∧
    (∃ new, heap w' = heap scenario_world ++ new) ∧
    (∀ l o, heap scenario_world !! l = Some o → heap w' !! l = Some o) ∧
    heap w' !! 0%nat = Some (ORecords scenario_records) ∧
    heap w' !! 1%nat = Some (OStrs ["A"]) ∧
    (∀ w2 rawdata2 column_array2,
       heap w2 !! rawdata2 = Some (ORecords scenario_records) →
       heap w2 !! column_array2 = Some (OStrs ["A"]) →
       table_of (wrangle_data strptime_ymd float_rejects rawdata2 column_array2 w2) = table_of (r, w')) ∧
    table_of (wrangle_data strptime_ymd float_rejects 0%nat 1%nat w') = table_of (r, w').
Proof.
  apply (wrangle_data_pure strptime_ymd float_rejects scenario_world 0%nat 1%nat scenario_records ["A"]);
    reflexivity.
Defined.

(** C5, as stated, fails: when the answer of the server lacks the case
    and vaccine fields, the first table is replaced, the second call of
    [wrangle_data] raises, and the second table stays as it was. *)
Lemma refresh_cycle_atomic_counterexample :
  ¬ ((hospital_ventilator_df (refreshed_partial strptime_ymd float_rejects)
        ≠ hospital_ventilator_df (started_world strptime_ymd float_rejects) ∧
      vaccine_cases_df (refreshed_partial strptime_ymd float_rejects)
        ≠ vaccine_cases_df (started_world strptime_ymd float_rejects)) ∨
     (hospital_ventilator_df (refreshed_partial strptime_ymd float_rejects)
        = hospital_ventilator_df (started_world strptime_ymd float_rejects) ∧
      vaccine_cases_df (refreshed_partial strptime_ymd float_rejects)
        = vaccine_cases_df (started_world strptime_ymd float_rejects) ∧
      shows_failure (refreshed_partial strptime_ymd float_rejects))).
Proof.
  intros [[_ H]|[H _]].
  - apply H. vm_done.
  - vm_compute in H. discriminate H.
Qed.

Lemma refresh_cycle_witness :
  ∃ w' df1,
    api_button_callback strptime_ymd float_rejects (Ok partial_records) (started_world strptime_ymd float_rejects)
      = (Ok tt, w') ∧
    disabled (apibutton w') = true ∧
    wrangle_frame strptime_ymd float_rejects partial_records hospital_ventilator_columns = Ok df1 ∧
    heap w' !! hospital_ventilator_df w' = Some (OFrame df1) ∧
    vaccine_cases_df w' = vaccine_cases_df (started_world strptime_ymd float_rejects) ∧
    shows_failure w'.
Proof.
  destruct (refresh_cycle strptime_ymd float_rejects (Ok partial_records) (started_world strptime_ymd float_rejects))
    as (w' & Hrun & Hdis & _ & Hcases).
  destruct (wrangle_frame strptime_ymd float_rejects partial_records hospital_ventilator_columns)
    as [df1|] eqn:E1; [|vm_compute in E1; discriminate E1].
  destruct (wrangle_frame strptime_ymd float_rejects partial_records vaccine_cases_columns)
    as [df2|] eqn:E2; [vm_compute in E2; discriminate E2|].
  destruct Hcases as (Hh & _ & Hv & Hfail).
  exists w', df1.
  exact (conj Hrun (conj Hdis (conj eq_refl (conj Hh (conj Hv Hfail))))).
Defined.



Lemma parse_date_order_witness :
  Forall (λ e, is_Ok (parse_date strptime_ymd (Date e))) scenario_records ∧
  date_ordered strptime_ymd scenario_records ∧
  (String.leb "2021-01-01" "2021-01-03" = true ↔ 737791 <= 737793) ∧
  (737791 = 737793 ↔ "2021-01-01" = "2021-01-03").
Proof.
  assert (Forall (λ e, is_Some (iso_date (Date e))) scenario_records) as Hiso.
  { apply Forall_cons. split; [by exists 737791|].
    apply Forall_cons. split; [by exists 737793|]. apply Forall_nil_2. }
  destruct (parse_date_order strptime_ymd scenario_records
              strptime_ymd_reads_iso_dates Hiso) as (Hall & Hord & Hcmp).
  split; [exact Hall|]. split; [exact Hord|].
  apply (Hcmp {| Date := "2021-01-01"; fields := {[ "A" := Int 5 ]} |}
              {| Date := "2021-01-03"; fields := {[ "A" := Int 7 ]} |}).
  - apply list_elem_of_here.
  - apply list_elem_of_further, list_elem_of_here.
  - vm_done.
  - vm_done.
Defined.

Lemma initialize_dataframe_interior_witness :
  table_of (initialize_dataframe strptime_ymd 2%nat 1%nat interior_world) =
  table_of (initialize_dataframe strptime_ymd 0%nat 1%nat interior_world).
Proof.
  assert ({| Date := "2021-01-01"; fields := {[ "A" := Int 1 ]} |} ∈ outer_records)
    as Ha by (apply list_elem_of_here).
  assert ({| Date := "2021-01-03"; fields := {[ "A" := Int 3 ]} |} ∈ outer_records)
    as Hb by (apply list_elem_of_further, list_elem_of_here).
  exact (initialize_dataframe_interior strptime_ymd float_rejects interior_world 0%nat 2%nat 1%nat
           [ {| Date := "2021-01-01"; fields := {[ "A" := Int 1 ]} |} ]
           interior_record
           [ {| Date := "2021-01-03"; fields := {[ "A" := Int 3 ]} |} ]
           ["A"] _ _ eq_refl eq_refl eq_refl Ha Hb eq_refl eq_refl).
Defined.


Lemma set_dataframe_value_failure_witness :
  set_dataframe_value strptime_ymd float_rejects 3%nat {| Date := "2021-01-01"; fields := ∅ |} "A"
    (initialize_dataframe strptime_ymd 0%nat 1%nat missing_world).2
  = (Err KeyError, (initialize_dataframe strptime_ymd 0%nat 1%nat missing_world).2) ∧
  (initialize_dataframe strptime_ymd 0%nat 1%nat missing_world).2
    = (initialize_dataframe strptime_ymd 0%nat 1%nat missing_world).2 ∧
  (KeyError = KeyError ∨ KeyError = ValueError ∨ KeyError = OverflowError).
Proof.
  assert (heap (initialize_dataframe strptime_ymd 0%nat 1%nat missing_world).2 !! 3%nat
            = Some (OFrame (DataFrame_new [737791] ["A"]))) as Hdf by vm_done.
  assert (set_dataframe_value strptime_ymd float_rejects 3%nat
            {| Date := "2021-01-01"; fields := ∅ |} "A"
            (initialize_dataframe strptime_ymd 0%nat 1%nat missing_world).2
          = (Err KeyError, (initialize_dataframe strptime_ymd 0%nat 1%nat missing_world).2))
    as Hrun by vm_done.
  exact (conj Hrun (set_dataframe_value_failure strptime_ymd float_rejects _ _ _ _ _ _ _ Hdf Hrun)).
Defined.

Lemma set_dataframe_value_one_cell_witness :
  ∃ d df' v,
    parse_date strptime_ymd "2021-01-01" = Ok d ∧
    heap (set_dataframe_value strptime_ymd float_rejects 3%nat
            {| Date := "2021-01-01"; fields := {[ "A" := Int 5 ]} |} "A"
            (initialize_dataframe strptime_ymd 0%nat 1%nat scenario_world).2).2
      = <[3%nat := OFrame df']>
          (heap (initialize_dataframe strptime_ymd 0%nat 1%nat scenario_world).2) ∧
    index df' = [737791; 737792; 737793] ∧ columns df' = ["A"] ∧
    (∀ d' c', (d', c') ≠ (d, "A") →
       cells df' !! (d', c') = nan_cells [737791; 737792; 737793] ["A"] !! (d', c')) ∧
    nan_cells [737791; 737792; 737793] ["A"] !! (d, "A") = Some v ∧
    (isna v = false →
     (set_dataframe_value strptime_ymd float_rejects 3%nat
        {| Date := "2021-01-01"; fields := {[ "A" := Int 5 ]} |} "A"
        (initialize_dataframe strptime_ymd 0%nat 1%nat scenario_world).2).2
     = (initialize_dataframe strptime_ymd 0%nat 1%nat scenario_world).2) ∧
    (isna v = true →
     ∃ f, cell_value float_rejects {| Date := "2021-01-01"; fields := {[ "A" := Int 5 ]} |} "A" = Ok f ∧
          cells df' !! (d, "A") = Some f).
Proof.
  assert (heap (initialize_dataframe strptime_ymd 0%nat 1%nat scenario_world).2 !! 3%nat
            = Some (OFrame (DataFrame_new [737791; 737792; 737793] ["A"])))
    as Hdf by vm_done.
  assert ((set_dataframe_value strptime_ymd float_rejects 3%nat
             {| Date := "2021-01-01"; fields := {[ "A" := Int 5 ]} |} "A"
             (initialize_dataframe strptime_ymd 0%nat 1%nat scenario_world).2).1 = Ok tt)
    as Hrun by vm_done.
  exact (set_dataframe_value_one_cell strptime_ymd float_rejects _ 3%nat _ _ "A" _
           (DataFrame_new_wf strptime_ymd float_rejects [737791; 737792; 737793] ["A"]) Hdf
           (eq_trans (surjective_pairing _)
              (f_equal (λ r, (r, _)) Hrun))).
Defined.

Lemma set_dataframe_value_twice_witness :
  (set_dataframe_value strptime_ymd float_rejects 3%nat
     {| Date := "2021-01-01"; fields := {[ "A" := Int 5 ]} |} "A";;
   set_dataframe_value strptime_ymd float_rejects 3%nat
     {| Date := "2021-01-01"; fields := {[ "A" := Int 5 ]} |} "A")
    (initialize_dataframe strptime_ymd 0%nat 1%nat scenario_world).2 =
  set_dataframe_value strptime_ymd float_rejects 3%nat
    {| Date := "2021-01-01"; fields := {[ "A" := Int 5 ]} |} "A"
    (initialize_dataframe strptime_ymd 0%nat 1%nat scenario_world).2.
Proof.
  assert (heap (initialize_dataframe strptime_ymd 0%nat 1%nat scenario_world).2 !! 3%nat
            = Some (OFrame (DataFrame_new [737791; 737792; 737793] ["A"])))
    as Hdf by vm_done.
  exact (set_dataframe_value_twice strptime_ymd float_rejects _ 3%nat _ _ "A"
           (DataFrame_new_wf strptime_ymd float_rejects [737791; 737792; 737793] ["A"]) Hdf).
Defined.

Lemma scenario_table :
  ∃ df, table_of (wrangle_data strptime_ymd float_rejects 0%nat 1%nat scenario_world) = Ok df.
Proof. eexists. vm_done. Qed.

Lemma wrangle_data_shape_witness :
  ∃ df, table_of (wrangle_data strptime_ymd float_rejects 0%nat 1%nat scenario_world) = Ok df ∧
    columns df = ["A"] ∧ NoDup ["A"] ∧ index df ≠ [] ∧
    (∀ e, e ∈ scenario_records →
          ∃ d, parse_date strptime_ymd (Date e) = Ok d ∧ d ∈ index df) ∧
    ∀ d c, is_Some (cells df !! (d, c)) ↔ d ∈ index df ∧ c ∈ ["A"].
Proof.
  destruct scenario_table as [df Hdf].
  destruct (wrangle_data_shape strptime_ymd float_rejects scenario_world 0%nat 1%nat
              scenario_records ["A"] df eq_refl eq_refl Hdf)
    as (Hcols & Hnd & _ & Hrows & Hcells).
  destruct (Hrows ltac:(discriminate)) as [Hne Hcover].
  exists df.
  exact (conj Hdf (conj Hcols (conj Hnd (conj Hne (conj Hcover Hcells))))).
Defined.

Lemma wrangle_data_other_fields_witness :
  table_of (wrangle_data strptime_ymd float_rejects 2%nat 1%nat variants_world) =
  table_of (wrangle_data strptime_ymd float_rejects 0%nat 1%nat variants_world).
Proof.
  assert (Forall2 (λ e e', Date e = Date e' ∧
                           ∀ c, c ∈ ["A"] → fields e !! c = fields e' !! c)
            scenario_records annotated_records) as Hsame.
  { constructor; [split; [reflexivity|]|
      constructor; [split; [reflexivity|]|constructor]];
      intros c Hc; apply list_elem_of_singleton in Hc; subst c; vm_done. }
  exact (wrangle_data_other_fields strptime_ymd float_rejects variants_world 0%nat 2%nat 1%nat
           scenario_records annotated_records ["A"] eq_refl eq_refl eq_refl Hsame).
Defined.

Lemma variants_tables :
  (∃ df, table_of (wrangle_data strptime_ymd float_rejects 0%nat 1%nat variants_world) = Ok df) ∧
  (∃ df, table_of (wrangle_data strptime_ymd float_rejects 2%nat 1%nat variants_world) = Ok df) ∧
  (∃ df, table_of (wrangle_data strptime_ymd float_rejects 2%nat 4%nat variants_world) = Ok df).
Proof. split; [|split]; eexists; vm_done. Qed.

Lemma wrangle_data_record_order_witness :
  ∃ df, table_of (wrangle_data strptime_ymd float_rejects 0%nat 1%nat variants_world) = Ok df ∧
        table_of (wrangle_data strptime_ymd float_rejects 3%nat 1%nat variants_world) = Ok df.
Proof.
  assert (scenario_records ≡ₚ reversed_records) as Hperm by apply perm_swap.
  assert (one_per_day strptime_ymd scenario_records) as Hnd.
  { split.
    - apply NoDup_cons. split; [|apply NoDup_singleton].
      intros Hin. apply list_elem_of_singleton in Hin. discriminate.
    - intros e e' d He He'. unfold scenario_records in He, He'.
      rewrite !elem_of_cons, elem_of_nil in He, He'.
      destruct He as [->|[->|[]]], He' as [->|[->|[]]]; try reflexivity;
        vm_compute; congruence. }
  destruct variants_tables as ([df Hdf] & _).
  exists df. split; [exact Hdf|].
  exact (wrangle_data_record_order strptime_ymd float_rejects variants_world 0%nat 3%nat 1%nat
           scenario_records reversed_records ["A"] df
           eq_refl eq_refl eq_refl Hperm Hnd Hdf).
Defined.

Lemma wrangle_data_columns_independent_witness :
  ∃ df df',
    table_of (wrangle_data strptime_ymd float_rejects 2%nat 1%nat variants_world) = Ok df ∧
    table_of (wrangle_data strptime_ymd float_rejects 2%nat 4%nat variants_world) = Ok df' ∧
    index df' = index df ∧
    ∀ d c, c ∈ ["A"] → c ∈ ["B"; "A"] → cells df' !! (d, c) = cells df !! (d, c).
Proof.
  destruct variants_tables as (_ & [df Hdf] & [df' Hdf']).
  exists df, df'. split; [exact Hdf|]. split; [exact Hdf'|].
  exact (wrangle_data_columns_independent strptime_ymd float_rejects variants_world 2%nat 1%nat 4%nat
           annotated_records ["A"] ["B"; "A"] df df'
           eq_refl eq_refl eq_refl Hdf Hdf').
Defined.


Lemma timeframe_dates_index_witness :
  ∃ df ds first last,
    table_of (wrangle_data strptime_ymd float_rejects 0%nat 1%nat scenario_world) = Ok df ∧
    timeframe_dates df = Ok ds ∧ ds = index df ∧
    list_item ds 0 = Ok first ∧
    list_item ds (Z.of_nat (length ds) - 1) = Ok last ∧
    first <= last.
Proof.
  destruct scenario_table as [df Hdf].
  destruct (timeframe_dates_index strptime_ymd float_rejects scenario_world 0%nat 1%nat
              scenario_records ["A"] df eq_refl eq_refl ltac:(discriminate) Hdf)
    as (ds & first & last & H1 & H2 & H3 & H4 & H5 & _).
  exists df, ds, first, last.
  exact (conj Hdf (conj H1 (conj H2 (conj H3 (conj H4 H5))))).
Defined.

Lemma plotted_table :
  ∃ df, wrangle_frame strptime_ymd float_rejects scenario_records ["A"] = Ok df ∧
        heap (plotted_world strptime_ymd float_rejects)
          !! hospital_ventilator_df (plotted_world strptime_ymd float_rejects) = Some (OFrame df).
Proof. eexists. split; vm_done. Qed.

Lemma plot_ventilator_hospital_default_witness :
  ∃ df ds first last,
    heap (plotted_world strptime_ymd float_rejects) !! hospital_ventilator_df (plotted_world strptime_ymd float_rejects)
      = Some (OFrame df) ∧
    timeframe_dates df = Ok ds ∧
    list_item ds 0 = Ok first ∧
    list_item ds (-1) = Ok last ∧
    plot_ventilator_hospital ["A"] (first, last) (plotted_world strptime_ymd float_rejects)
      = (Ok df, plotted_world strptime_ymd float_rejects).
Proof.
  destruct plotted_table as (df & Hw & Hdf).
  destruct (plot_ventilator_hospital_default strptime_ymd float_rejects (plotted_world strptime_ymd float_rejects)
              scenario_records ["A"] df Hdf ltac:(discriminate) Hw)
    as (ds & first & last & H1 & H2 & H3 & H4).
  exists df, ds, first, last.
  exact (conj Hdf (conj H1 (conj H2 (conj H3 H4)))).
Defined.

Lemma plot_ventilator_hospital_selection_witness :
  (∃ lo hi shown,
     span strptime_ymd scenario_records = Ok (lo, hi) ∧
     plot_ventilator_hospital ["A"] (737792, 737800) (plotted_world strptime_ymd float_rejects)
       = (Ok shown, plotted_world strptime_ymd float_rejects) ∧
     index shown = date_range (Z.max lo 737792) (Z.min hi 737800) ∧
     columns shown = ["A"]) ∧
  plot_ventilator_hospital ["B"] (737792, 737800) (plotted_world strptime_ymd float_rejects)
    = (Err KeyError, plotted_world strptime_ymd float_rejects).
Proof.
  destruct plotted_table as (df & Hw & Hdf).
  assert (Forall (λ c, c ∈ ["A"]) ["A"]) as Hall.
  { apply Forall_cons. split; [apply list_elem_of_here|apply Forall_nil_2]. }
  assert (¬ Forall (λ c, c ∈ ["A"]) ["B"]) as Hno.
  { intros [Hin _]%Forall_cons. apply list_elem_of_singleton in Hin. discriminate. }
  destruct (proj1 (plot_ventilator_hospital_selection strptime_ymd float_rejects
                     (plotted_world strptime_ymd float_rejects) scenario_records
                     ["A"] df ["A"] 737792 737800 Hdf Hw) Hall)
    as (lo & hi & shown & H1 & H2 & H3 & H4 & _).
  split.
  - exists lo, hi, shown. exact (conj H1 (conj H2 (conj H3 H4))).
  - exact (proj2 (plot_ventilator_hospital_selection strptime_ymd float_rejects
                    (plotted_world strptime_ymd float_rejects) scenario_records
                    ["A"] df ["B"] 737792 737800 Hdf Hw) Hno).
Defined.

Lemma refresh_then_plot_witness :
  ∃ df1 first last,
    wrangle_frame strptime_ymd float_rejects partial_records hospital_ventilator_columns = Ok df1 ∧
    list_item (index df1) 0 = Ok first ∧
    list_item (index df1) (-1) = Ok last ∧
    plot_ventilator_hospital hospital_ventilator_columns (first, last)
      (refreshed_partial strptime_ymd float_rejects)
    = (Ok df1, refreshed_partial strptime_ymd float_rejects).
Proof.
  assert (is_Ok (wrangle_frame strptime_ymd float_rejects partial_records hospital_ventilator_columns))
    as Hok by vm_done.
  revert Hok.
  destruct (wrangle_frame strptime_ymd float_rejects partial_records hospital_ventilator_columns)
    as [df1|] eqn:Hw; [intros _|intros []].
  destruct (refresh_then_plot strptime_ymd float_rejects partial_records (started_world strptime_ymd float_rejects)
              df1 Hw)
    as (first & last & H1 & H2 & H3).
  exists df1, first, last. exact (conj eq_refl (conj H1 (conj H2 H3))).
Defined.

Lemma refresh_keeps_timeframe_witness :
  ∃ df1 shown,
    wrangle_frame strptime_ymd float_rejects partial_records hospital_ventilator_columns = Ok df1 ∧
    index df1 = date_range 737792 737792 ∧
    plot_ventilator_hospital hospital_ventilator_columns (737791, 737791)
      (refreshed_partial strptime_ymd float_rejects) = (Ok shown, refreshed_partial strptime_ymd float_rejects) ∧
    (∀ d, d ∈ index shown ↔ 737791 <= d <= 737791 ∧ d ∈ index df1).
Proof.
  assert (is_Ok (wrangle_frame strptime_ymd float_rejects cached_records hospital_ventilator_columns))
    as Hok0 by vm_done.
  assert (is_Ok (wrangle_frame strptime_ymd float_rejects partial_records hospital_ventilator_columns))
    as Hok1 by vm_done.
  assert (span strptime_ymd cached_records = Ok (737791, 737791)) as Hspan0 by vm_done.
  assert (span strptime_ymd partial_records = Ok (737792, 737792)) as Hspan1 by vm_done.
  revert Hok0 Hok1.
  destruct (wrangle_frame strptime_ymd float_rejects cached_records hospital_ventilator_columns)
    as [df0|] eqn:H0; [intros _|intros []].
  destruct (wrangle_frame strptime_ymd float_rejects partial_records hospital_ventilator_columns)
    as [df1|] eqn:H1; [intros _|intros []].
  destruct (wrangle_frame_spec _ _ _ _ _ H0) as (lo0 & hi0 & Hs0 & Hi0 & _).
  destruct (wrangle_frame_spec _ _ _ _ _ H1) as (lo1 & hi1 & Hs1 & Hi1 & _).
  rewrite Hspan0 in Hs0. injection Hs0 as <- <-.
  rewrite Hspan1 in Hs1. injection Hs1 as <- <-.
  destruct (timeframe_dates_range df0 737791 737791 Hi0 ltac:(lia)) as (Hds & _).
  assert (737791 ∈ index df0) as Hin
    by (rewrite Hi0; apply elem_of_date_range; lia).
  assert (Forall (λ c, c ∈ hospital_ventilator_columns) hospital_ventilator_columns)
    as Hall by (by apply Forall_forall).
  destruct (refresh_keeps_timeframe strptime_ymd float_rejects cached_records partial_records
              (started_world strptime_ymd float_rejects)
              df0 df1 (index df0) 737791 737791 hospital_ventilator_columns
              H0 Hds Hin Hin H1 Hall)
    as (shown & Hrun & Hrows & _).
  exists df1, shown. exact (conj eq_refl (conj Hi1 (conj Hrun Hrows))).
Defined.


Lemma wrangle_data_provenance_witness :
  ∃ df v,
    table_of (wrangle_data strptime_ymd float_rejects 0%nat 1%nat scenario_world) = Ok df ∧
    cells df !! (737793, "A") = Some v ∧
    (v = zero ∨
     ∃ e, e ∈ scenario_records ∧ parse_date strptime_ymd (Date e) = Ok 737793 ∧
          cell_value float_rejects e "A" = Ok v).
Proof.
  assert (∃ df v, table_of (wrangle_data strptime_ymd float_rejects 0%nat 1%nat scenario_world) = Ok df ∧
                  cells df !! (737793, "A") = Some v)
    as (df & v & Hdf & Hv) by (eexists _, _; split; vm_done).
  exists df, v. split; [exact Hdf|]. split; [exact Hv|].
  exact (wrangle_data_provenance strptime_ymd float_rejects scenario_world 0%nat 1%nat
           scenario_records ["A"] df 737793 "A" v eq_refl eq_refl Hdf Hv).
Defined.
